(** * Suraksha AI service: the three analytical engines

    A shallow embedding of [ml_models/anomaly_detector.py],
    [ml_models/pattern_analyzer.py] and [ml_models/risk_predictor.py],
    with the statements of the specification proved or refuted on it.

    Conventions of the embedding:
    - a Python float is a rational ([Q]); arithmetic is exact, comparisons
      are the order of [Q];
    - a [try ... except Exception] block is a value of [result], and the
      handler is the [Err] branch of a match;
    - a dict read from JSON or from the store is a record whose optional
      keys are [option] fields ([None]: the key is absent);
    - [geopy.distance.geodesic], [numpy.arctan2], [numpy.pi],
      [numpy.std], [numpy.percentile] and the float formatters of
      f-strings are parameters of the sections that use them;
    - [datetime.utcnow()] is the parameter [now]. *)

From Stdlib Require Import QArith Qround Qabs Qminmax ZArith List String Lia Lqa.
From Stdlib Require Import Permutation Sorted.
From stdpp Require Import gmap strings pretty.
From Equations Require Import Equations.
Import ListNotations.
Open Scope Q_scope.

(** ** Exceptions and fallible computations *)

Inductive exn : Type :=
| KeyError (key : string)
| ValueError (msg : string)
| TypeError (msg : string)
| IndexError (msg : string)
| GatewayError (msg : string).

(** [str(e)]: a [KeyError] prints the repr of its key. *)
Definition str_exn (e : exn) : string :=
  match e with
  | KeyError key => ("'" +:+ key +:+ "'")%string
  | ValueError msg | TypeError msg | IndexError msg | GatewayError msg => msg
  end.

Inductive result (A : Type) : Type :=
| Ok (a : A)
| Err (e : exn).
Arguments Ok {A} a.
Arguments Err {A} e.

Definition bind {A B : Type} (r : result A) (k : A -> result B) : result B :=
  match r with
  | Ok a => k a
  | Err e => Err e
  end.

Declare Scope result_scope.
Delimit Scope result_scope with result.
Notation "'let?' x ':=' r 'in' k" := (bind r (fun x => k))
  (at level 10, x name, r at level 100, k at level 200) : result_scope.
Open Scope result_scope.

Lemma bind_Ok {A B : Type} (r : result A) (k : A -> result B) (b : B) :
  bind r k = Ok b -> exists a, r = Ok a /\ k a = Ok b.
Proof.
  destruct r as [a|e]; simpl; intros H; [exists a; split; [reflexivity|exact H]|discriminate].
Qed.

(** [d[key]] on a dict whose key may be absent. *)
Definition getitem {A : Type} (key : string) (field : option A) : result A :=
  match field with
  | Some a => Ok a
  | None => Err (KeyError key)
  end.

(** [d.get(key, dflt)]. *)
Definition get {A : Type} (field : option A) (dflt : A) : A :=
  match field with
  | Some a => a
  | None => dflt
  end.

(** [d.get(key, dflt)] on a dict literal, kept as its list of items. *)
Fixpoint dict_get {V : Type} (d : list (string * V)) (key : string) (dflt : V) : V :=
  match d with
  | [] => dflt
  | (k, v) :: d' => if String.eqb k key then v else dict_get d' key dflt
  end.

(** ** Numbers *)

Definition Qltb (x y : Q) : bool := negb (Qle_bool y x).

Lemma Qltb_lt (x y : Q) : Qltb x y = true <-> x < y.
Proof.
  unfold Qltb. rewrite negb_true_iff. split; intros H.
  - apply Qnot_le_lt. intros Hle. apply Qle_bool_iff in Hle. congruence.
  - destruct (Qle_bool y x) eqn:E; [|reflexivity].
    apply Qle_bool_iff in E. exfalso. exact (Qlt_not_le _ _ H E).
Qed.

Lemma Qltb_ge (x y : Q) : Qltb x y = false <-> y <= x.
Proof.
  unfold Qltb. rewrite negb_false_iff. apply Qle_bool_iff.
Qed.

Definition Qsum (l : list Q) : Q := fold_right Qplus 0 l.

Definition Qlen {A : Type} (l : list A) : Q := inject_Z (Z.of_nat (length l)).

(** [numpy.mean] of a non-empty list. *)
Definition np_mean (l : list Q) : Q := Qsum l / Qlen l.

(** Python's [max] over a non-empty list, written as head and tail: the
    first maximal element is kept. *)
Fixpoint py_max (x : Q) (l : list Q) : Q :=
  match l with
  | [] => x
  | y :: r => py_max (if Qltb x y then y else x) r
  end.

(** [max(l)]; [ValueError] on the empty list. *)
Definition max_list (l : list Q) : result Q :=
  match l with
  | [] => Err (ValueError "max() arg is an empty sequence")
  | x :: r => Ok (py_max x r)
  end.

Fixpoint py_min (x : Q) (l : list Q) : Q :=
  match l with
  | [] => x
  | y :: r => py_min (if Qltb y x then y else x) r
  end.

(** Rounding to the nearest integer, ties to even, as [round] does. *)
Definition round_half_even (x : Q) : Z :=
  let f := Qfloor x in
  let r := x - inject_Z f in
  if Qltb r (1 # 2) then f
  else if Qltb (1 # 2) r then (f + 1)%Z
  else if Z.even f then f else (f + 1)%Z.

(** [round(x, 2)] of the exact number [x]. Python rounds the binary
    float it has computed, which lies within a few units in the last
    place of [x]: away from an exact tie in the third decimal the two
    agree, and at such a tie the float may fall on either side of it. *)
Definition round2 (x : Q) : Q := inject_Z (round_half_even (x * 100)) / 100.

(** [r] is [x] brought to one of the two hundredths next to it: a whole
    number of hundredths that is [x * 100] rounded down or rounded up.
    This is what [round(x, 2)] gives whichever way a tie goes. *)
Definition hundredth_of (x r : Q) : Prop :=
  exists k : Z, r == inject_Z k / 100 /\ (k = Qfloor (x * 100) \/ k = Qceiling (x * 100)).

Lemma Qltb_comp (x x' y y' : Q) : x == x' -> y == y' -> Qltb x y = Qltb x' y'.
Proof.
  intros Hx Hy. unfold Qltb. rewrite (Qleb_comp _ _ Hy _ _ Hx). reflexivity.
Qed.

Lemma round_half_even_comp (x y : Q) : x == y -> round_half_even x = round_half_even y.
Proof.
  intros H. unfold round_half_even.
  rewrite (Qfloor_comp _ _ H).
  assert (Hr : x - inject_Z (Qfloor y) == y - inject_Z (Qfloor y)) by (rewrite H; reflexivity).
  rewrite (Qltb_comp _ _ _ _ Hr (Qeq_refl _)).
  rewrite (Qltb_comp _ _ _ _ (Qeq_refl (1 # 2)) Hr).
  reflexivity.
Qed.

Lemma round_half_even_bounds (x : Q) :
  (Qfloor x <= round_half_even x <= Qfloor x + 1)%Z.
Proof.
  unfold round_half_even.
  destruct (Qltb _ _); [lia|]. destruct (Qltb _ _); [lia|].
  destruct (Z.even _); lia.
Qed.

(** Rounding keeps the order: two numbers with different floors are
    separated by an integer, and within one unit interval the fractional
    parts decide. *)
Lemma round_half_even_mono (x y : Q) :
  x <= y -> (round_half_even x <= round_half_even y)%Z.
Proof.
  intros Hxy.
  pose proof (Qfloor_resp_le _ _ Hxy) as Hf.
  pose proof (round_half_even_bounds x) as Hx.
  pose proof (round_half_even_bounds y) as Hy.
  destruct (Z.eq_dec (Qfloor x) (Qfloor y)) as [E|E]; [|lia].
  clear Hx Hy Hf. unfold round_half_even. rewrite E.
  destruct (Qltb (x - inject_Z (Qfloor y)) (1 # 2)) eqn:E1.
  - destruct (Qltb (y - inject_Z (Qfloor y)) (1 # 2)); [lia|].
    destruct (Qltb (1 # 2) (y - inject_Z (Qfloor y))); [lia|].
    destruct (Z.even (Qfloor y)); lia.
  - apply Qltb_ge in E1.
    destruct (Qltb (y - inject_Z (Qfloor y)) (1 # 2)) eqn:E2.
    { apply Qltb_lt in E2. lra. }
    destruct (Qltb (1 # 2) (x - inject_Z (Qfloor y))) eqn:E3.
    + apply Qltb_lt in E3.
      destruct (Qltb (1 # 2) (y - inject_Z (Qfloor y))) eqn:E4; [lia|].
      apply Qltb_ge in E4. lra.
    + destruct (Qltb (1 # 2) (y - inject_Z (Qfloor y)));
        [destruct (Z.even (Qfloor y)); lia|].
      lia.
Qed.

Lemma round_half_even_neighbour (x : Q) :
  round_half_even x = Qfloor x \/ round_half_even x = Qceiling x.
Proof.
  unfold round_half_even. cbv zeta.
  destruct (Qltb (x - inject_Z (Qfloor x)) (1 # 2)) eqn:E; [left; reflexivity|].
  apply Qltb_ge in E.
  assert (Hup : Qceiling x = (Qfloor x + 1)%Z).
  { pose proof (Qle_ceiling x) as Hc. pose proof (Qceiling_lt x) as Hc'.
    pose proof (Qlt_floor x) as Hf.
    assert (H1 : inject_Z (Qfloor x) < inject_Z (Qceiling x)) by lra.
    assert (H2 : inject_Z (Qceiling x - 1) < inject_Z (Qfloor x + 1)) by lra.
    rewrite <- Zlt_Qlt in H1, H2. lia. }
  destruct (Qltb (1 # 2) (x - inject_Z (Qfloor x))); [right; symmetry; exact Hup|].
  destruct (Z.even (Qfloor x)); [left; reflexivity|right; symmetry; exact Hup].
Qed.

Lemma round2_hundredth (x : Q) : hundredth_of x (round2 x).
Proof.
  exists (round_half_even (x * 100)). split; [reflexivity|].
  apply round_half_even_neighbour.
Qed.

Lemma round2_comp (x y : Q) : x == y -> round2 x = round2 y.
Proof.
  intros H. unfold round2.
  rewrite (round_half_even_comp (x * 100) (y * 100)); [reflexivity|].
  rewrite H. reflexivity.
Qed.

Lemma round2_mono (x y : Q) : x <= y -> round2 x <= round2 y.
Proof.
  intros H. unfold round2.
  assert (H100 : x * 100 <= y * 100) by lra.
  apply round_half_even_mono in H100. rewrite Zle_Qle in H100.
  unfold Qdiv. apply Qmult_le_compat_r; [exact H100|].
  unfold Qinv, Qle; simpl; lia.
Qed.

Lemma fold_left_Qplus {A : Type} (f : A -> Q) (l : list A) :
  forall acc, fold_left (fun acc a => acc + f a) l acc == acc + Qsum (map f l).
Proof.
  induction l as [|a l IH]; intros acc; simpl; [lra|].
  rewrite IH. lra.
Qed.

(** ** [datetime] *)

(** A [datetime] is its wall-clock reading in microseconds and, when it
    is timezone-aware, its UTC offset in microseconds. *)
Record datetime : Type := {
  wall_us : Z;
  utcoffset : option Z
}.

Definition us_per_second : Z := 1000000.
Definition us_per_hour : Z := 3600 * us_per_second.
Definition us_per_day : Z := 24 * us_per_hour.

(** A naive datetime, and an aware one at offset zero. *)
Definition naive (us : Z) : datetime := {| wall_us := us; utcoffset := None |}.
Definition utc (us : Z) : datetime := {| wall_us := us; utcoffset := Some 0%Z |}.

(** [dt.hour]. *)
Definition hour (dt : datetime) : Z := (wall_us dt / us_per_hour) mod 24.

(** [a - b], a [timedelta] in microseconds; mixing a naive and an aware
    operand raises [TypeError]. *)
Definition dt_sub (a b : datetime) : result Z :=
  match utcoffset a, utcoffset b with
  | None, None => Ok (wall_us a - wall_us b)%Z
  | Some oa, Some ob => Ok ((wall_us a - oa) - (wall_us b - ob))%Z
  | _, _ => Err (TypeError "can't subtract offset-naive and offset-aware datetimes")
  end.

(** [td.total_seconds()]. *)
Definition total_seconds (td : Z) : Q := inject_Z td / inject_Z us_per_second.

(** [td.days]: the normalised day field, a floor division. *)
Definition days (td : Z) : Z := (td / us_per_day)%Z.

(** [dt - timedelta(days=n)]. *)
Definition minus_days (dt : datetime) (n : Z) : datetime :=
  {| wall_us := wall_us dt - n * us_per_day; utcoffset := utcoffset dt |}.

(** [a >= b] on datetimes. *)
Definition dt_ge (a b : datetime) : result bool :=
  let? td := dt_sub a b in Ok (0 <=? td)%Z.

(** ** [config.py] *)

Record Config : Type := {
  MIN_DATA_POINTS : Z;
  RISK_PREDICTION_RADIUS : Q;
  ANOMALY_THRESHOLD : Q;
  MOVEMENT_SPEED_THRESHOLD : Q;
  HOTSPOT_RADIUS : Q;
  MIN_INCIDENTS_FOR_HOTSPOT : Z
}.

(** The values used when the environment sets none. *)
Definition default_config : Config := {|
  MIN_DATA_POINTS := 100;
  RISK_PREDICTION_RADIUS := 1.0;
  ANOMALY_THRESHOLD := 0.7;
  MOVEMENT_SPEED_THRESHOLD := 100;
  HOTSPOT_RADIUS := 0.5;
  MIN_INCIDENTS_FOR_HOTSPOT := 5
|}.

(** A coordinate pair [(lat, lng)]. *)
Definition LatLng : Type := (Q * Q)%type.

(** * [ml_models/anomaly_detector.py] *)

Module AnomalyDetector.

(** The ['timestamp'] entry of a telemetry point as the request carries
    it. *)
Inductive RawTimestamp : Type :=
| TsAbsent                 (* the key is missing *)
| TsInvalid (e : exn)      (* [.replace] or [fromisoformat] raises [e] on it *)
| TsIso (dt : datetime).   (* an ISO-8601 string and the datetime it denotes *)

(** One element of [location_data]. *)
Record TelemetryPoint : Type := {
  raw_lat : option Q;
  raw_lng : option Q;
  raw_timestamp : RawTimestamp;
  raw_accuracy : option Q;
  raw_speed : option Q
}.

(** One element of [processed]. *)
Record ProcessedPoint : Type := {
  lat : Q;
  lng : Q;
  timestamp : datetime;
  accuracy : Q;
  speed : Q;
  calculated_speed : Q;
  distance_from_prev : Q;
  time_from_prev : Q
}.

Record FrequentLocation : Type := {
  center : LatLng;
  visit_count : Z
}.

Record Profile : Type := {
  avg_speed : Q;
  max_speed : Q;
  speed_std : Q;
  avg_distance : Q;
  avg_time_interval : Q;
  typical_locations : list FrequentLocation;
  speed_percentiles_95 : Q;
  speed_percentiles_99 : Q
}.

(** The dict every detector returns; [details] is [None] where the key
    is not set. *)
Record Verdict : Type := {
  is_anomaly : bool;
  confidence : Q;
  type : option string;
  details : option string
}.

(** A document of the [userlocations] collection. [h_location] is
    [None] without a ['location'] key and [Some None] when the location
    has no ['coordinates']; coordinates are [(lng, lat)]. *)
Record HistoryRecord : Type := {
  h_location : option (option (Q * Q));
  h_timestamp : option datetime
}.

Record AnomalyRecord : Type := {
  user_id : string;
  location_data_sample : list TelemetryPoint;
  anomaly_result : Verdict;
  detection_timestamp : datetime
}.

(** What the detector asks of [db_client]; either call may raise. *)
Record Gateway : Type := {
  get_user_location_history : string -> Z -> result (list HistoryRecord);
  store_anomaly_detection : AnomalyRecord -> result unit
}.

Inductive GatewayCall : Type :=
| Call_get_user_location_history (uid : string) (hours_back : Z)
| Call_store_anomaly_detection (r : AnomalyRecord).

(** The detector object: the profile cache and the calls it has made on
    the gateway so far, oldest first. *)
Record Detector : Type := {
  user_profiles : gmap string Profile;
  gateway_calls : list GatewayCall
}.

Definition record_call (c : GatewayCall) (self : Detector) : Detector :=
  {| user_profiles := user_profiles self;
     gateway_calls := gateway_calls self ++ [c] |}.

Definition cache_profile (uid : string) (p : Profile) (self : Detector) : Detector :=
  {| user_profiles := <[uid := p]> (user_profiles self);
     gateway_calls := gateway_calls self |}.

Definition no_anomaly : Verdict :=
  {| is_anomaly := false; confidence := 0.0; type := None; details := None |}.

Definition error_verdict : Verdict :=
  {| is_anomaly := false; confidence := 0.0; type := Some "error"%string;
     details := None |}.

Definition insufficient_data : Verdict :=
  {| is_anomaly := false; confidence := 0.0; type := None;
     details := Some "Insufficient data"%string |}.

Definition detection_error (e : exn) : Verdict :=
  {| is_anomaly := false; confidence := 0.0; type := Some "error"%string;
     details := Some ("Detection error: " +:+ str_exn e)%string |}.

Section Engine.

Variable config : Config.
Variable db_client : Gateway.

(** [geodesic(a, b).kilometers], for coordinates geopy accepts: it
    raises [ValueError] for a latitude outside [-90, 90], which is not
    modelled. *)
Variable geodesic_km : LatLng -> LatLng -> Q.
Variable arctan2 : Q -> Q -> Q.
Variable pi : Q.
Variable np_std : list Q -> Q.
Variable np_percentile : list Q -> Q -> Q.
(** [f'{x:.1f}'] and [f'{x:.1%}'] *)
Variable fmt_1f : Q -> string.
Variable fmt_pct1 : Q -> string.

Definition geodesic_m (a b : LatLng) : Q := geodesic_km a b * 1000.

Definition parse_timestamp (ts : RawTimestamp) : result datetime :=
  match ts with
  | TsAbsent => Err (KeyError "timestamp")
  | TsInvalid e => Err e
  | TsIso dt => Ok dt
  end.

(** The body of the [for] loop of [_process_location_data]; [i > 0]
    holds exactly when [processed] already has a last element. *)
Definition process_point (processed : list ProcessedPoint) (point : TelemetryPoint)
  : result ProcessedPoint :=
  let? p_lat := getitem "lat" (raw_lat point) in
  let? p_lng := getitem "lng" (raw_lng point) in
  let? p_timestamp := parse_timestamp (raw_timestamp point) in
  let p_accuracy := get (raw_accuracy point) 10 in
  let p_speed := get (raw_speed point) 0 in
  match last processed with
  | Some prev_point =>
      let distance := geodesic_m (lat prev_point, lng prev_point) (p_lat, p_lng) in
      let? td := dt_sub p_timestamp (timestamp prev_point) in
      let time_diff := total_seconds td in
      Ok {| lat := p_lat; lng := p_lng; timestamp := p_timestamp;
            accuracy := p_accuracy; speed := p_speed;
            calculated_speed :=
              if Qeq_bool p_speed 0 && Qltb 0 time_diff
              then (distance / time_diff) * 3.6
              else p_speed;
            distance_from_prev := distance;
            time_from_prev := time_diff |}
  | None =>
      Ok {| lat := p_lat; lng := p_lng; timestamp := p_timestamp;
            accuracy := p_accuracy; speed := p_speed;
            calculated_speed := 0;
            distance_from_prev := 0;
            time_from_prev := 0 |}
  end.

Fixpoint process_loop (processed : list ProcessedPoint) (rest : list TelemetryPoint)
  : result (list ProcessedPoint) :=
  match rest with
  | [] => Ok processed
  | point :: rest' =>
      let? processed_point := process_point processed point in
      process_loop (processed ++ [processed_point]) rest'
  end.

Definition _process_location_data (location_data : list TelemetryPoint)
  : result (list ProcessedPoint) :=
  process_loop [] location_data.

Definition _get_default_profile : Profile :=
  {| avg_speed := 25.0;
     max_speed := 60.0;
     speed_std := 15.0;
     avg_distance := 500.0;
     avg_time_interval := 300.0;
     typical_locations := [];
     speed_percentiles_95 := 80.0;
     speed_percentiles_99 := 120.0 |}.

(** A cluster of [_get_frequent_locations]. *)
Record LocCluster : Type := {
  c_center : LatLng;
  c_points : list LatLng;
  c_count : Z
}.

(** The inner [for cluster in clusters] with its [break]: the first
    cluster whose centre is within [radius_m] takes the location. The
    flag is [added_to_cluster]. *)
Fixpoint add_to_cluster (radius_m : Q) (location : LatLng) (clusters : list LocCluster)
  : list LocCluster * bool :=
  match clusters with
  | [] => ([], false)
  | cluster :: rest =>
      if Qle_bool (geodesic_m location (c_center cluster)) radius_m
      then ({| c_center := c_center cluster;
               c_points := c_points cluster ++ [location];
               c_count := c_count cluster + 1 |} :: rest, true)
      else let (rest', added) := add_to_cluster radius_m location rest in
           (cluster :: rest', added)
  end.

Definition cluster_location (radius_m : Q) (clusters : list LocCluster) (location : LatLng)
  : list LocCluster :=
  let (clusters', added_to_cluster) := add_to_cluster radius_m location clusters in
  if added_to_cluster then clusters'
  else clusters' ++ [{| c_center := location; c_points := [location]; c_count := 1 |}].

(** The clusters held by [clusters] when the first loop of
    [_get_frequent_locations] ends. *)
Definition location_clusters (radius_m : Q) (locations : list LatLng) : list LocCluster :=
  fold_left (cluster_location radius_m) locations [].

Definition frequent_of (clusters : list LocCluster) : list FrequentLocation :=
  map (fun cluster => {| center := c_center cluster; visit_count := c_count cluster |})
      (List.filter (fun cluster => (3 <=? c_count cluster)%Z) clusters).

Definition _get_frequent_locations (locations : list LatLng) (radius_m : Q)
  : list FrequentLocation :=
  if (length locations <? 5)%nat then []
  else frequent_of (location_clusters radius_m locations).

(** The four lists [_build_user_profile] fills. *)
Record Metrics : Type := {
  speeds : list Q;
  distances : list Q;
  time_intervals : list Q;
  locations : list LatLng
}.

(** One iteration of the loop of [_build_user_profile], on
    [prev = location_history[i-1]] and [curr = location_history[i]]. *)
Definition profile_step (prev curr : HistoryRecord) (m : Metrics) : result Metrics :=
  let? curr_location := getitem "location" (h_location curr) in
  match curr_location with
  | None => Ok m
  | Some curr_coords =>
      let? prev_location := getitem "location" (h_location prev) in
      match prev_location with
      | None => Ok m
      | Some prev_coords =>
          let distance :=
            geodesic_m (snd prev_coords, fst prev_coords)
                       (snd curr_coords, fst curr_coords) in
          let? curr_ts := getitem "timestamp" (h_timestamp curr) in
          let? prev_ts := getitem "timestamp" (h_timestamp prev) in
          let? td := dt_sub curr_ts prev_ts in
          let time_diff := total_seconds td in
          if Qltb 0 time_diff
          then Ok {| speeds := speeds m ++ [(distance / time_diff) * 3.6];
                     distances := distances m ++ [distance];
                     time_intervals := time_intervals m ++ [time_diff];
                     locations := locations m ++ [(snd curr_coords, fst curr_coords)] |}
          else Ok m
      end
  end.

Fixpoint profile_loop (prev : HistoryRecord) (rest : list HistoryRecord) (m : Metrics)
  : result Metrics :=
  match rest with
  | [] => Ok m
  | curr :: rest' =>
      let? m' := profile_step prev curr m in
      profile_loop curr rest' m'
  end.

Definition _build_user_profile (location_history : list HistoryRecord) : result Profile :=
  let empty := {| speeds := []; distances := []; time_intervals := []; locations := [] |} in
  let? m := match location_history with
            | [] => Ok empty
            | first :: rest => profile_loop first rest empty
            end in
  Ok {| avg_speed := match speeds m with [] => 0 | _ => np_mean (speeds m) end;
        max_speed := match speeds m with [] => 0 | s :: r => py_max s r end;
        speed_std := match speeds m with [] => 0 | _ => np_std (speeds m) end;
        avg_distance := match distances m with [] => 0 | _ => np_mean (distances m) end;
        avg_time_interval :=
          match time_intervals m with [] => 0 | _ => np_mean (time_intervals m) end;
        typical_locations := _get_frequent_locations (locations m) 100;
        speed_percentiles_95 :=
          match speeds m with [] => 0 | _ => np_percentile (speeds m) 95 end;
        speed_percentiles_99 :=
          match speeds m with [] => 0 | _ => np_percentile (speeds m) 99 end |}.

(** A cache hit returns at once. Otherwise the gateway is asked for the
    last week; a profile that was obtained without an exception is
    cached, and the handler returns the default profile uncached. *)
Definition _get_user_movement_profile (self : Detector) (uid : string)
  : Profile * Detector :=
  match user_profiles self !! uid with
  | Some profile => (profile, self)
  | None =>
      let self' := record_call (Call_get_user_location_history uid (24 * 7)) self in
      let attempt :=
        let? history := get_user_location_history db_client uid (24 * 7) in
        if (length history <? 10)%nat then Ok _get_default_profile
        else _build_user_profile history in
      match attempt with
      | Ok profile => (profile, cache_profile uid profile self')
      | Err _ => (_get_default_profile, self')
      end
  end.

(** [abs(xs[i] - xs[i-1])] for [i] from 1, as both the speed and the
    pattern detector compute it. *)
Fixpoint consecutive_changes (prev : Q) (rest : list Q) : list Q :=
  match rest with
  | [] => []
  | s :: rest' => Qabs (s - prev) :: consecutive_changes s rest'
  end.

Definition speed_changes_of (speeds : list Q) : list Q :=
  match speeds with
  | [] => []
  | s :: rest => consecutive_changes s rest
  end.

(** The list comprehension that opens [_detect_speed_anomaly]. *)
Definition positive_speeds (processed_data : list ProcessedPoint) : list Q :=
  List.filter (fun s => Qltb 0 s) (map calculated_speed processed_data).

Definition _detect_speed_anomaly (processed_data : list ProcessedPoint)
  (user_profile : Profile) : Verdict :=
  let attempt : result Verdict :=
    let speeds := positive_speeds processed_data in
    match speeds with
    | [] => Ok no_anomaly
    | _ =>
        let? max_speed := max_list speeds in
        if Qltb (MOVEMENT_SPEED_THRESHOLD config) max_speed
        then Ok {| is_anomaly := true; confidence := 0.9;
                   type := Some "excessive_speed"%string;
                   details := Some ("Speed " +:+ fmt_1f max_speed
                                    +:+ " km/h exceeds threshold")%string |}
        else
          let user_99th := speed_percentiles_99 user_profile in
          if Qltb (user_99th * 1.5) max_speed
          then Ok {| is_anomaly := true; confidence := 0.8;
                     type := Some "unusual_speed"%string;
                     details := Some ("Speed " +:+ fmt_1f max_speed
                                      +:+ " km/h is unusual for this user")%string |}
          else
            let speed_changes := speed_changes_of speeds in
            match speed_changes with
            | [] => Ok no_anomaly
            | c :: cs =>
                if Qltb 50 (py_max c cs)
                then Ok {| is_anomaly := true; confidence := 0.7;
                           type := Some "sudden_speed_change"%string;
                           details := Some ("Sudden speed change detected: "
                                            +:+ fmt_1f (py_max c cs) +:+ " km/h")%string |}
                else Ok no_anomaly
            end
    end in
  match attempt with
  | Ok verdict => verdict
  | Err _ => error_verdict
  end.

(** The bearings of the moves longer than 10 m. *)
Fixpoint directions_from (prev : ProcessedPoint) (rest : list ProcessedPoint) : list Q :=
  match rest with
  | [] => []
  | curr :: rest' =>
      if Qltb 10 (distance_from_prev curr)
      then arctan2 (lng curr - lng prev) (lat curr - lat prev) :: directions_from curr rest'
      else directions_from curr rest'
  end.

Definition directions_of (processed_data : list ProcessedPoint) : list Q :=
  match processed_data with
  | [] => []
  | first :: rest => directions_from first rest
  end.

Definition normalize_change (change : Q) : Q :=
  if Qltb pi change then 2 * pi - change else change.

Definition direction_changes_of (directions : list Q) : list Q :=
  map normalize_change
      match directions with
      | [] => []
      | d :: rest => consecutive_changes d rest
      end.

(** Nothing in the [try] blocks of [_detect_pattern_anomaly] and
    [_detect_location_anomaly] raises on a list of processed points, so
    their handlers have no counterpart here. *)
Definition _detect_pattern_anomaly (processed_data : list ProcessedPoint)
  (user_profile : Profile) : Verdict :=
  if (length processed_data <? 3)%nat then no_anomaly
  else
    let directions := directions_of processed_data in
    if (3 <=? length directions)%nat
    then
      let direction_changes := direction_changes_of directions in
      let large_changes :=
        length (List.filter (fun change => Qltb (pi / 2) change) direction_changes) in
      let erratic_ratio := inject_Z (Z.of_nat large_changes) / Qlen direction_changes in
      if Qltb 0.7 erratic_ratio
      then {| is_anomaly := true; confidence := 0.6;
              type := Some "erratic_movement"%string;
              details := Some ("Erratic movement pattern detected ("
                               +:+ fmt_pct1 erratic_ratio
                               +:+ " erratic changes)")%string |}
      else no_anomaly
    else no_anomaly.

Definition _detect_location_anomaly (processed_data : list ProcessedPoint)
  (user_profile : Profile) : Verdict :=
  match typical_locations user_profile with
  | [] => no_anomaly
  | typical :: typicals =>
      let current_locations := map (fun point => (lat point, lng point)) processed_data in
      let min_distances :=
        map (fun curr_loc =>
               py_min (geodesic_km curr_loc (center typical))
                      (map (fun typical_loc => geodesic_km curr_loc (center typical_loc))
                           typicals))
            current_locations in
      match min_distances with
      | [] => no_anomaly
      | _ =>
          let avg_distance_from_typical := np_mean min_distances in
          if Qltb 10.0 avg_distance_from_typical
          then {| is_anomaly := true; confidence := 0.5;
                  type := Some "unusual_location"%string;
                  details := Some ("Location " +:+ fmt_1f avg_distance_from_typical
                                   +:+ "km from typical areas")%string |}
          else no_anomaly
      end
  end.

Definition _detect_time_anomaly (processed_data : list ProcessedPoint)
  (user_profile : Profile) : Verdict :=
  let attempt : result Verdict :=
    let? first :=
      match processed_data with
      | [] => Err (IndexError "list index out of range")
      | first :: _ => Ok first
      end in
    let current_hour := hour (timestamp first) in
    if (2 <=? current_hour)%Z && (current_hour <=? 5)%Z
    then Ok {| is_anomaly := true; confidence := 0.4;
               type := Some "unusual_time"%string;
               details := Some ("Movement detected at " +:+ pretty current_hour
                                +:+ ":00 (late night)")%string |}
    else Ok no_anomaly in
  match attempt with
  | Ok verdict => verdict
  | Err _ => error_verdict
  end.

(** The gateway call is made and whatever it raises is dropped. *)
Definition _store_anomaly_result (now : datetime) (self : Detector) (uid : string)
  (location_data : list TelemetryPoint) (anomaly_result : Verdict) : Detector :=
  let anomaly_data :=
    {| user_id := uid;
       location_data_sample := firstn 5 location_data;
       anomaly_result := anomaly_result;
       detection_timestamp := now |} in
  let self' := record_call (Call_store_anomaly_detection anomaly_data) self in
  match store_anomaly_detection db_client anomaly_data with
  | Ok _ => self'
  | Err _ => self'
  end.

(** [max(best :: rest, key=lambda x: x['confidence'])]: a later verdict
    replaces the current one only when its confidence is strictly
    greater. *)
Fixpoint max_by_confidence (best : Verdict) (rest : list Verdict) : Verdict :=
  match rest with
  | [] => best
  | v :: rest' =>
      max_by_confidence (if Qltb (confidence best) (confidence v) then v else best) rest'
  end.

(** The [try] block of [detect_anomalies], with the detector as the
    block leaves it. *)
Definition detect_anomalies_try (now : datetime) (self : Detector) (uid : string)
  (location_data : list TelemetryPoint) : result Verdict * Detector :=
  if (length location_data <? 2)%nat then (Ok insufficient_data, self)
  else
    match _process_location_data location_data with
    | Err e => (Err e, self)
    | Ok processed_data =>
        let (user_profile, self') := _get_user_movement_profile self uid in
        let speed_anomaly := _detect_speed_anomaly processed_data user_profile in
        let pattern_anomaly := _detect_pattern_anomaly processed_data user_profile in
        let location_anomaly := _detect_location_anomaly processed_data user_profile in
        let time_anomaly := _detect_time_anomaly processed_data user_profile in
        let max_confidence_anomaly :=
          max_by_confidence speed_anomaly
            [pattern_anomaly; location_anomaly; time_anomaly] in
        (Ok max_confidence_anomaly,
         _store_anomaly_result now self' uid location_data max_confidence_anomaly)
    end.

Definition detect_anomalies (now : datetime) (self : Detector) (uid : string)
  (location_data : list TelemetryPoint) : Verdict * Detector :=
  match detect_anomalies_try now self uid location_data with
  | (Ok verdict, self') => (verdict, self')
  | (Err e, self') => (detection_error e, self')
  end.

(** ** Properties of the anomaly engine *)

Definition fires (v : Verdict) (kind : string) (conf : Q) : Prop :=
  is_anomaly v = true /\ confidence v = conf /\ type v = Some kind.

Definition in_unit_interval (v : Verdict) : Prop :=
  0 <= confidence v <= 1.

Lemma max_by_confidence_preserves (P : Verdict -> Prop) (rest : list Verdict) :
  forall best, P best -> Forall P rest -> P (max_by_confidence best rest).
Proof.
  induction rest as [|v rest IH]; intros best Hbest Hrest; simpl.
  - exact Hbest.
  - inversion Hrest; subst. apply IH; [|assumption].
    destruct (Qltb (confidence best) (confidence v)); assumption.
Qed.

Lemma no_anomaly_unit : in_unit_interval no_anomaly.
Proof. unfold in_unit_interval; simpl; lra. Qed.

Lemma error_verdict_unit : in_unit_interval error_verdict.
Proof. unfold in_unit_interval; simpl; lra. Qed.

Local Ltac unit_cases :=
  repeat match goal with
         | |- context [if ?b then _ else _] => destruct b
         | |- context [match ?l with [] => _ | _ :: _ => _ end] => destruct l
         end;
  try apply no_anomaly_unit; try apply error_verdict_unit;
  unfold in_unit_interval; simpl; lra.

Lemma speed_anomaly_unit pd profile : in_unit_interval (_detect_speed_anomaly pd profile).
Proof.
  unfold _detect_speed_anomaly.
  destruct (positive_speeds pd) as [|s speeds]; [apply no_anomaly_unit|].
  simpl. unit_cases.
Qed.

Lemma pattern_anomaly_unit pd profile : in_unit_interval (_detect_pattern_anomaly pd profile).
Proof. unfold _detect_pattern_anomaly. unit_cases. Qed.

Lemma location_anomaly_unit pd profile : in_unit_interval (_detect_location_anomaly pd profile).
Proof.
  unfold _detect_location_anomaly.
  destruct (typical_locations profile); [apply no_anomaly_unit|].
  destruct (map _ (map _ pd)); [apply no_anomaly_unit|].
  unit_cases.
Qed.

Lemma time_anomaly_unit pd profile : in_unit_interval (_detect_time_anomaly pd profile).
Proof.
  unfold _detect_time_anomaly. destruct pd; simpl; [apply error_verdict_unit|].
  unit_cases.
Qed.

(** C1. [detect_anomalies] is a total function into verdicts: whatever
    the user id and the telemetry (of length at least 2 or not), the one
    verdict it returns has a confidence in [0,1]; and when the [try]
    block raises [e], the caller receives the non-anomalous verdict of
    the handler (is_anomaly false, confidence 0.0, type error) and the
    detector as the block left it. *)
Theorem detect_anomalies_never_raises :
  forall (now : datetime) (self : Detector) (uid : string)
         (location_data : list TelemetryPoint),
    let out := detect_anomalies now self uid location_data in
    in_unit_interval (fst out) /\
    (forall e self',
        detect_anomalies_try now self uid location_data = (Err e, self') ->
        out = (detection_error e, self') /\
        is_anomaly (fst out) = false /\
        confidence (fst out) = 0.0 /\
        type (fst out) = Some "error"%string).
Proof.
  intros now self uid location_data out. subst out. split.
  - unfold detect_anomalies, detect_anomalies_try.
    destruct (length location_data <? 2)%nat.
    { simpl. unfold in_unit_interval; simpl; lra. }
    destruct (_process_location_data location_data) as [pd|e].
    + destruct (_get_user_movement_profile self uid) as [profile self1].
      cbn [fst].
      apply (max_by_confidence_preserves in_unit_interval).
      * apply speed_anomaly_unit.
      * constructor; [apply pattern_anomaly_unit|].
        constructor; [apply location_anomaly_unit|].
        constructor; [apply time_anomaly_unit|].
        constructor.
    + simpl. unfold in_unit_interval; simpl; lra.
  - intros e self' Htry. unfold detect_anomalies. rewrite Htry. simpl. auto.
Qed.

(** C10. With fewer than two telemetry points the verdict is the
    insufficient-data one and the detector is returned as it was: no
    profile was cached and no call was made on the gateway, neither for
    the history nor to store the detection. *)
Theorem detect_anomalies_insufficient_data :
  forall (now : datetime) (self : Detector) (uid : string)
         (location_data : list TelemetryPoint),
    (length location_data < 2)%nat ->
    detect_anomalies now self uid location_data =
      ({| is_anomaly := false; confidence := 0.0; type := None;
          details := Some "Insufficient data"%string |}, self).
Proof.
  intros now self uid location_data Hlen.
  unfold detect_anomalies, detect_anomalies_try.
  apply Nat.ltb_lt in Hlen. rewrite Hlen. reflexivity.
Qed.

Lemma process_loop_extends :
  forall rest processed out,
    process_loop processed rest = Ok out -> exists suffix, out = processed ++ suffix.
Proof.
  induction rest as [|point rest IH]; intros processed out H; simpl in H.
  - inversion H; subst. exists []. rewrite app_nil_r. reflexivity.
  - apply bind_Ok in H. destruct H as [q [_ H]].
    destruct (IH _ _ H) as [suffix Hsuffix].
    exists (q :: suffix). rewrite Hsuffix, <- app_assoc. reflexivity.
Qed.

(** The first processed point carries the timestamp of the first
    telemetry point, so the hour the time detector reads is the hour
    written in that timestamp. *)
Lemma first_timestamp_kept (point : TelemetryPoint) (rest : list TelemetryPoint)
  (processed_data : list ProcessedPoint) :
  _process_location_data (point :: rest) = Ok processed_data ->
  exists first others,
    processed_data = first :: others /\ raw_timestamp point = TsIso (timestamp first).
Proof.
  unfold _process_location_data. simpl. intros H.
  apply bind_Ok in H. destruct H as [q [Hq H]].
  destruct (process_loop_extends _ _ _ H) as [suffix Hsuffix].
  exists q, suffix. split; [exact Hsuffix|].
  unfold process_point in Hq.
  apply bind_Ok in Hq. destruct Hq as [p_lat [_ Hq]].
  apply bind_Ok in Hq. destruct Hq as [p_lng [_ Hq]].
  apply bind_Ok in Hq. destruct Hq as [ts [Hts Hq]].
  simpl in Hq. inversion Hq; subst. simpl.
  destruct (raw_timestamp point); simpl in Hts; inversion Hts; reflexivity.
Qed.

(** C9. On a non-empty processed sequence the time detector fires
    [unusual_time], with confidence 0.4, exactly when the hour of the
    first point is in the closed interval from 2 to 5, and otherwise
    returns the non-anomalous verdict; so hours 2 and 5 fire, hours 1 and
    6 do not. *)
Theorem time_anomaly_iff_late_night :
  forall (first : ProcessedPoint) (rest : list ProcessedPoint) (profile : Profile),
    let v := _detect_time_anomaly (first :: rest) profile in
    let h := hour (timestamp first) in
    (fires v "unusual_time" 0.4 <-> (2 <= h <= 5)%Z) /\
    (~ (2 <= h <= 5)%Z -> v = no_anomaly) /\
    (h = 2%Z \/ h = 5%Z -> fires v "unusual_time" 0.4) /\
    (h = 1%Z \/ h = 6%Z -> v = no_anomaly).
Proof.
  intros first rest profile v h.
  assert (Hin : (2 <= h <= 5)%Z -> fires v "unusual_time" 0.4).
  { intros [H2 H5]. subst v. unfold _detect_time_anomaly. simpl. fold h.
    apply Z.leb_le in H2, H5. rewrite H2, H5. simpl. repeat split. }
  assert (Hout : ~ (2 <= h <= 5)%Z -> v = no_anomaly).
  { intros Hn. subst v. unfold _detect_time_anomaly. simpl. fold h.
    destruct (2 <=? h)%Z eqn:E2; destruct (h <=? 5)%Z eqn:E5; simpl; try reflexivity.
    apply Z.leb_le in E2, E5. lia. }
  split; [split; [|exact Hin]|split; [exact Hout|split]].
  - intros Hf. destruct (Z_le_dec 2 h) as [H2|H2];
      [destruct (Z_le_dec h 5) as [H5|H5]; [lia|]|];
      rewrite Hout in Hf by lia; destruct Hf as [Hf _]; discriminate.
  - intros [H|H]; apply Hin; lia.
  - intros [H|H]; apply Hout; lia.
Qed.

Lemma py_max_above (t : Q) (l : list Q) :
  forall x, t < py_max x l <-> Exists (fun s => t < s) (x :: l).
Proof.
  induction l as [|y r IH]; intros x; simpl.
  - rewrite List.Exists_cons, List.Exists_nil. tauto.
  - rewrite IH. rewrite !List.Exists_cons.
    destruct (Qltb x y) eqn:E.
    + apply Qltb_lt in E. split; [tauto|].
      intros [H|[H|H]]; [left; lra|tauto|tauto].
    + apply Qltb_ge in E. split; [tauto|].
      intros [H|[H|H]]; [tauto|left; lra|tauto].
Qed.

Lemma Forall_le_not_Exists_lt (t : Q) (l : list Q) :
  Forall (fun s => s <= t) l -> ~ Exists (fun s => t < s) l.
Proof.
  intros Hall Hex. apply List.Exists_exists in Hex. destruct Hex as [s [Hin Hs]].
  rewrite List.Forall_forall in Hall. specialize (Hall s Hin). lra.
Qed.

Lemma positive_speeds_above (t : Q) (pd : list ProcessedPoint) :
  0 <= t ->
  Exists (fun s => t < s) (map calculated_speed pd) <->
  Exists (fun s => t < s) (positive_speeds pd).
Proof.
  intros Ht. unfold positive_speeds. rewrite !List.Exists_exists. split.
  - intros [s [Hin Hs]]. exists s. split; [|assumption].
    apply filter_In. split; [assumption|]. apply Qltb_lt. lra.
  - intros [s [Hin Hs]]. exists s. split; [|assumption].
    apply filter_In in Hin. tauto.
Qed.

(** C8, as the code has it. The speeds the detector looks at are the
    positive calculated speeds, in order. It fires [excessive_speed]
    (0.9) when one of them exceeds the configured threshold; otherwise
    [unusual_speed] (0.8) when one of them (hence the maximum) exceeds 1.5
    times the 99th percentile of the profile; otherwise
    [sudden_speed_change] (0.7) when two neighbours of that list differ
    by more than 50; otherwise it returns the non-anomalous verdict with
    confidence 0.0. For a threshold that is not negative, a positive speed
    exceeds it exactly when some calculated speed does. *)
Theorem speed_anomaly_cascade :
  forall (processed_data : list ProcessedPoint) (profile : Profile),
    let speeds := positive_speeds processed_data in
    let limit := MOVEMENT_SPEED_THRESHOLD config in
    let p99 := speed_percentiles_99 profile in
    let v := _detect_speed_anomaly processed_data profile in
    (Exists (fun s => limit < s) speeds -> fires v "excessive_speed" 0.9) /\
    (Forall (fun s => s <= limit) speeds ->
     Exists (fun s => p99 * 1.5 < s) speeds -> fires v "unusual_speed" 0.8) /\
    (Forall (fun s => s <= limit) speeds ->
     Forall (fun s => s <= p99 * 1.5) speeds ->
     Exists (fun c => 50 < c) (speed_changes_of speeds) ->
     fires v "sudden_speed_change" 0.7) /\
    (Forall (fun s => s <= limit) speeds ->
     Forall (fun s => s <= p99 * 1.5) speeds ->
     Forall (fun c => c <= 50) (speed_changes_of speeds) ->
     v = no_anomaly) /\
    (0 <= limit ->
     (Exists (fun s => limit < s) (map calculated_speed processed_data) <->
      Exists (fun s => limit < s) speeds)).
Proof.
  intros pd profile speeds limit p99 v.
  assert (Hshape : forall s r, speeds = s :: r ->
            v = if Qltb limit (py_max s r)
                then {| is_anomaly := true; confidence := 0.9;
                        type := Some "excessive_speed"%string;
                        details := Some ("Speed " +:+ fmt_1f (py_max s r)
                                         +:+ " km/h exceeds threshold")%string |}
                else if Qltb (p99 * 1.5) (py_max s r)
                then {| is_anomaly := true; confidence := 0.8;
                        type := Some "unusual_speed"%string;
                        details := Some ("Speed " +:+ fmt_1f (py_max s r)
                                         +:+ " km/h is unusual for this user")%string |}
                else match speed_changes_of (s :: r) with
                     | [] => no_anomaly
                     | c :: cs =>
                         if Qltb 50 (py_max c cs)
                         then {| is_anomaly := true; confidence := 0.7;
                                 type := Some "sudden_speed_change"%string;
                                 details := Some ("Sudden speed change detected: "
                                                  +:+ fmt_1f (py_max c cs)
                                                  +:+ " km/h")%string |}
                         else no_anomaly
                     end).
  { intros s r Hs. subst v. unfold _detect_speed_anomaly. fold speeds. rewrite Hs.
    cbn [max_list bind]. fold limit. fold p99.
    destruct (Qltb limit (py_max s r)); [reflexivity|].
    destruct (Qltb (p99 * 1.5) (py_max s r)); [reflexivity|].
    destruct (speed_changes_of (s :: r)) as [|c cs]; [reflexivity|].
    destruct (Qltb 50 (py_max c cs)); reflexivity. }
  assert (Hempty : speeds = [] -> v = no_anomaly).
  { intros Hs. subst v. unfold _detect_speed_anomaly. fold speeds. rewrite Hs. reflexivity. }
  assert (Hlt : forall t s r, Exists (fun x => t < x) (s :: r) -> Qltb t (py_max s r) = true).
  { intros t s r H. apply Qltb_lt. apply py_max_above. exact H. }
  assert (Hge : forall t s r, Forall (fun x => x <= t) (s :: r) -> Qltb t (py_max s r) = false).
  { intros t s r H. apply Qltb_ge. apply Qnot_lt_le. intros Hc.
    apply py_max_above in Hc. exact (Forall_le_not_Exists_lt _ _ H Hc). }
  split; [|split; [|split; [|split]]].
  - intros Hex. destruct speeds as [|s r] eqn:Hs; [inversion Hex|].
    rewrite (Hshape s r eq_refl), (Hlt _ _ _ Hex). repeat split.
  - intros Hall Hex. destruct speeds as [|s r] eqn:Hs; [inversion Hex|].
    rewrite (Hshape s r eq_refl), (Hge _ _ _ Hall), (Hlt _ _ _ Hex). repeat split.
  - intros Hall1 Hall2 Hex. destruct speeds as [|s r] eqn:Hs; [inversion Hex|].
    rewrite (Hshape s r eq_refl), (Hge _ _ _ Hall1), (Hge _ _ _ Hall2).
    destruct (speed_changes_of (s :: r)) as [|c cs]; [inversion Hex|].
    rewrite (Hlt _ _ _ Hex). repeat split.
  - intros Hall1 Hall2 Hall3. destruct speeds as [|s r] eqn:Hs; [auto|].
    rewrite (Hshape s r eq_refl), (Hge _ _ _ Hall1), (Hge _ _ _ Hall2).
    destruct (speed_changes_of (s :: r)) as [|c cs]; [reflexivity|].
    rewrite (Hge _ _ _ Hall3). reflexivity.
  - intros Hlimit. apply positive_speeds_above. exact Hlimit.
Qed.

(** ** The clusters of [_get_frequent_locations] *)

Definition visits (clusters : list LocCluster) : list LatLng :=
  concat (map c_points clusters).

Definition counted (cluster : LocCluster) : Prop :=
  c_count cluster = Z.of_nat (length (c_points cluster)).

Lemma add_to_cluster_visits (radius_m : Q) (location : LatLng) :
  forall clusters clusters' added,
    add_to_cluster radius_m location clusters = (clusters', added) ->
    (added = true -> Permutation (visits clusters') (location :: visits clusters)) /\
    (added = false -> clusters' = clusters).
Proof.
  induction clusters as [|c cs IH]; intros clusters' added Hadd; simpl in Hadd.
  - inversion Hadd; subst. split; [discriminate|reflexivity].
  - destruct (Qle_bool (geodesic_m location (c_center c)) radius_m).
    + inversion Hadd; subst. split; [|discriminate]. intros _.
      unfold visits. simpl. rewrite <- app_assoc. simpl.
      symmetry. apply Permutation_cons_app. reflexivity.
    + destruct (add_to_cluster radius_m location cs) as [rest' added'] eqn:E.
      inversion Hadd; subst. destruct (IH rest' added eq_refl) as [Hyes Hno].
      split.
      * intros Ha. unfold visits in *. simpl.
        rewrite (Hyes Ha). symmetry. apply Permutation_middle.
      * intros Ha. rewrite (Hno Ha). reflexivity.
Qed.

Lemma cluster_location_visits (radius_m : Q) (clusters : list LocCluster)
  (location : LatLng) :
  Permutation (visits (cluster_location radius_m clusters location))
              (visits clusters ++ [location]).
Proof.
  unfold cluster_location.
  destruct (add_to_cluster radius_m location clusters) as [clusters' added] eqn:E.
  destruct (add_to_cluster_visits _ _ _ _ _ E) as [Hyes Hno].
  destruct added.
  - rewrite (Hyes eq_refl). apply Permutation_cons_append.
  - rewrite (Hno eq_refl). unfold visits. rewrite map_app, concat_app. simpl.
    reflexivity.
Qed.

Lemma add_to_cluster_counted (radius_m : Q) (location : LatLng) :
  forall clusters, Forall counted clusters ->
    Forall counted (fst (add_to_cluster radius_m location clusters)).
Proof.
  induction clusters as [|c cs IH]; intros Hall; simpl; [constructor|].
  inversion Hall as [|c' cs' Hc Hcs]; subst.
  destruct (Qle_bool (geodesic_m location (c_center c)) radius_m); simpl.
  - constructor; [|exact Hcs]. unfold counted in *. simpl.
    rewrite length_app. simpl. lia.
  - destruct (add_to_cluster radius_m location cs) as [rest' added'] eqn:E. simpl.
    constructor; [exact Hc|]. apply (IH Hcs).
Qed.

Lemma cluster_location_counted (radius_m : Q) (clusters : list LocCluster)
  (location : LatLng) :
  Forall counted clusters -> Forall counted (cluster_location radius_m clusters location).
Proof.
  intros Hall. unfold cluster_location.
  pose proof (add_to_cluster_counted radius_m location clusters Hall) as H.
  destruct (add_to_cluster radius_m location clusters) as [clusters' added]. simpl in H.
  destruct added; [exact H|].
  apply Forall_app. split; [exact H|]. constructor; [reflexivity|constructor].
Qed.

Lemma location_clusters_from (radius_m : Q) (locations : list LatLng) :
  forall clusters,
    Forall counted clusters ->
    Permutation (visits (fold_left (cluster_location radius_m) locations clusters))
                (visits clusters ++ locations) /\
    Forall counted (fold_left (cluster_location radius_m) locations clusters).
Proof.
  induction locations as [|location rest IH]; intros clusters Hall; simpl.
  - rewrite app_nil_r. split; [reflexivity|exact Hall].
  - destruct (IH (cluster_location radius_m clusters location)
                 (cluster_location_counted _ _ _ Hall)) as [Hperm Hcount].
    split; [|exact Hcount].
    rewrite Hperm, cluster_location_visits, <- app_assoc. reflexivity.
Qed.

Lemma location_clusters_partition (radius_m : Q) (locations : list LatLng) :
  Permutation (visits (location_clusters radius_m locations)) locations /\
  Forall counted (location_clusters radius_m locations).
Proof.
  unfold location_clusters.
  destruct (location_clusters_from radius_m locations [] (List.Forall_nil _)) as [Hperm Hcount].
  split; [exact Hperm|exact Hcount].
Qed.

(** ** Enrichment *)

(** [p] is the processed form of [raw]: both coordinates and a readable
    timestamp were there and are copied, accuracy and speed default to 10
    and 0. *)
Definition enriches (raw : TelemetryPoint) (p : ProcessedPoint) : Prop :=
  raw_lat raw = Some (lat p) /\
  raw_lng raw = Some (lng p) /\
  raw_timestamp raw = TsIso (timestamp p) /\
  accuracy p = get (raw_accuracy raw) 10 /\
  speed p = get (raw_speed raw) 0.

Lemma process_point_enriches (processed : list ProcessedPoint) (raw : TelemetryPoint)
  (p : ProcessedPoint) :
  process_point processed raw = Ok p -> enriches raw p.
Proof.
  unfold process_point. intros H.
  apply bind_Ok in H. destruct H as [p_lat [Hlat H]].
  apply bind_Ok in H. destruct H as [p_lng [Hlng H]].
  apply bind_Ok in H. destruct H as [ts [Hts H]].
  assert (Hraw : raw_lat raw = Some p_lat /\ raw_lng raw = Some p_lng
                 /\ raw_timestamp raw = TsIso ts).
  { destruct (raw_lat raw); [|discriminate]. destruct (raw_lng raw); [|discriminate].
    destruct (raw_timestamp raw); try discriminate.
    simpl in Hlat, Hlng, Hts. inversion Hlat; inversion Hlng; inversion Hts; subst.
    repeat split. }
  destruct Hraw as [Hrlat [Hrlng Hrts]].
  cbv zeta in H. destruct (last processed) as [prev|].
  - apply bind_Ok in H. destruct H as [td [_ H]].
    inversion H; subst; clear H. unfold enriches. simpl. repeat split; assumption.
  - inversion H; subst; clear H. unfold enriches. simpl. repeat split; assumption.
Qed.

Lemma process_loop_enriches :
  forall rest processed out,
    process_loop processed rest = Ok out ->
    exists suffix, out = processed ++ suffix /\ Forall2 enriches rest suffix.
Proof.
  induction rest as [|raw rest IH]; intros processed out H; simpl in H.
  - inversion H; subst. exists []. rewrite app_nil_r. split; [reflexivity|constructor].
  - apply bind_Ok in H. destruct H as [q [Hq H]].
    destruct (IH _ _ H) as [suffix [Hout Hall]].
    exists (q :: suffix). split.
    + rewrite Hout, <- app_assoc. reflexivity.
    + constructor; [exact (process_point_enriches _ _ _ Hq)|exact Hall].
Qed.

Lemma first_processed_is_zero (location_data : list TelemetryPoint)
  (first : ProcessedPoint) (others : list ProcessedPoint) :
  _process_location_data location_data = Ok (first :: others) ->
  calculated_speed first = 0 /\ distance_from_prev first = 0 /\ time_from_prev first = 0.
Proof.
  unfold _process_location_data. intros H.
  destruct location_data as [|raw rest]; simpl in H; [inversion H|].
  apply bind_Ok in H. destruct H as [q [Hq H]].
  destruct (process_loop_extends _ _ _ H) as [suffix Hsuffix].
  simpl in Hsuffix. inversion Hsuffix; subst.
  unfold process_point in Hq.
  apply bind_Ok in Hq. destruct Hq as [p_lat [_ Hq]].
  apply bind_Ok in Hq. destruct Hq as [p_lng [_ Hq]].
  apply bind_Ok in Hq. destruct Hq as [ts [_ Hq]].
  simpl in Hq. inversion Hq; subst. simpl. repeat split.
Qed.

(** X1. When enrichment succeeds it returns one processed point per
    telemetry point, in order, each with the coordinates and timestamp of
    its source and the defaults 10 and 0 for a missing accuracy or speed;
    and the derived speed, distance and time of the first point are
    zero. *)
Theorem enrichment_keeps_points :
  forall (location_data : list TelemetryPoint) (processed_data : list ProcessedPoint),
    _process_location_data location_data = Ok processed_data ->
    Forall2 enriches location_data processed_data /\
    length processed_data = length location_data /\
    match processed_data with
    | first :: _ =>
        calculated_speed first = 0 /\ distance_from_prev first = 0 /\
        time_from_prev first = 0
    | [] => location_data = []
    end.
Proof.
  intros data pd H. unfold _process_location_data in H.
  destruct (process_loop_enriches _ _ _ H) as [suffix [Hout Hall]].
  simpl in Hout. subst suffix.
  split; [exact Hall|]. split; [symmetry; eapply Forall2_length; exact Hall|].
  destruct pd as [|first others].
  - inversion Hall. reflexivity.
  - exact (first_processed_is_zero _ _ _ H).
Qed.

(** From the second point on, a speed the device reports and that is
    not zero is the calculated speed. *)
Definition device_speed_kept (p : ProcessedPoint) : Prop :=
  Qeq_bool (speed p) 0 = false -> calculated_speed p = speed p.

Lemma process_point_device_speed (processed : list ProcessedPoint) (prev : ProcessedPoint)
  (raw : TelemetryPoint) (p : ProcessedPoint) :
  last processed = Some prev ->
  process_point processed raw = Ok p -> device_speed_kept p.
Proof.
  unfold process_point. intros Hlast H.
  apply bind_Ok in H. destruct H as [p_lat [_ H]].
  apply bind_Ok in H. destruct H as [p_lng [_ H]].
  apply bind_Ok in H. destruct H as [ts [_ H]].
  cbv zeta in H. rewrite Hlast in H.
  apply bind_Ok in H. destruct H as [td [_ H]].
  inversion H; subst; clear H. unfold device_speed_kept. simpl.
  intros Hspeed. rewrite Hspeed. reflexivity.
Qed.

Lemma process_loop_device_speed :
  forall rest processed prev out,
    last processed = Some prev ->
    process_loop processed rest = Ok out ->
    exists suffix, out = processed ++ suffix /\ Forall device_speed_kept suffix.
Proof.
  induction rest as [|raw rest IH]; intros processed prev out Hlast H; simpl in H.
  - inversion H; subst. exists []. rewrite app_nil_r. split; [reflexivity|constructor].
  - apply bind_Ok in H. destruct H as [q [Hq H]].
    assert (Hlast' : last (processed ++ [q]) = Some q) by apply last_snoc.
    destruct (IH _ _ _ Hlast' H) as [suffix [Hout Hall]].
    exists (q :: suffix). split.
    + rewrite Hout, <- app_assoc. reflexivity.
    + constructor; [exact (process_point_device_speed _ _ _ _ Hlast Hq)|exact Hall].
Qed.

(** X2. In the enriched sequence every point after the first whose
    reported speed is not zero has that speed as its calculated speed;
    the first point has a calculated speed of zero whatever the device
    reported. *)
Theorem reported_speed_wins_after_first :
  forall (location_data : list TelemetryPoint) (first : ProcessedPoint)
         (others : list ProcessedPoint),
    _process_location_data location_data = Ok (first :: others) ->
    calculated_speed first = 0 /\ Forall device_speed_kept others.
Proof.
  intros data first others H.
  destruct (first_processed_is_zero _ _ _ H) as [Hzero _].
  split; [exact Hzero|].
  unfold _process_location_data in H. destruct data as [|raw rest]; simpl in H.
  - inversion H.
  - apply bind_Ok in H. destruct H as [q [Hq H]].
    destruct (process_loop_device_speed rest [q] q _ eq_refl H) as [suffix [Hout Hall]].
    simpl in Hout. inversion Hout; subst. exact Hall.
Qed.

(** A telemetry point that cannot be enriched: a coordinate is missing
    or the timestamp is missing or unreadable. *)
Definition malformed (raw : TelemetryPoint) : Prop :=
  raw_lat raw = None \/ raw_lng raw = None \/
  raw_timestamp raw = TsAbsent \/ exists e, raw_timestamp raw = TsInvalid e.

Lemma process_point_malformed (processed : list ProcessedPoint) (raw : TelemetryPoint) :
  malformed raw -> exists e, process_point processed raw = Err e.
Proof.
  unfold process_point, malformed. intros Hbad.
  destruct (raw_lat raw) as [a|]; [|eexists; reflexivity].
  destruct (raw_lng raw) as [b|]; [|eexists; reflexivity].
  destruct (raw_timestamp raw) as [|e|dt]; try (eexists; reflexivity).
  destruct Hbad as [H|[H|[H|[e H]]]]; discriminate H.
Qed.

Lemma process_loop_malformed :
  forall rest processed,
    Exists malformed rest -> exists e, process_loop processed rest = Err e.
Proof.
  induction rest as [|raw rest IH]; intros processed Hex; [inversion Hex|].
  simpl. destruct (process_point processed raw) as [q|e] eqn:E; [|exists e; reflexivity].
  cbn [bind]. apply IH.
  apply List.Exists_cons in Hex. destruct Hex as [Hbad|Hrest]; [|exact Hrest].
  destruct (process_point_malformed processed raw Hbad) as [e He]. congruence.
Qed.

(** X3. If any of at least two telemetry points lacks a coordinate or
    a readable timestamp, [detect_anomalies] answers with the error
    verdict (not anomalous, confidence 0.0, type error) and leaves the
    detector as it was: no profile is fetched and nothing is stored. *)
Theorem malformed_point_gives_error_verdict :
  forall (now : datetime) (self : Detector) (uid : string)
         (location_data : list TelemetryPoint),
    (2 <= length location_data)%nat ->
    Exists malformed location_data ->
    exists e,
      detect_anomalies now self uid location_data = (detection_error e, self).
Proof.
  intros now self uid data Hlen Hbad.
  destruct (process_loop_malformed data [] Hbad) as [e He].
  exists e. unfold detect_anomalies, detect_anomalies_try.
  apply Nat.ltb_ge in Hlen. rewrite Hlen.
  unfold _process_location_data. rewrite He. reflexivity.
Qed.

(** ** The profile cache *)

(** X4. A cached profile is returned as it is, with no call on the
    gateway; once a profile is cached for a user the next request for
    that user returns the same profile and the same detector; a request
    never changes the cached profile of another user and makes at most
    one call on the gateway. *)
Theorem profile_cache_behaviour :
  forall (self : Detector) (uid : string),
    let out := _get_user_movement_profile self uid in
    (forall profile, user_profiles self !! uid = Some profile -> out = (profile, self)) /\
    (user_profiles (snd out) !! uid = Some (fst out) ->
     _get_user_movement_profile (snd out) uid = out) /\
    (forall other, other <> uid ->
       user_profiles (snd out) !! other = user_profiles self !! other) /\
    (length (gateway_calls (snd out)) <= S (length (gateway_calls self)))%nat.
Proof.
  intros self uid out.
  assert (Hhit : forall d profile, user_profiles d !! uid = Some profile ->
                   _get_user_movement_profile d uid = (profile, d)).
  { intros d profile H. unfold _get_user_movement_profile. rewrite H. reflexivity. }
  split; [intros profile H; apply Hhit; exact H|].
  split.
  { intros H. rewrite (Hhit _ _ H). destruct out; reflexivity. }
  subst out. unfold _get_user_movement_profile.
  destruct (user_profiles self !! uid) as [cached|] eqn:E.
  - split; [reflexivity|simpl; lia].
  - match goal with
    | |- context [match ?a with Ok _ => _ | Err _ => _ end] => destruct a as [profile|e]
    end; simpl.
    + split; [|rewrite length_app; simpl; lia].
      intros other Hother. apply lookup_insert_ne. congruence.
    + split; [reflexivity|rewrite length_app; simpl; lia].
Qed.

(** X5. On a cache miss the gateway is asked once for the last
    [24 * 7] hours. If that call raises, or if building the profile from
    a history of ten records or more raises, the default profile is
    returned and nothing is cached; if the history has fewer than ten
    records the default profile is returned and cached. *)
Theorem profile_fetch_outcomes :
  forall (self : Detector) (uid : string),
    user_profiles self !! uid = None ->
    let out := _get_user_movement_profile self uid in
    gateway_calls (snd out)
      = gateway_calls self ++ [Call_get_user_location_history uid (24 * 7)] /\
    (forall e, get_user_location_history db_client uid (24 * 7) = Err e ->
       fst out = _get_default_profile /\ user_profiles (snd out) = user_profiles self) /\
    (forall history e,
       get_user_location_history db_client uid (24 * 7) = Ok history ->
       (10 <= length history)%nat -> _build_user_profile history = Err e ->
       fst out = _get_default_profile /\ user_profiles (snd out) = user_profiles self) /\
    (forall history,
       get_user_location_history db_client uid (24 * 7) = Ok history ->
       (length history < 10)%nat ->
       fst out = _get_default_profile /\
       user_profiles (snd out) = <[uid := _get_default_profile]> (user_profiles self)).
Proof.
  intros self uid Hmiss out. subst out. unfold _get_user_movement_profile. rewrite Hmiss.
  split.
  { match goal with
    | |- context [match ?a with Ok _ => _ | Err _ => _ end] => destruct a
    end; reflexivity. }
  split; [|split].
  - intros e He. rewrite He. simpl. split; reflexivity.
  - intros history e Hh Hlen Hbuild. rewrite Hh. cbn [bind].
    apply Nat.ltb_ge in Hlen. rewrite Hlen, Hbuild. simpl. split; reflexivity.
  - intros history Hh Hlen. rewrite Hh. cbn [bind].
    apply Nat.ltb_lt in Hlen. rewrite Hlen. simpl. split; reflexivity.
Qed.

(** ** Choosing among the four verdicts *)

(** A verdict either does not fire and has confidence 0.0, or fires
    with a positive confidence. *)
Definition consistent (v : Verdict) : Prop :=
  (is_anomaly v = false /\ confidence v = 0.0) \/ (is_anomaly v = true /\ 0 < confidence v).

Local Ltac verdict_range :=
  split;
    [first [left; split; reflexivity | right; split; [reflexivity|simpl; lra]]
    |first [lra | intros H; first [discriminate H | lra]]].

Local Ltac verdict_cases :=
  repeat match goal with
         | |- context [if ?b then _ else _] => destruct b
         | |- context [match ?l with [] => _ | _ :: _ => _ end] => destruct l
         end;
  simpl; verdict_range.

Lemma speed_verdict_range pd profile :
  consistent (_detect_speed_anomaly pd profile) /\
  (is_anomaly (_detect_speed_anomaly pd profile) = true ->
   0.7 <= confidence (_detect_speed_anomaly pd profile)).
Proof.
  unfold _detect_speed_anomaly.
  destruct (positive_speeds pd) as [|s speeds];
    [split; [left; split; reflexivity|discriminate]|].
  cbn [max_list bind]. verdict_cases.
Qed.

Lemma pattern_verdict_range pd profile :
  consistent (_detect_pattern_anomaly pd profile) /\
  confidence (_detect_pattern_anomaly pd profile) <= 0.6.
Proof. unfold _detect_pattern_anomaly. verdict_cases. Qed.

Lemma location_verdict_range pd profile :
  consistent (_detect_location_anomaly pd profile) /\
  confidence (_detect_location_anomaly pd profile) <= 0.6.
Proof.
  unfold _detect_location_anomaly.
  destruct (typical_locations profile); [split; [left; split; reflexivity|simpl; lra]|].
  destruct (map _ (map _ pd)); [split; [left; split; reflexivity|simpl; lra]|].
  verdict_cases.
Qed.

Lemma time_verdict_range pd profile :
  consistent (_detect_time_anomaly pd profile) /\
  confidence (_detect_time_anomaly pd profile) <= 0.6.
Proof.
  unfold _detect_time_anomaly.
  destruct pd; cbn [bind]; [split; [left; split; reflexivity|simpl; lra]|].
  verdict_cases.
Qed.

Lemma max_by_confidence_in (rest : list Verdict) :
  forall best, In (max_by_confidence best rest) (best :: rest).
Proof.
  induction rest as [|v rest IH]; intros best; simpl; [left; reflexivity|].
  specialize (IH (if Qltb (confidence best) (confidence v) then v else best)).
  destruct (Qltb (confidence best) (confidence v)); simpl in IH; tauto.
Qed.

Lemma max_by_confidence_grows (rest : list Verdict) :
  forall best, confidence best <= confidence (max_by_confidence best rest).
Proof.
  induction rest as [|v rest IH]; intros best; simpl; [lra|].
  specialize (IH (if Qltb (confidence best) (confidence v) then v else best)).
  destruct (Qltb (confidence best) (confidence v)) eqn:E; [|exact IH].
  apply Qltb_lt in E. lra.
Qed.

Lemma max_by_confidence_max (rest : list Verdict) :
  forall best,
    Forall (fun c => confidence c <= confidence (max_by_confidence best rest)) (best :: rest).
Proof.
  induction rest as [|v rest IH]; intros best.
  - constructor; [simpl; lra|constructor].
  - constructor; [apply max_by_confidence_grows|].
    simpl. specialize (IH (if Qltb (confidence best) (confidence v) then v else best)).
    destruct (Qltb (confidence best) (confidence v)) eqn:E.
    + exact IH.
    + apply Qltb_ge in E. inversion IH as [|x l Hbest Hrest]; subst.
      constructor; [lra|exact Hrest].
Qed.

Lemma max_by_confidence_first (rest : list Verdict) :
  forall best,
    Forall (fun c => confidence c <= confidence best) rest ->
    max_by_confidence best rest = best.
Proof.
  induction rest as [|v rest IH]; intros best Hall; simpl; [reflexivity|].
  inversion Hall as [|x l Hv Hrest]; subst.
  apply Qltb_ge in Hv. rewrite Hv. apply IH. exact Hrest.
Qed.

(** X6. For at least two points that can be enriched, the verdict
    [detect_anomalies] returns is one of the four sub-verdicts, none of
    which has a higher confidence; it is non-anomalous exactly when no
    sub-detector fired; and when the speed detector fires its verdict is
    the one returned. *)
Theorem engine_returns_strongest_verdict :
  forall (now : datetime) (self : Detector) (uid : string)
         (location_data : list TelemetryPoint) (processed_data : list ProcessedPoint),
    (2 <= length location_data)%nat ->
    _process_location_data location_data = Ok processed_data ->
    let profile := fst (_get_user_movement_profile self uid) in
    let speed_anomaly := _detect_speed_anomaly processed_data profile in
    let candidates :=
      [speed_anomaly;
       _detect_pattern_anomaly processed_data profile;
       _detect_location_anomaly processed_data profile;
       _detect_time_anomaly processed_data profile] in
    let v := fst (detect_anomalies now self uid location_data) in
    In v candidates /\
    Forall (fun c => confidence c <= confidence v) candidates /\
    (is_anomaly v = false <-> Forall (fun c => is_anomaly c = false) candidates) /\
    (is_anomaly speed_anomaly = true -> v = speed_anomaly).
Proof.
  intros now self uid data pd Hlen Hpd profile speed_anomaly candidates v.
  assert (Hv : v = max_by_confidence speed_anomaly
                 [_detect_pattern_anomaly pd profile;
                  _detect_location_anomaly pd profile;
                  _detect_time_anomaly pd profile]).
  { subst v. unfold detect_anomalies, detect_anomalies_try.
    apply Nat.ltb_ge in Hlen. rewrite Hlen, Hpd.
    subst speed_anomaly profile.
    destruct (_get_user_movement_profile self uid) as [p d]. reflexivity. }
  assert (Hin : In v candidates) by (rewrite Hv; apply max_by_confidence_in).
  assert (Hmax : Forall (fun c => confidence c <= confidence v) candidates)
    by (rewrite Hv; apply max_by_confidence_max).
  assert (Hcons : Forall consistent candidates).
  { subst candidates speed_anomaly.
    constructor; [apply speed_verdict_range|].
    constructor; [apply pattern_verdict_range|].
    constructor; [apply location_verdict_range|].
    constructor; [apply time_verdict_range|constructor]. }
  split; [exact Hin|]. split; [exact Hmax|]. split; [split|].
  - intros Hquiet.
    assert (Hzero : confidence v = 0.0).
    { rewrite List.Forall_forall in Hcons. destruct (Hcons v Hin) as [[_ H]|[H _]];
        [exact H|congruence]. }
    rewrite List.Forall_forall in Hmax, Hcons. apply List.Forall_forall. intros c Hc.
    destruct (Hcons c Hc) as [[H _]|[_ H]]; [exact H|].
    specialize (Hmax c Hc). rewrite Hzero in Hmax. lra.
  - intros Hall. rewrite List.Forall_forall in Hall. apply Hall. exact Hin.
  - intros Hfires. rewrite Hv. apply max_by_confidence_first.
    destruct (speed_verdict_range pd profile) as [_ Hspeed].
    specialize (Hspeed Hfires). fold speed_anomaly in Hspeed.
    pose proof (pattern_verdict_range pd profile) as [_ Hp].
    pose proof (location_verdict_range pd profile) as [_ Hl].
    pose proof (time_verdict_range pd profile) as [_ Ht].
    constructor; [lra|]. constructor; [lra|]. constructor; [lra|constructor].
Qed.

(** X7. A detection that goes through ends with exactly one store
    call, made after the profile step: the record carries the user id,
    the first five telemetry points at most, the verdict that is
    returned and the time of the call; the cache is as the profile step
    left it, whether the store raised or not. *)
Theorem detection_is_stored_once :
  forall (now : datetime) (self : Detector) (uid : string)
         (location_data : list TelemetryPoint) (processed_data : list ProcessedPoint),
    (2 <= length location_data)%nat ->
    _process_location_data location_data = Ok processed_data ->
    let fetched := snd (_get_user_movement_profile self uid) in
    let out := detect_anomalies now self uid location_data in
    gateway_calls (snd out)
      = gateway_calls fetched
        ++ [Call_store_anomaly_detection
              {| user_id := uid;
                 location_data_sample := firstn 5 location_data;
                 anomaly_result := fst out;
                 detection_timestamp := now |}] /\
    user_profiles (snd out) = user_profiles fetched /\
    (length (firstn 5 location_data) <= 5)%nat.
Proof.
  intros now self uid data pd Hlen Hpd fetched out. subst out fetched.
  unfold detect_anomalies, detect_anomalies_try.
  apply Nat.ltb_ge in Hlen. rewrite Hlen, Hpd.
  destruct (_get_user_movement_profile self uid) as [profile d]. cbn [fst snd].
  unfold _store_anomaly_result.
  split; [|split; [|apply List.firstn_le_length]];
    destruct (store_anomaly_detection db_client _); reflexivity.
Qed.

(** ** The pattern detector *)

Lemma directions_from_length (rest : list ProcessedPoint) :
  forall prev, (length (directions_from prev rest) <= length rest)%nat.
Proof.
  induction rest as [|curr rest IH]; intros prev; simpl; [lia|].
  destruct (Qltb 10 (distance_from_prev curr)); simpl; specialize (IH curr); lia.
Qed.

(** X8. Three bearings need four points: on fewer than four processed
    points the pattern detector returns the non-anomalous verdict. *)
Theorem pattern_needs_four_points :
  forall (processed_data : list ProcessedPoint) (profile : Profile),
    (length processed_data < 4)%nat ->
    _detect_pattern_anomaly processed_data profile = no_anomaly.
Proof.
  intros pd profile Hlen. unfold _detect_pattern_anomaly.
  destruct (length pd <? 3)%nat; [reflexivity|].
  assert (Hdirs : (length (directions_of pd) < 3)%nat).
  { destruct pd as [|first rest]; simpl; [lia|].
    pose proof (directions_from_length rest first). simpl in Hlen. lia. }
  apply Nat.leb_gt in Hdirs. rewrite Hdirs. reflexivity.
Qed.

(** ** Frequent locations *)

(** The centre of a cluster is its first visit. *)
Definition centered (cluster : LocCluster) : Prop :=
  exists later, c_points cluster = c_center cluster :: later.

Lemma add_to_cluster_centered (radius_m : Q) (location : LatLng) :
  forall clusters, Forall centered clusters ->
    Forall centered (fst (add_to_cluster radius_m location clusters)).
Proof.
  induction clusters as [|c cs IH]; intros Hall; simpl; [constructor|].
  inversion Hall as [|c' cs' Hc Hcs]; subst.
  destruct (Qle_bool (geodesic_m location (c_center c)) radius_m); simpl.
  - constructor; [|exact Hcs]. destruct Hc as [later Hlater].
    exists (later ++ [location]). simpl. rewrite Hlater. reflexivity.
  - destruct (add_to_cluster radius_m location cs) as [rest' added'] eqn:E. simpl.
    constructor; [exact Hc|]. apply (IH Hcs).
Qed.

Lemma location_clusters_centered (radius_m : Q) (locations : list LatLng) :
  forall clusters, Forall centered clusters ->
    Forall centered (fold_left (cluster_location radius_m) locations clusters).
Proof.
  induction locations as [|location rest IH]; intros clusters Hall; simpl; [exact Hall|].
  apply IH. unfold cluster_location.
  pose proof (add_to_cluster_centered radius_m location clusters Hall) as H.
  destruct (add_to_cluster radius_m location clusters) as [clusters' added]. simpl in H.
  destruct added; [exact H|].
  apply Forall_app. split; [exact H|].
  constructor; [exists []; reflexivity|constructor].
Qed.

Definition total_count (clusters : list LocCluster) : Z :=
  fold_right Z.add 0%Z (map c_count clusters).

Lemma total_count_visits (clusters : list LocCluster) :
  Forall counted clusters -> total_count clusters = Z.of_nat (length (visits clusters)).
Proof.
  unfold total_count, visits.
  induction clusters as [|c cs IH]; intros Hall; simpl; [reflexivity|].
  inversion Hall as [|c' cs' Hc Hcs]; subst.
  rewrite length_app, IH by exact Hcs. rewrite Hc. lia.
Qed.

Lemma total_count_filter (keep : LocCluster -> bool) (clusters : list LocCluster) :
  Forall counted clusters ->
  (total_count (List.filter keep clusters) <= total_count clusters)%Z.
Proof.
  unfold total_count.
  induction clusters as [|c cs IH]; intros Hall; simpl; [lia|].
  inversion Hall as [|c' cs' Hc Hcs]; subst. specialize (IH Hcs).
  unfold counted in Hc. destruct (keep c); simpl; lia.
Qed.

(** X9. Every frequent location that is returned has at least 3
    visits and has one of the input locations as its centre, and the
    visit counts of the returned locations add up to no more than the
    number of input locations. *)
Theorem frequent_locations_are_visited :
  forall (locations : list LatLng) (radius_m : Q),
    let frequent := _get_frequent_locations locations radius_m in
    Forall (fun f => (3 <= visit_count f)%Z /\ In (center f) locations) frequent /\
    (fold_right Z.add 0%Z (map visit_count frequent) <= Z.of_nat (length locations))%Z.
Proof.
  intros locations radius_m frequent. subst frequent. unfold _get_frequent_locations.
  destruct (length locations <? 5)%nat; [split; [constructor|simpl; lia]|].
  destruct (location_clusters_partition radius_m locations) as [Hperm Hcounted].
  pose proof (location_clusters_centered radius_m locations [] (List.Forall_nil _))
    as Hcentered.
  fold (location_clusters radius_m locations) in Hcentered.
  set (clusters := location_clusters radius_m locations) in *.
  unfold frequent_of. split.
  - apply List.Forall_forall. intros f Hf.
    apply in_map_iff in Hf. destruct Hf as [c [Hfc Hc]]. subst f. simpl.
    apply filter_In in Hc. destruct Hc as [Hc Hthree].
    split; [apply Z.leb_le; exact Hthree|].
    rewrite List.Forall_forall in Hcentered. destruct (Hcentered c Hc) as [later Hlater].
    apply (Permutation_in _ Hperm). unfold visits.
    apply in_concat. exists (c_points c). split; [apply in_map; exact Hc|].
    rewrite Hlater. left. reflexivity.
  - rewrite map_map. simpl.
    change (fold_right Z.add 0%Z
              (map (fun x => c_count x)
                   (List.filter (fun cluster => (3 <=? c_count cluster)%Z) clusters)))
      with (total_count (List.filter (fun cluster => (3 <=? c_count cluster)%Z) clusters)).
    pose proof (total_count_filter (fun cluster => (3 <=? c_count cluster)%Z) clusters
                  Hcounted) as Hle.
    rewrite (total_count_visits clusters Hcounted) in Hle.
    rewrite (Permutation_length Hperm) in Hle. exact Hle.
Qed.

(** ** The verdicts the engine can return *)

(** The anomaly types with the confidence each is reported at. *)
Definition verdict_table : list (string * Q) :=
  [("excessive_speed", 0.9); ("unusual_speed", 0.8); ("sudden_speed_change", 0.7);
   ("erratic_movement", 0.6); ("unusual_location", 0.5); ("unusual_time", 0.4)]%string.

Definition tabled (v : Verdict) : Prop :=
  (is_anomaly v = true /\
   exists kind, type v = Some kind /\ In (kind, confidence v) verdict_table) \/
  (is_anomaly v = false /\ confidence v = 0.0 /\
   (type v = None \/ type v = Some "error"%string)).

Local Ltac tabled_quiet := right; split; [reflexivity|split; [reflexivity|tauto]].

Local Ltac tabled_fired :=
  left; split; [reflexivity|];
  eexists; split; [reflexivity|];
  unfold verdict_table; cbn [In confidence];
  repeat first [left; reflexivity | right].

Local Ltac tabled_cases :=
  repeat match goal with
         | |- context [if ?b then _ else _] => destruct b
         | |- context [match ?l with [] => _ | _ :: _ => _ end] => destruct l
         end;
  first [tabled_quiet | tabled_fired].

Lemma speed_verdict_tabled pd profile : tabled (_detect_speed_anomaly pd profile).
Proof.
  unfold _detect_speed_anomaly.
  destruct (positive_speeds pd) as [|s speeds]; [tabled_quiet|].
  cbn [max_list bind]. tabled_cases.
Qed.

Lemma pattern_verdict_tabled pd profile : tabled (_detect_pattern_anomaly pd profile).
Proof. unfold _detect_pattern_anomaly. tabled_cases. Qed.

Lemma location_verdict_tabled pd profile : tabled (_detect_location_anomaly pd profile).
Proof.
  unfold _detect_location_anomaly.
  destruct (typical_locations profile); [tabled_quiet|].
  destruct (map _ (map _ pd)); [tabled_quiet|].
  tabled_cases.
Qed.

Lemma time_verdict_tabled pd profile : tabled (_detect_time_anomaly pd profile).
Proof.
  unfold _detect_time_anomaly.
  destruct pd; cbn [bind]; [tabled_quiet|].
  tabled_cases.
Qed.

(** The details of the verdict for too few points are those of no other
    verdict. *)
Definition detailed (v : Verdict) : Prop :=
  details v <> Some "Insufficient data"%string.

Local Ltac detailed_cases :=
  repeat match goal with
         | |- context [if ?b then _ else _] => destruct b
         | |- context [match ?l with [] => _ | _ :: _ => _ end] => destruct l
         end;
  unfold detailed; simpl; discriminate.

Lemma detect_anomalies_detailed (now : datetime) (self : Detector) (uid : string)
  (location_data : list TelemetryPoint) :
  (2 <= length location_data)%nat ->
  detailed (fst (detect_anomalies now self uid location_data)).
Proof.
  intros Hlen. unfold detect_anomalies, detect_anomalies_try.
  apply Nat.ltb_ge in Hlen. rewrite Hlen.
  destruct (_process_location_data location_data) as [pd|e];
    [|unfold detailed; simpl; discriminate].
  destruct (_get_user_movement_profile self uid) as [profile self']. cbn [fst].
  apply max_by_confidence_preserves.
  - unfold _detect_speed_anomaly.
    destruct (positive_speeds pd) as [|s speeds]; [unfold detailed; simpl; discriminate|].
    cbn [max_list bind]. detailed_cases.
  - constructor; [unfold _detect_pattern_anomaly; detailed_cases|].
    constructor.
    { unfold _detect_location_anomaly.
      destruct (typical_locations profile); [unfold detailed; simpl; discriminate|].
      destruct (map _ (map _ pd)); [unfold detailed; simpl; discriminate|].
      detailed_cases. }
    constructor; [|constructor].
    unfold _detect_time_anomaly.
    destruct pd; cbn [bind]; [unfold detailed; simpl; discriminate|].
    detailed_cases.
Qed.

(** X26. Every verdict of [detect_anomalies] is of one of two kinds.
    An anomalous verdict names one of six types and has the confidence
    that goes with it: excessive_speed 0.9, unusual_speed 0.8,
    sudden_speed_change 0.7, erratic_movement 0.6, unusual_location 0.5,
    unusual_time 0.4. A non-anomalous verdict has confidence 0.0 and
    either no type or the type [error]. *)
Theorem verdicts_follow_the_table :
  forall (now : datetime) (self : Detector) (uid : string)
         (location_data : list TelemetryPoint),
    let v := fst (detect_anomalies now self uid location_data) in
    (is_anomaly v = true /\
     exists kind, type v = Some kind /\ In (kind, confidence v) verdict_table) \/
    (is_anomaly v = false /\ confidence v = 0.0 /\
     (type v = None \/ type v = Some "error"%string)).
Proof.
  intros now self uid location_data v. subst v.
  change (tabled (fst (detect_anomalies now self uid location_data))).
  unfold detect_anomalies, detect_anomalies_try.
  destruct (length location_data <? 2)%nat; [tabled_quiet|].
  destruct (_process_location_data location_data) as [pd|e]; [|tabled_quiet].
  destruct (_get_user_movement_profile self uid) as [profile self']. cbn [fst].
  apply max_by_confidence_preserves;
    [apply speed_verdict_tabled|].
  constructor; [apply pattern_verdict_tabled|].
  constructor; [apply location_verdict_tabled|].
  constructor; [apply time_verdict_tabled|constructor].
Qed.

End Engine.

(** ** Concrete runs *)

(** Stand-ins for the library functions in the runs below: a distance
    that is zero between equal coordinates, and formatters whose text
    does not matter. *)
Definition taxicab_km (a b : LatLng) : Q :=
  (Qabs (fst a - fst b) + Qabs (snd a - snd b)) * 111.

Definition fmt_stub (x : Q) : string := "<float>"%string.

Definition quiet_gateway : Gateway :=
  {| get_user_location_history := fun _ _ => Ok [];
     store_anomaly_detection := fun _ => Ok tt |}.

Definition fresh_detector : Detector :=
  {| user_profiles := ∅; gateway_calls := [] |}.

(** 2024-01-01 12:00:00 and one minute later, counted from 1970. *)
Definition noon : Z := (19723 * us_per_day + 12 * us_per_hour)%Z.

Definition standing_point : TelemetryPoint :=
  {| raw_lat := Some 28.6; raw_lng := Some 77.2; raw_timestamp := TsIso (utc noon);
     raw_accuracy := None; raw_speed := None |}.

(** The same place a minute later, the device reporting 60 km/h. *)
Definition moving_point : TelemetryPoint :=
  {| raw_lat := Some 28.6; raw_lng := Some 77.2;
     raw_timestamp := TsIso (utc (noon + 60 * us_per_second));
     raw_accuracy := None; raw_speed := Some 60 |}.

Definition run_detect (now : datetime) (self : Detector) (uid : string)
  (location_data : list TelemetryPoint) : Verdict * Detector :=
  detect_anomalies default_config quiet_gateway taxicab_km (fun _ _ => 0) (355 # 113)
    (fun _ => 0) (fun _ _ => 0) fmt_stub fmt_stub now self uid location_data.

Lemma detect_anomalies_insufficient_data_witness :
  (length [standing_point] < 2)%nat /\
  run_detect (naive noon) fresh_detector "u1" [standing_point] =
    ({| is_anomaly := false; confidence := 0.0; type := None;
        details := Some "Insufficient data"%string |}, fresh_detector).
Proof.
  split; [simpl; lia|].
  apply (detect_anomalies_insufficient_data default_config quiet_gateway taxicab_km
           (fun _ _ => 0) (355 # 113) (fun _ => 0) (fun _ _ => 0) fmt_stub fmt_stub).
  simpl; lia.
Defined.

(** Two points at one place, the second reporting 60 km/h: the enriched
    speeds are 0 and 60, none above the threshold of 100 or above 1.5
    times the default 99th percentile, and they differ by 60. The
    difference is not seen, because the zero is dropped before the
    differences are taken: the detector and the engine return the
    non-anomalous verdict. *)
Lemma speed_delta_of_sequence_not_flagged :
  match _process_location_data taxicab_km [standing_point; moving_point] with
  | Ok processed_data =>
      map calculated_speed processed_data = [0; 60] /\
      Forall (fun s => s <= MOVEMENT_SPEED_THRESHOLD default_config)
             (map calculated_speed processed_data) /\
      Forall (fun s => s <= speed_percentiles_99 _get_default_profile * 1.5)
             (map calculated_speed processed_data) /\
      Exists (fun c => 50 < c) (speed_changes_of (map calculated_speed processed_data)) /\
      _detect_speed_anomaly default_config fmt_stub processed_data _get_default_profile
        = no_anomaly /\
      fst (run_detect (naive noon) fresh_detector "u1" [standing_point; moving_point])
        = no_anomaly
  | Err _ => False
  end.
Proof.
  vm_compute.
  split; [reflexivity|].
  split; [repeat constructor; discriminate|].
  split; [repeat constructor; discriminate|].
  split; [constructor; reflexivity|].
  split; reflexivity.
Qed.

(** About 2.5 km in one minute is 150 km/h: [excessive_speed]. *)
Definition far_point : TelemetryPoint :=
  {| raw_lat := Some (28.6 + 2.5 / 111); raw_lng := Some 77.2;
     raw_timestamp := TsIso (utc (noon + 60 * us_per_second));
     raw_accuracy := None; raw_speed := None |}.

Example excessive_speed_scenario :
  let v := fst (run_detect (naive noon) fresh_detector "u1" [standing_point; far_point]) in
  is_anomaly v = true /\ confidence v = 0.9 /\ type v = Some "excessive_speed"%string.
Proof. vm_compute. repeat split. Qed.

(** A naive timestamp after an aware one: the subtraction raises in
    [_process_location_data] and the handler of [detect_anomalies]
    answers. *)
Definition naive_point : TelemetryPoint :=
  {| raw_lat := Some 28.6; raw_lng := Some 77.2;
     raw_timestamp := TsIso (naive (noon + 60 * us_per_second));
     raw_accuracy := None; raw_speed := None |}.

Example mixed_timestamps_are_caught :
  run_detect (naive noon) fresh_detector "u1" [standing_point; naive_point] =
    (detection_error
       (TypeError "can't subtract offset-naive and offset-aware datetimes"),
     fresh_detector).
Proof. vm_compute. reflexivity. Qed.

(** Two points at one place at 02:00 and 02:01: only the time detector
    fires. At 01:59 nothing does. *)
Definition at_hour_point (h m : Z) : TelemetryPoint :=
  {| raw_lat := Some 28.6; raw_lng := Some 77.2;
     raw_timestamp :=
       TsIso (utc (19723 * us_per_day + h * us_per_hour + m * 60 * us_per_second));
     raw_accuracy := None; raw_speed := None |}.

Example late_night_scenario :
  let v := fst (run_detect (naive noon) fresh_detector "u1"
                  [at_hour_point 2 0; at_hour_point 2 1]) in
  let v' := fst (run_detect (naive noon) fresh_detector "u1"
                   [at_hour_point 1 59; at_hour_point 2 0]) in
  (is_anomaly v = true /\ confidence v = 0.4 /\ type v = Some "unusual_time"%string) /\
  v' = no_anomaly.
Proof. vm_compute. repeat split. Qed.

(** A run that succeeds asks the gateway for the history, caches the
    profile and stores the detection. *)
Example successful_run_calls_the_gateway :
  let out := run_detect (naive noon) fresh_detector "u1" [standing_point; moving_point] in
  user_profiles (snd out) !! "u1" = Some _get_default_profile /\
  length (gateway_calls (snd out)) = 2%nat.
Proof. vm_compute. split; reflexivity. Qed.

(** The enrichment of the standing and the moving point. *)
Definition enriched_pair : list ProcessedPoint :=
  Eval vm_compute in
    match _process_location_data taxicab_km [standing_point; moving_point] with
    | Ok processed_data => processed_data
    | Err _ => []
    end.

Lemma enriched_pair_run :
  _process_location_data taxicab_km [standing_point; moving_point] = Ok enriched_pair.
Proof. vm_compute. reflexivity. Qed.

Lemma enrichment_keeps_points_witness :
  Forall2 enriches [standing_point; moving_point] enriched_pair /\
  length enriched_pair = length [standing_point; moving_point] /\
  match enriched_pair with
  | first :: _ =>
      calculated_speed first = 0 /\ distance_from_prev first = 0 /\ time_from_prev first = 0
  | [] => [standing_point; moving_point] = []
  end.
Proof.
  apply (enrichment_keeps_points taxicab_km). vm_compute. reflexivity.
Defined.

Definition enriched_others : list ProcessedPoint :=
  Eval vm_compute in tl enriched_pair.

Definition enriched_first : ProcessedPoint :=
  Eval vm_compute in
    hd {| lat := 0; lng := 0; timestamp := naive 0; accuracy := 0; speed := 0;
          calculated_speed := 0; distance_from_prev := 0; time_from_prev := 0 |}
       enriched_pair.

Lemma reported_speed_wins_after_first_witness :
  _process_location_data taxicab_km [standing_point; moving_point]
    = Ok (enriched_first :: enriched_others) /\
  calculated_speed enriched_first = 0 /\ Forall device_speed_kept enriched_others.
Proof.
  assert (Hrun : _process_location_data taxicab_km [standing_point; moving_point]
                 = Ok (enriched_first :: enriched_others)) by (vm_compute; reflexivity).
  split; [exact Hrun|].
  exact (reported_speed_wins_after_first taxicab_km _ _ _ Hrun).
Defined.

(** A point that has lost its latitude. *)
Definition headless_point : TelemetryPoint :=
  {| raw_lat := None; raw_lng := Some 77.2;
     raw_timestamp := TsIso (utc (noon + 60 * us_per_second));
     raw_accuracy := None; raw_speed := None |}.

Lemma malformed_point_gives_error_verdict_witness :
  (2 <= length [standing_point; headless_point])%nat /\
  Exists malformed [standing_point; headless_point] /\
  exists e,
    run_detect (naive noon) fresh_detector "u1" [standing_point; headless_point]
    = (detection_error e, fresh_detector).
Proof.
  assert (Hlen : (2 <= length [standing_point; headless_point])%nat) by (simpl; lia).
  assert (Hbad : Exists malformed [standing_point; headless_point]).
  { apply List.Exists_cons_tl. apply List.Exists_cons_hd. left. reflexivity. }
  split; [exact Hlen|]. split; [exact Hbad|].
  unfold run_detect. apply malformed_point_gives_error_verdict; assumption.
Defined.

(** A gateway whose history call raises. *)
Definition failing_gateway : Gateway :=
  {| get_user_location_history := fun _ _ => Err (GatewayError "connection refused");
     store_anomaly_detection := fun _ => Err (GatewayError "connection refused") |}.

Lemma profile_fetch_outcomes_witness :
  let out :=
    _get_user_movement_profile failing_gateway taxicab_km (fun _ => 0) (fun _ _ => 0)
      fresh_detector "u1" in
  user_profiles fresh_detector !! "u1" = None /\
  gateway_calls (snd out) = [Call_get_user_location_history "u1" (24 * 7)] /\
  fst out = _get_default_profile /\
  user_profiles (snd out) = user_profiles fresh_detector.
Proof.
  cbv zeta.
  assert (Hmiss : user_profiles fresh_detector !! "u1" = None) by reflexivity.
  destruct (profile_fetch_outcomes failing_gateway taxicab_km (fun _ => 0) (fun _ _ => 0)
              fresh_detector "u1" Hmiss) as [Hcalls [Hraise _]].
  split; [exact Hmiss|]. split; [exact Hcalls|].
  exact (Hraise _ eq_refl).
Defined.

(** The enrichment of the standing and the far point. *)
Definition enriched_far : list ProcessedPoint :=
  Eval vm_compute in
    match _process_location_data taxicab_km [standing_point; far_point] with
    | Ok processed_data => processed_data
    | Err _ => []
    end.

Lemma engine_returns_strongest_verdict_witness :
  _process_location_data taxicab_km [standing_point; far_point] = Ok enriched_far /\
  is_anomaly (_detect_speed_anomaly default_config fmt_stub enriched_far
                _get_default_profile) = true /\
  fst (run_detect (naive noon) fresh_detector "u1" [standing_point; far_point])
    = _detect_speed_anomaly default_config fmt_stub enriched_far _get_default_profile.
Proof.
  assert (Hrun : _process_location_data taxicab_km [standing_point; far_point]
                 = Ok enriched_far) by (vm_compute; reflexivity).
  assert (Hlen : (2 <= length [standing_point; far_point])%nat) by (simpl; lia).
  assert (Hfires : is_anomaly (_detect_speed_anomaly default_config fmt_stub enriched_far
                                 _get_default_profile) = true) by (vm_compute; reflexivity).
  split; [exact Hrun|]. split; [exact Hfires|].
  destruct (engine_returns_strongest_verdict default_config quiet_gateway taxicab_km
              (fun _ _ => 0) (355 # 113) (fun _ => 0) (fun _ _ => 0) fmt_stub fmt_stub
              (naive noon) fresh_detector "u1" [standing_point; far_point] enriched_far
              Hlen Hrun) as [_ [_ [_ Hspeed]]].
  exact (Hspeed Hfires).
Defined.

Lemma detection_is_stored_once_witness :
  let out := run_detect (naive noon) fresh_detector "u1" [standing_point; moving_point] in
  gateway_calls (snd out)
    = [Call_get_user_location_history "u1" (24 * 7);
       Call_store_anomaly_detection
         {| user_id := "u1";
            location_data_sample := [standing_point; moving_point];
            anomaly_result := fst out;
            detection_timestamp := naive noon |}].
Proof.
  cbv zeta. unfold run_detect.
  destruct (detection_is_stored_once default_config quiet_gateway taxicab_km
              (fun _ _ => 0) (355 # 113) (fun _ => 0) (fun _ _ => 0) fmt_stub fmt_stub
              (naive noon) fresh_detector "u1" [standing_point; moving_point] enriched_pair
              (ltac:(simpl; lia)) enriched_pair_run) as [Hcalls _].
  rewrite Hcalls. reflexivity.
Defined.

Lemma pattern_needs_four_points_witness :
  (length enriched_pair < 4)%nat /\
  _detect_pattern_anomaly (fun _ _ => 0) (355 # 113) fmt_stub enriched_pair
    _get_default_profile = no_anomaly.
Proof.
  split; [simpl; lia|].
  apply pattern_needs_four_points. simpl; lia.
Defined.

End AnomalyDetector.

(** * [ml_models/pattern_analyzer.py] *)

Module PatternAnalyzer.

(** A timestamp read from a document: a [datetime], or a string with
    what [fromisoformat] makes of it. *)
Inductive Stamp : Type :=
| StampDatetime (dt : datetime)
| StampStr (parsed : result datetime).

(** The [isinstance(timestamp, str)] branch. *)
Definition stamp_datetime (s : Stamp) : result datetime :=
  match s with
  | StampDatetime dt => Ok dt
  | StampStr parsed => parsed
  end.

(** A document of the [incidents] collection. [i_location] is [None]
    without a ['location'] key and [Some None] when the location has no
    ['coordinates']; coordinates are [(lng, lat)]. *)
Record Incident : Type := {
  i_location : option (option (Q * Q));
  i_type : option string;
  i_severity : option string;
  i_createdAt : option Stamp
}.

Record PanicAlert : Type := {
  a_location : option (option (Q * Q));
  a_timestamp : option Stamp
}.

(** An element of [all_points]. *)
Record Point : Type := {
  lat : Q;
  lng : Q;
  type : string;
  subtype : string;
  severity : string;
  timestamp : Stamp
}.

Record Center : Type := {
  center_lat : Q;
  center_lng : Q
}.

Record Cluster : Type := {
  center : Center;
  points : list Point;
  incident_count : Z
}.

Record Hotspot : Type := {
  h_center : Center;
  h_incident_count : Z;
  risk_score : Q;
  risk_level : string;
  h_radius_km : Q;
  incident_breakdown : list (string * Z);
  most_common_type : string;
  recent_incidents : Z
}.

(** An element of [all_events]. *)
Record Event : Type := {
  e_timestamp : datetime;
  e_type : string;
  e_severity : string
}.

Lemma filter_length_le {A : Type} (f : A -> bool) (l : list A) :
  (length (List.filter f l) <= length l)%nat.
Proof.
  induction l as [|a l IH]; simpl; [lia|].
  destruct (f a); simpl; lia.
Qed.

Section Engine.

Variable config : Config.
(** [geodesic(a, b).kilometers], for coordinates geopy accepts: it
    raises [ValueError] for a latitude outside [-90, 90], which is not
    modelled. *)
Variable geodesic_km : LatLng -> LatLng -> Q.

(** The test of the inner loop of [_cluster_points]. *)
Definition near (radius_km : Q) (seed_point point : Point) : bool :=
  Qle_bool (geodesic_km (lat seed_point, lng seed_point) (lat point, lng point)) radius_km.

(** The cluster grown from [seed_point] and the points found near it,
    with its centre moved to the centroid when it has more than one
    point. *)
Definition grow_cluster (seed_point : Point) (nearby : list Point) : Cluster :=
  let members := seed_point :: nearby in
  {| center :=
       if (1 <? length members)%nat
       then {| center_lat := np_mean (map lat members);
               center_lng := np_mean (map lng members) |}
       else {| center_lat := lat seed_point; center_lng := lng seed_point |};
     points := members;
     incident_count := 1 + Z.of_nat (length nearby) |}.

Definition enough_incidents (cluster : Cluster) : bool :=
  (MIN_INCIDENTS_FOR_HOTSPOT config <=? incident_count cluster)%Z.

(** The [while unclustered_points] loop. The seed is popped; the points
    of the rest within [radius_km] of the seed join it in order and are
    removed; the cluster is appended only when it has the configured
    minimum. *)
Equations? cluster_loop (radius_km : Q) (unclustered_points : list Point)
  (clusters : list Cluster) : list Cluster
  by wf (length unclustered_points) lt :=
  cluster_loop radius_km [] clusters := clusters;
  cluster_loop radius_km (seed_point :: rest) clusters :=
    let cluster := grow_cluster seed_point (List.filter (near radius_km seed_point) rest) in
    cluster_loop radius_km
      (List.filter (fun point => negb (near radius_km seed_point point)) rest)
      (if enough_incidents cluster then clusters ++ [cluster] else clusters).
Proof.
  pose proof (filter_length_le (fun point => negb (near radius_km seed_point point)) rest).
  simpl. lia.
Qed.

Definition _cluster_points (points : list Point) (radius_km : Q) : list Cluster :=
  cluster_loop radius_km points [].

(** The same loop without the minimum: every cluster it forms. *)
Equations? formed_loop (radius_km : Q) (unclustered_points : list Point)
  (clusters : list Cluster) : list Cluster
  by wf (length unclustered_points) lt :=
  formed_loop radius_km [] clusters := clusters;
  formed_loop radius_km (seed_point :: rest) clusters :=
    formed_loop radius_km
      (List.filter (fun point => negb (near radius_km seed_point point)) rest)
      (clusters ++ [grow_cluster seed_point (List.filter (near radius_km seed_point) rest)]).
Proof.
  pose proof (filter_length_le (fun point => negb (near radius_km seed_point point)) rest).
  simpl. lia.
Qed.

Definition formed_clusters (points : list Point) (radius_km : Q) : list Cluster :=
  formed_loop radius_km points [].

Definition severity_weights : list (string * Z) :=
  [("low", 1); ("medium", 2); ("high", 3); ("critical", 4)]%string%Z.

Definition type_weights : list (string * Z) :=
  [("panic_alert", 3); ("crime", 3); ("accident", 2); ("medical", 2);
   ("fire", 2); ("other", 1)]%string%Z.

(** The summand of the first loop of [_rank_hotspots]. *)
Definition point_weight (point : Point) : Z :=
  (dict_get severity_weights (severity point) 2 * dict_get type_weights (subtype point) 1)%Z.

(** [risk_score] after the first loop. *)
Definition cluster_risk_score (cluster : Cluster) : Z :=
  fold_left (fun risk_score point => (risk_score + point_weight point)%Z) (points cluster) 0%Z.

Definition time_decay (days_old : Z) : Q :=
  Qmax 0.1 (1.0 - inject_Z days_old / 30).

(** The body of the second loop: the weight of one point, when its
    timestamp can be read and subtracted from [now]. *)
Definition time_weight (now : datetime) (point : Point) : result Q :=
  let? ts := stamp_datetime (timestamp point) in
  let? td := dt_sub now ts in
  Ok (time_decay (days td)).

Fixpoint time_weights_of (now : datetime) (pts : list Point) : result (list Q) :=
  match pts with
  | [] => Ok []
  | point :: rest =>
      let? w := time_weight now point in
      let? ws := time_weights_of now rest in
      Ok (w :: ws)
  end.

Definition avg_time_weight_of (time_weights : list Q) : Q :=
  match time_weights with
  | [] => 1.0
  | _ => np_mean time_weights
  end.

(** [incident_breakdown[key] += 1] on a [defaultdict(int)], items in
    insertion order. *)
Fixpoint bump (key : string) (d : list (string * Z)) : list (string * Z) :=
  match d with
  | [] => [(key, 1%Z)]
  | (k, n) :: d' => if String.eqb k key then (k, (n + 1)%Z) :: d' else (k, n) :: bump key d'
  end.

Definition breakdown_of (pts : list Point) : list (string * Z) :=
  fold_left (fun d point => bump (subtype point) d) pts [].

(** [max(items, key=lambda x: x[1])]. *)
Fixpoint max_item (best : string * Z) (items : list (string * Z)) : string * Z :=
  match items with
  | [] => best
  | item :: rest => max_item (if (snd best <? snd item)%Z then item else best) rest
  end.

Definition _get_risk_level (score : Q) : string :=
  if Qltb score 10 then "low"%string
  else if Qltb score 20 then "moderate"%string
  else if Qltb score 35 then "high"%string
  else "critical"%string.

Definition _is_recent (now : datetime) (ts : Stamp) (n_days : Z) : result bool :=
  let? t := stamp_datetime ts in
  dt_ge t (minus_days now n_days).

Fixpoint count_recent (now : datetime) (pts : list Point) : result Z :=
  match pts with
  | [] => Ok 0%Z
  | point :: rest =>
      let? recent := _is_recent now (timestamp point) 7 in
      let? n := count_recent now rest in
      Ok (if recent then (1 + n)%Z else n)
  end.

(** [final_score] of the loop body of [_rank_hotspots]. *)
Definition final_score_of (now : datetime) (cluster : Cluster) : result Q :=
  let? time_weights := time_weights_of now (points cluster) in
  Ok (inject_Z (cluster_risk_score cluster) * avg_time_weight_of time_weights).

(** The hotspot built from one cluster, with the score and the level
    of the exact [final_score]. *)
Definition hotspot_of (now : datetime) (cluster : Cluster) : result Hotspot :=
  let? final_score := final_score_of now cluster in
  let breakdown := breakdown_of (points cluster) in
  let? most_common :=
    match breakdown with
    | [] => Err (ValueError "max() arg is an empty sequence")
    | item :: items => Ok (max_item item items)
    end in
  let? recent := count_recent now (points cluster) in
  Ok {| h_center := center cluster;
        h_incident_count := incident_count cluster;
        risk_score := round2 final_score;
        risk_level := _get_risk_level final_score;
        h_radius_km := HOTSPOT_RADIUS config;
        incident_breakdown := breakdown;
        most_common_type := fst most_common;
        recent_incidents := recent |}.

Fixpoint hotspots_of (now : datetime) (clusters : list Cluster) : result (list Hotspot) :=
  match clusters with
  | [] => Ok []
  | cluster :: rest =>
      let? hotspot := hotspot_of now cluster in
      let? ranked := hotspots_of now rest in
      Ok (hotspot :: ranked)
  end.

(** [ranked.sort(key=lambda x: x['risk_score'], reverse=True)]: a stable
    sort, so hotspots of equal score keep their order. [insert_ranked]
    puts a hotspot that came earlier in front of the first one whose
    score is not greater. *)
Fixpoint insert_ranked (h : Hotspot) (sorted : list Hotspot) : list Hotspot :=
  match sorted with
  | [] => [h]
  | x :: rest =>
      if Qltb (risk_score h) (risk_score x) then x :: insert_ranked h rest
      else h :: x :: rest
  end.

Fixpoint sort_ranked (ranked : list Hotspot) : list Hotspot :=
  match ranked with
  | [] => []
  | h :: rest => insert_ranked h (sort_ranked rest)
  end.

Definition _rank_hotspots (now : datetime) (clusters : list Cluster) : result (list Hotspot) :=
  let? ranked := hotspots_of now clusters in
  Ok (sort_ranked ranked).

Definition incident_point (now : datetime) (incident : Incident) : list Point :=
  match i_location incident with
  | Some (Some coords) =>
      [{| lat := snd coords; lng := fst coords;
          type := "incident";
          subtype := get (i_type incident) "unknown"%string;
          severity := get (i_severity incident) "medium"%string;
          timestamp := get (i_createdAt incident) (StampDatetime now) |}]
  | _ => []
  end.

Definition alert_point (now : datetime) (alert : PanicAlert) : list Point :=
  match a_location alert with
  | Some (Some coords) =>
      [{| lat := snd coords; lng := fst coords;
          type := "panic_alert";
          subtype := "emergency";
          severity := "high";
          timestamp := get (a_timestamp alert) (StampDatetime now) |}]
  | _ => []
  end.

Definition all_points_of (now : datetime) (incidents : list Incident)
  (panic_alerts : list PanicAlert) : list Point :=
  concat (map (incident_point now) incidents) ++ concat (map (alert_point now) panic_alerts).

Definition _identify_hotspots (now : datetime) (incidents : list Incident)
  (panic_alerts : list PanicAlert) : list Hotspot :=
  let attempt : result (list Hotspot) :=
    let all_points := all_points_of now incidents panic_alerts in
    if (Z.of_nat (length all_points) <? MIN_INCIDENTS_FOR_HOTSPOT config)%Z then Ok []
    else
      let hotspots := _cluster_points all_points (HOTSPOT_RADIUS config) in
      let? ranked_hotspots := _rank_hotspots now hotspots in
      Ok (firstn 10 ranked_hotspots) in
  match attempt with
  | Ok hotspots => hotspots
  | Err _ => []
  end.

(** [a < b] on datetimes; comparing a naive with an aware one raises. *)
Definition dt_lt (a b : datetime) : result bool :=
  let? td := dt_sub a b in Ok (td <? 0)%Z.

(** [sorted(events, key=lambda x: x['timestamp'])]: stable, and it
    raises as soon as two timestamps cannot be compared. *)
Fixpoint insert_event (e : Event) (sorted : list Event) : result (list Event) :=
  match sorted with
  | [] => Ok [e]
  | x :: rest =>
      let? earlier := dt_lt (e_timestamp x) (e_timestamp e) in
      if earlier
      then let? rest' := insert_event e rest in Ok (x :: rest')
      else Ok (e :: x :: rest)
  end.

Fixpoint sorted_by_timestamp (events : list Event) : result (list Event) :=
  match events with
  | [] => Ok []
  | e :: rest =>
      let? sorted := sorted_by_timestamp rest in
      insert_event e sorted
  end.

(** The rates and their ratio are exact here. The code divides floats,
    which can only matter when the ratio is a threshold itself: 11 events
    are cut into 5 and 6, a ratio of 1.2. *)
Definition _calculate_trend_direction (events : list Event) (total_days : Z)
  : result string :=
  if (length events <? 4)%nat || (total_days <? 7)%Z then Ok "insufficient_data"%string
  else
    let? sorted_events := sorted_by_timestamp events in
    let mid_point := (length sorted_events / 2)%nat in
    let first_half := firstn mid_point sorted_events in
    let second_half := skipn mid_point sorted_events in
    let first_half_rate := Qlen first_half / (inject_Z total_days / 2) in
    let second_half_rate := Qlen second_half / (inject_Z total_days / 2) in
    let change_ratio :=
      if Qltb 0 first_half_rate then second_half_rate / first_half_rate else 1 in
    if Qltb 1.2 change_ratio then Ok "increasing"%string
    else if Qltb change_ratio 0.8 then Ok "decreasing"%string
    else Ok "stable"%string.

(** ** Properties of the clustering *)

Lemma filter_split_permutation {A : Type} (f : A -> bool) (l : list A) :
  Permutation (List.filter f l ++ List.filter (fun a => negb (f a)) l) l.
Proof.
  induction l as [|a l IH]; simpl; [constructor|].
  destruct (f a); simpl.
  - constructor. exact IH.
  - symmetry. apply Permutation_cons_app. symmetry. exact IH.
Qed.

Definition members (clusters : list Cluster) : list Point :=
  concat (map points clusters).

Lemma members_app (cs1 cs2 : list Cluster) :
  members (cs1 ++ cs2) = members cs1 ++ members cs2.
Proof. unfold members. rewrite map_app, concat_app. reflexivity. Qed.

Lemma formed_loop_partition (radius : Q) :
  forall (n : nat) (pts : list Point) (acc : list Cluster),
    (length pts <= n)%nat ->
    Permutation (members (formed_loop radius pts acc)) (members acc ++ pts).
Proof.
  induction n as [|n IH]; intros pts acc Hlen.
  - destruct pts; [|simpl in Hlen; lia]. simp formed_loop. rewrite app_nil_r. reflexivity.
  - destruct pts as [|seed rest]; simp formed_loop.
    + rewrite app_nil_r. reflexivity.
    + rewrite IH.
      * rewrite members_app. unfold members at 2. simpl. rewrite app_nil_r.
        rewrite <- app_assoc. apply Permutation_app_head.
        simpl. constructor. apply filter_split_permutation.
      * pose proof (filter_length_le (fun point => negb (near radius seed point)) rest).
        simpl in Hlen. lia.
Qed.

Lemma cluster_loop_keeps_enough (radius : Q) :
  forall (n : nat) (pts : list Point) (acc : list Cluster),
    (length pts <= n)%nat ->
    cluster_loop radius pts (List.filter enough_incidents acc) =
    List.filter enough_incidents (formed_loop radius pts acc).
Proof.
  induction n as [|n IH]; intros pts acc Hlen.
  - destruct pts; [|simpl in Hlen; lia]. simp cluster_loop formed_loop. reflexivity.
  - destruct pts as [|seed rest]; simp cluster_loop formed_loop; [reflexivity|].
    cbv zeta. rewrite <- IH.
    + rewrite List.filter_app. simpl.
      destruct (enough_incidents (grow_cluster seed (List.filter (near radius seed) rest)));
        [reflexivity|rewrite app_nil_r; reflexivity].
    + pose proof (filter_length_le (fun point => negb (near radius seed point)) rest).
      simpl in Hlen. lia.
Qed.

Lemma formed_loop_counts (radius : Q) :
  forall (n : nat) (pts : list Point) (acc : list Cluster),
    (length pts <= n)%nat ->
    Forall (fun c => incident_count c = Z.of_nat (length (points c))) acc ->
    Forall (fun c => incident_count c = Z.of_nat (length (points c)))
           (formed_loop radius pts acc).
Proof.
  induction n as [|n IH]; intros pts acc Hlen Hacc.
  - destruct pts; [|simpl in Hlen; lia]. simp formed_loop.
  - destruct pts as [|seed rest]; simp formed_loop.
    apply IH.
    + pose proof (filter_length_le (fun point => negb (near radius seed point)) rest).
      simpl in Hlen. lia.
    + apply Forall_app. split; [exact Hacc|].
      constructor; [|constructor]. simpl. lia.
Qed.

Lemma members_filter_split (keep : Cluster -> bool) (cs : list Cluster) :
  Permutation (members (List.filter keep cs)
               ++ members (List.filter (fun c => negb (keep c)) cs))
              (members cs).
Proof.
  rewrite <- members_app. unfold members.
  induction cs as [|c cs IH]; simpl; [constructor|].
  destruct (keep c); simpl.
  - apply Permutation_app_head. exact IH.
  - rewrite map_app, concat_app. simpl.
    rewrite map_app, concat_app in IH.
    rewrite Permutation_app_swap_app. apply Permutation_app_head. exact IH.
Qed.

(** C2, as the code has it. The clusters the loop of [_cluster_points]
    forms partition the input: the returned clusters are the formed ones
    that reach the configured minimum, and their points together with
    the points of the clusters dropped for being too small are the input
    points, each occurrence once; so no input point is in two returned
    clusters. In the same way the clusters that
    [_get_frequent_locations] builds hold every location once, and the
    function returns, for five locations or more, the centre and count
    of those with at least 3 visits. *)
Theorem clusters_partition_before_minimum :
  forall (pts : list Point) (radius : Q) (locations : list LatLng) (radius_m : Q),
    let formed := formed_clusters pts radius in
    let kept := _cluster_points pts radius in
    let dropped := List.filter (fun c => negb (enough_incidents c)) formed in
    let visited := AnomalyDetector.location_clusters geodesic_km radius_m locations in
    (kept = List.filter enough_incidents formed /\
     Permutation (members kept ++ members dropped) pts /\
     Forall (fun c => incident_count c = Z.of_nat (length (points c))) formed /\
     (List.NoDup pts -> List.NoDup (members kept))) /\
    (Permutation (AnomalyDetector.visits visited) locations /\
     Forall AnomalyDetector.counted visited /\
     AnomalyDetector._get_frequent_locations geodesic_km locations radius_m =
       if (length locations <? 5)%nat then []
       else AnomalyDetector.frequent_of visited).
Proof.
  intros pts radius locations radius_m formed kept dropped visited.
  assert (Hkept : kept = List.filter enough_incidents formed).
  { subst kept formed. unfold _cluster_points, formed_clusters.
    apply (cluster_loop_keeps_enough radius (length pts) pts []). lia. }
  assert (Hperm : Permutation (members kept ++ members dropped) pts).
  { rewrite Hkept. subst dropped. rewrite members_filter_split.
    subst formed. unfold formed_clusters.
    rewrite (formed_loop_partition radius (length pts) pts []) by lia.
    reflexivity. }
  split; [split; [exact Hkept|split; [exact Hperm|split]]|].
  - subst formed. unfold formed_clusters.
    apply (formed_loop_counts radius (length pts)); [lia|constructor].
  - intros Hnodup.
    assert (Hall : List.NoDup (members kept ++ members dropped)).
    { eapply Permutation_NoDup; [symmetry; exact Hperm|exact Hnodup]. }
    apply NoDup_app_remove_r in Hall. exact Hall.
  - destruct (AnomalyDetector.location_clusters_partition geodesic_km radius_m locations)
      as [Hvisits Hcounted].
    split; [exact Hvisits|split; [exact Hcounted|reflexivity]].
Qed.

(** ** Properties of the hotspot ranking *)

Definition Zsum (l : list Z) : Z := fold_right Z.add 0%Z l.









Lemma insert_ranked_perm (h : Hotspot) (sorted : list Hotspot) :
  Permutation (insert_ranked h sorted) (h :: sorted).
Proof.
  induction sorted as [|x rest IH]; simpl; [reflexivity|].
  destruct (Qltb (risk_score h) (risk_score x)); [|reflexivity].
  rewrite IH. apply perm_swap.
Qed.


Lemma sort_ranked_perm (ranked : list Hotspot) : Permutation (sort_ranked ranked) ranked.
Proof.
  induction ranked as [|h rest IH]; simpl; [constructor|].
  rewrite insert_ranked_perm. constructor. exact IH.
Qed.


Lemma firstn_sorted {A : Type} (R : A -> A -> Prop) (n : nat) :
  forall l, Sorted R l -> Sorted R (firstn n l).
Proof.
  induction n as [|n IH]; intros l Hs; simpl; [constructor|].
  destruct l as [|a l]; [constructor|].
  apply Sorted_inv in Hs. destruct Hs as [Hl Hhd].
  constructor; [apply IH; exact Hl|].
  destruct n; simpl; [constructor|].
  destruct l; [constructor|]. inversion Hhd; subst. constructor. assumption.
Qed.

Lemma firstn_incl {A : Type} (n : nat) :
  forall (l : list A) (x : A), In x (firstn n l) -> In x l.
Proof.
  induction n as [|n IH]; intros l x H; simpl in H; [contradiction|].
  destruct l as [|a l]; [contradiction|].
  destruct H as [H|H]; [left; exact H|right; apply IH; exact H].
Qed.

(** ** Properties of the trend direction *)

Lemma insert_event_length (e : Event) :
  forall sorted sorted', insert_event e sorted = Ok sorted' ->
    length sorted' = S (length sorted).
Proof.
  induction sorted as [|x rest IH]; intros sorted' H; simpl in H.
  - inversion H; subst. reflexivity.
  - apply bind_Ok in H. destruct H as [earlier [_ H]].
    destruct earlier.
    + apply bind_Ok in H. destruct H as [rest' [Hrest H]].
      inversion H; subst. simpl. rewrite (IH _ Hrest). reflexivity.
    + inversion H; subst. reflexivity.
Qed.

Lemma sorted_by_timestamp_length :
  forall events sorted, sorted_by_timestamp events = Ok sorted ->
    length sorted = length events.
Proof.
  induction events as [|e rest IH]; intros sorted H; simpl in H.
  - inversion H; subst. reflexivity.
  - apply bind_Ok in H. destruct H as [sorted0 [Hs H]].
    rewrite (insert_event_length _ _ _ H), (IH _ Hs). reflexivity.
Qed.

Lemma Qlen_pos {A : Type} (l : list A) : (0 < length l)%nat -> 0 < Qlen l.
Proof.
  intros H. unfold Qlen. change 0 with (inject_Z 0). rewrite <- Zlt_Qlt. lia.
Qed.

Lemma Qlen_le {A B : Type} (l : list A) (l' : list B) :
  (length l <= length l')%nat -> Qlen l <= Qlen l'.
Proof. intros H. unfold Qlen. rewrite <- Zle_Qle. lia. Qed.

(** Whatever the timestamps, the second "half" is the [len - len // 2]
    last events and the first the [len // 2] first ones, so the second
    rate is never below the first: the function never answers
    [decreasing]. *)
Lemma trend_direction_never_decreasing (events : list Event) (total_days : Z) :
  _calculate_trend_direction events total_days <> Ok "decreasing"%string.
Proof.
  unfold _calculate_trend_direction.
  destruct (length events <? 4)%nat eqn:Elen; [simpl; discriminate|].
  destruct (total_days <? 7)%Z eqn:Edays; [simpl; discriminate|].
  cbn [orb]. destruct (sorted_by_timestamp events) as [sorted|e] eqn:Es; [|simpl; discriminate].
  cbn [bind]. cbv zeta. apply sorted_by_timestamp_length in Es.
  apply Nat.ltb_ge in Elen. apply Z.ltb_ge in Edays.
  set (mid := (length sorted / 2)%nat).
  set (d := inject_Z total_days / 2).
  assert (Hd : 0 < d).
  { unfold d. apply Qlt_shift_div_l; [lra|]. rewrite Qmult_0_l.
    change 0 with (inject_Z 0). rewrite <- Zlt_Qlt. lia. }
  assert (Hmid : (mid <= length sorted - mid)%nat).
  { unfold mid. pose proof (Nat.div_mod_eq (length sorted) 2).
    pose proof (Nat.mod_upper_bound (length sorted) 2). lia. }
  assert (Hmid_le : (mid <= length sorted)%nat) by lia.
  assert (Hfirst : length (firstn mid sorted) = mid) by (apply firstn_length_le; exact Hmid_le).
  assert (Hsecond : length (skipn mid sorted) = (length sorted - mid)%nat) by apply length_skipn.
  set (a := Qlen (firstn mid sorted)). set (b := Qlen (skipn mid sorted)).
  assert (Hab : a <= b).
  { unfold a, b. apply Qlen_le. rewrite Hfirst, Hsecond. exact Hmid. }
  destruct (Qltb 0 (a / d)) eqn:Epos.
  - apply Qltb_lt in Epos.
    assert (Hratio : 1 <= (b / d) / (a / d)).
    { apply Qle_shift_div_l; [exact Epos|]. rewrite Qmult_1_l.
      unfold Qdiv. apply Qmult_le_compat_r; [exact Hab|].
      apply Qlt_le_weak. apply Qinv_lt_0_compat. exact Hd. }
    destruct (Qltb 1.2 (b / d / (a / d))); [discriminate|].
    destruct (Qltb (b / d / (a / d)) 0.8) eqn:E8; [|discriminate].
    apply Qltb_lt in E8. lra.
  - destruct (Qltb 1.2 1); [discriminate|].
    destruct (Qltb 1 0.8) eqn:E8; [|discriminate].
    apply Qltb_lt in E8. lra.
Qed.

(** ** More on the clusters *)

(** A cluster as the loop builds it around [seed]: the seed comes
    first, the other members are input points within [radius] of the
    seed, and the count is the number of members. *)
Definition gathered (radius : Q) (cluster : Cluster) : Prop :=
  exists seed nearby,
    points cluster = seed :: nearby /\
    Forall (fun p => geodesic_km (lat seed, lng seed) (lat p, lng p) <= radius) nearby /\
    incident_count cluster = Z.of_nat (length (points cluster)).

Lemma grow_cluster_gathered (radius : Q) (seed : Point) (rest : list Point) :
  gathered radius (grow_cluster seed (List.filter (near radius seed) rest)).
Proof.
  exists seed, (List.filter (near radius seed) rest). simpl.
  split; [reflexivity|]. split; [|lia].
  apply List.Forall_forall. intros p Hp. apply filter_In in Hp. destruct Hp as [_ Hnear].
  unfold near in Hnear. apply Qle_bool_iff. exact Hnear.
Qed.

Lemma formed_loop_gathered (radius : Q) :
  forall (n : nat) (pts : list Point) (acc : list Cluster),
    (length pts <= n)%nat ->
    Forall (gathered radius) acc ->
    Forall (gathered radius) (formed_loop radius pts acc).
Proof.
  induction n as [|n IH]; intros pts acc Hlen Hacc.
  - destruct pts; [|simpl in Hlen; lia]. simp formed_loop.
  - destruct pts as [|seed rest]; simp formed_loop.
    apply IH.
    + pose proof (filter_length_le (fun point => negb (near radius seed point)) rest).
      simpl in Hlen. lia.
    + apply Forall_app. split; [exact Hacc|].
      constructor; [apply grow_cluster_gathered|constructor].
Qed.

Lemma cluster_points_formed (pts : list Point) (radius : Q) :
  _cluster_points pts radius = List.filter enough_incidents (formed_clusters pts radius).
Proof.
  unfold _cluster_points, formed_clusters.
  apply (cluster_loop_keeps_enough radius (length pts) pts []). lia.
Qed.

Lemma cluster_points_members (pts : list Point) (radius : Q) (c : Cluster) (p : Point) :
  In c (_cluster_points pts radius) -> In p (points c) -> In p pts.
Proof.
  intros Hc Hp. rewrite cluster_points_formed in Hc. apply filter_In in Hc.
  destruct Hc as [Hc _].
  pose proof (formed_loop_partition radius (length pts) pts [] (Nat.le_refl _)) as Hperm.
  fold (formed_clusters pts radius) in Hperm. simpl in Hperm.
  apply (Permutation_in _ Hperm). unfold members.
  apply in_concat. exists (points c). split; [apply in_map; exact Hc|exact Hp].
Qed.

Lemma cluster_points_gathered (pts : list Point) (radius : Q) (c : Cluster) :
  In c (_cluster_points pts radius) ->
  gathered radius c /\ (MIN_INCIDENTS_FOR_HOTSPOT config <= incident_count c)%Z.
Proof.
  intros Hc. rewrite cluster_points_formed in Hc. apply filter_In in Hc.
  destruct Hc as [Hc Henough]. split.
  - pose proof (formed_loop_gathered radius (length pts) pts [] (Nat.le_refl _)
                  (List.Forall_nil _)) as Hall.
    rewrite List.Forall_forall in Hall. apply Hall. exact Hc.
  - unfold enough_incidents in Henough. apply Z.leb_le. exact Henough.
Qed.

(** X10. Every cluster [_cluster_points] returns starts with its seed
    point, all its other members lie within the radius of that seed (not
    necessarily of each other), all its members are input points, and its
    incident count is the number of its members and reaches the
    configured minimum. *)
Theorem returned_clusters_surround_their_seed :
  forall (pts : list Point) (radius : Q),
    Forall (fun c =>
              gathered radius c /\
              (MIN_INCIDENTS_FOR_HOTSPOT config <= incident_count c)%Z /\
              Forall (fun p => In p pts) (points c))
           (_cluster_points pts radius).
Proof.
  intros pts radius. apply List.Forall_forall. intros c Hc.
  destruct (cluster_points_gathered _ _ _ Hc) as [Hgathered Hmin].
  split; [exact Hgathered|]. split; [exact Hmin|].
  apply List.Forall_forall. intros p Hp. exact (cluster_points_members _ _ _ _ Hc Hp).
Qed.

(** ** More on the hotspots *)

Lemma bump_total (key : string) (d : list (string * Z)) :
  Zsum (map snd (bump key d)) = (Zsum (map snd d) + 1)%Z.
Proof.
  induction d as [|[k n] d IH]; simpl; [reflexivity|].
  destruct (String.eqb k key); simpl; [lia|]. rewrite IH. lia.
Qed.

Lemma breakdown_total (pts : list Point) :
  Zsum (map snd (breakdown_of pts)) = Z.of_nat (length pts).
Proof.
  unfold breakdown_of.
  assert (H : forall d, Zsum (map snd (fold_left (fun d point => bump (subtype point) d) pts d))
                        = (Zsum (map snd d) + Z.of_nat (length pts))%Z).
  { induction pts as [|p pts IH]; intros d; simpl fold_left; [simpl; lia|].
    rewrite IH, bump_total. simpl length. lia. }
  rewrite H. simpl. lia.
Qed.

Lemma count_recent_bounds (now : datetime) (pts : list Point) :
  forall n, count_recent now pts = Ok n -> (0 <= n <= Z.of_nat (length pts))%Z.
Proof.
  induction pts as [|p pts IH]; intros n H; simpl in H.
  - inversion H; subst. simpl. lia.
  - apply bind_Ok in H. destruct H as [recent [_ H]].
    apply bind_Ok in H. destruct H as [m [Hm H]].
    specialize (IH m Hm). inversion H; subst. simpl length.
    destruct recent; lia.
Qed.

Lemma max_item_in (items : list (string * Z)) :
  forall best, In (max_item best items) (best :: items).
Proof.
  induction items as [|item items IH]; intros best; simpl; [left; reflexivity|].
  specialize (IH (if (snd best <? snd item)%Z then item else best)).
  destruct (snd best <? snd item)%Z; simpl in IH; tauto.
Qed.

Lemma max_item_max (items : list (string * Z)) :
  forall best,
    Forall (fun item => (snd item <= snd (max_item best items))%Z) (best :: items).
Proof.
  induction items as [|item items IH]; intros best.
  - constructor; [simpl; lia|constructor].
  - specialize (IH (if (snd best <? snd item)%Z then item else best)).
    simpl. destruct (snd best <? snd item)%Z eqn:E.
    + apply Z.ltb_lt in E. inversion IH as [|x l Hx Hl]; subst.
      constructor; [lia|]. constructor; [exact Hx|exact Hl].
    + apply Z.ltb_ge in E. inversion IH as [|x l Hx Hl]; subst.
      constructor; [exact Hx|]. constructor; [lia|exact Hl].
Qed.

(** What a hotspot says about the cluster it was built from. *)
Definition describes (cluster : Cluster) (h : Hotspot) : Prop :=
  h_center h = center cluster /\
  h_incident_count h = incident_count cluster /\
  h_radius_km h = HOTSPOT_RADIUS config /\
  Zsum (map snd (incident_breakdown h)) = Z.of_nat (length (points cluster)) /\
  (0 <= recent_incidents h <= Z.of_nat (length (points cluster)))%Z /\
  exists n, In (most_common_type h, n) (incident_breakdown h) /\
            Forall (fun item => (snd item <= n)%Z) (incident_breakdown h).

Lemma hotspot_of_describes (now : datetime) (cluster : Cluster) (h : Hotspot) :
  hotspot_of now cluster = Ok h -> describes cluster h.
Proof.
  unfold hotspot_of. intros H.
  apply bind_Ok in H. destruct H as [final_score [_ H]].
  apply bind_Ok in H. destruct H as [most_common [Hmost H]].
  apply bind_Ok in H. destruct H as [recent [Hrecent H]].
  inversion H; subst; clear H. unfold describes. simpl.
  split; [reflexivity|]. split; [reflexivity|]. split; [reflexivity|].
  split; [apply breakdown_total|].
  split; [exact (count_recent_bounds _ _ _ Hrecent)|].
  destruct (breakdown_of (points cluster)) as [|item items]; [discriminate|].
  inversion Hmost; subst. exists (snd (max_item item items)). split.
  - rewrite <- surjective_pairing. apply max_item_in.
  - apply max_item_max.
Qed.

Lemma hotspots_of_describe (now : datetime) (clusters : list Cluster) :
  forall ranked, hotspots_of now clusters = Ok ranked ->
    Forall (fun h => exists c, In c clusters /\ describes c h) ranked.
Proof.
  induction clusters as [|c cs IH]; intros ranked H; simpl in H.
  - inversion H; subst. constructor.
  - apply bind_Ok in H. destruct H as [h [Hh H]].
    apply bind_Ok in H. destruct H as [hs [Hhs H]].
    inversion H; subst. constructor.
    + exists c. split; [left; reflexivity|apply hotspot_of_describes with now; exact Hh].
    + eapply List.Forall_impl; [|apply IH; exact Hhs].
      intros h' [c' [Hin Hd]]. exists c'. split; [right; exact Hin|exact Hd].
Qed.

Lemma identify_hotspots_from_clusters (now : datetime) (incidents : list Incident)
  (panic_alerts : list PanicAlert) (h : Hotspot) :
  In h (_identify_hotspots now incidents panic_alerts) ->
  exists ranked,
    hotspots_of now (_cluster_points (all_points_of now incidents panic_alerts)
                                     (HOTSPOT_RADIUS config)) = Ok ranked /\
    In h ranked.
Proof.
  unfold _identify_hotspots.
  destruct (Z.of_nat (length (all_points_of now incidents panic_alerts))
            <? MIN_INCIDENTS_FOR_HOTSPOT config)%Z; [intros []|].
  unfold _rank_hotspots.
  destruct (hotspots_of now _) as [ranked|e]; simpl; [|intros []].
  intros Hin. exists ranked. split; [reflexivity|].
  apply firstn_incl in Hin. exact (Permutation_in _ (sort_ranked_perm ranked) Hin).
Qed.

(** X11. Every hotspot that is returned stands for a cluster with at
    least the configured minimum of incidents; the counts of its
    breakdown by subtype add up to its incident count; its number of
    recent incidents is between 0 and that count; and its most common
    type is a subtype of the breakdown that no other subtype outnumbers.
    With fewer points than the minimum nothing is returned. *)
Theorem hotspots_describe_large_clusters :
  forall (now : datetime) (incidents : list Incident) (panic_alerts : list PanicAlert),
    let hotspots := _identify_hotspots now incidents panic_alerts in
    Forall (fun h =>
              (MIN_INCIDENTS_FOR_HOTSPOT config <= h_incident_count h)%Z /\
              Zsum (map snd (incident_breakdown h)) = h_incident_count h /\
              (0 <= recent_incidents h <= h_incident_count h)%Z /\
              exists n, In (most_common_type h, n) (incident_breakdown h) /\
                        Forall (fun item => (snd item <= n)%Z) (incident_breakdown h))
           hotspots /\
    ((Z.of_nat (length (all_points_of now incidents panic_alerts))
      < MIN_INCIDENTS_FOR_HOTSPOT config)%Z -> hotspots = []).
Proof.
  intros now incidents panic_alerts hotspots. split.
  - apply List.Forall_forall. intros h Hh.
    destruct (identify_hotspots_from_clusters _ _ _ _ Hh) as [ranked [Hranked Hin]].
    pose proof (hotspots_of_describe _ _ _ Hranked) as Hall.
    rewrite List.Forall_forall in Hall. destruct (Hall h Hin) as [c [Hc Hd]].
    destruct (cluster_points_gathered _ _ _ Hc) as [[seed [nearby [_ [_ Hcount]]]] Hmin].
    destruct Hd as [_ [Hic [_ [Hsum [Hrecent Hmost]]]]].
    rewrite Hic, Hcount. repeat split; try lia; try exact Hmost.
  - intros Hfew. subst hotspots. unfold _identify_hotspots.
    apply Z.ltb_lt in Hfew. rewrite Hfew. reflexivity.
Qed.

Lemma time_weights_of_fails (now : datetime) (pts : list Point) (p : Point) (e : exn) :
  In p pts -> time_weight now p = Err e -> exists e', time_weights_of now pts = Err e'.
Proof.
  induction pts as [|q pts IH]; intros Hin Hp; [contradiction|].
  simpl. destruct (time_weight now q) as [w|e0] eqn:E; [|exists e0; reflexivity].
  destruct Hin as [Heq|Hin]; [subst q; congruence|].
  destruct (IH Hin Hp) as [e' He']. rewrite He'. exists e'. reflexivity.
Qed.

Lemma hotspots_of_fails (now : datetime) (clusters : list Cluster) (c : Cluster) (e : exn) :
  In c clusters -> hotspot_of now c = Err e -> exists e', hotspots_of now clusters = Err e'.
Proof.
  induction clusters as [|d clusters IH]; intros Hin Hc; [contradiction|].
  simpl. destruct (hotspot_of now d) as [h|e0] eqn:E; [|exists e0; reflexivity].
  destruct Hin as [Heq|Hin]; [subst d; congruence|].
  destruct (IH Hin Hc) as [e' He']. rewrite He'. exists e'. reflexivity.
Qed.

(** ** Every retained cluster is ranked *)










(** X12. One member of one retained cluster whose timestamp cannot be
    read or cannot be subtracted from the naive [utcnow()] (a
    timezone-aware one, for instance) makes the ranking raise, and
    [_identify_hotspots] then returns no hotspot at all. *)
Theorem one_bad_timestamp_empties_hotspots :
  forall (now : datetime) (incidents : list Incident) (panic_alerts : list PanicAlert)
         (c : Cluster) (p : Point) (e : exn),
    In c (_cluster_points (all_points_of now incidents panic_alerts)
                          (HOTSPOT_RADIUS config)) ->
    In p (points c) ->
    time_weight now p = Err e ->
    _identify_hotspots now incidents panic_alerts = [].
Proof.
  intros now incidents panic_alerts c p e Hc Hp He.
  unfold _identify_hotspots.
  destruct (Z.of_nat (length (all_points_of now incidents panic_alerts))
            <? MIN_INCIDENTS_FOR_HOTSPOT config)%Z; [reflexivity|].
  destruct (time_weights_of_fails now (points c) p e Hp He) as [e1 He1].
  assert (Hhot : hotspot_of now c = Err e1).
  { unfold hotspot_of, final_score_of. rewrite He1. reflexivity. }
  destruct (hotspots_of_fails now _ c e1 Hc Hhot) as [e2 He2].
  unfold _rank_hotspots. rewrite He2. reflexivity.
Qed.

(** ** The trend direction as a function of the number of events *)

Lemma trend_direction_ratio (events sorted : list Event) (total_days : Z) :
  sorted_by_timestamp events = Ok sorted ->
  (4 <= length events)%nat -> (7 <= total_days)%Z ->
  let first := inject_Z (Z.of_nat (length events / 2)) in
  let second := inject_Z (Z.of_nat (length events - length events / 2)) in
  0 < first /\
  _calculate_trend_direction events total_days =
    Ok (if Qltb 1.2 (second / first) then "increasing"%string
        else if Qltb (second / first) 0.8 then "decreasing"%string
        else "stable"%string).
Proof.
  intros Hs Hlen Hdays first second.
  assert (Hhalf : (2 <= length events / 2)%nat).
  { pose proof (Nat.div_mod_eq (length events) 2).
    pose proof (Nat.mod_upper_bound (length events) 2). lia. }
  assert (Hfirst : 0 < first).
  { unfold first. change 0 with (inject_Z 0). rewrite <- Zlt_Qlt. lia. }
  split; [exact Hfirst|].
  unfold _calculate_trend_direction.
  apply Nat.ltb_ge in Hlen. apply Z.ltb_ge in Hdays. rewrite Hlen, Hdays.
  cbn [orb]. rewrite Hs. cbn [bind]. cbv zeta.
  apply sorted_by_timestamp_length in Hs. apply Z.ltb_ge in Hdays.
  set (d := inject_Z total_days / 2).
  assert (Hd : 0 < d).
  { unfold d. apply Qlt_shift_div_l; [lra|]. rewrite Qmult_0_l.
    change 0 with (inject_Z 0). rewrite <- Zlt_Qlt. lia. }
  assert (Hmid_le : (length sorted / 2 <= length sorted)%nat).
  { pose proof (Nat.div_mod_eq (length sorted) 2). lia. }
  assert (Ha : Qlen (firstn (length sorted / 2) sorted) = first).
  { unfold Qlen, first. rewrite firstn_length_le by exact Hmid_le. rewrite Hs. reflexivity. }
  assert (Hb : Qlen (skipn (length sorted / 2) sorted) = second).
  { unfold Qlen, second. rewrite length_skipn. rewrite Hs. reflexivity. }
  rewrite Ha, Hb.
  assert (Hpos : Qltb 0 (first / d) = true).
  { apply Qltb_lt. apply Qlt_shift_div_l; [exact Hd|]. lra. }
  rewrite Hpos.
  assert (Hratio : second / d / (first / d) == second / first).
  { field. split; intros Hz; lra. }
  rewrite (Qltb_comp _ _ _ _ (Qeq_refl 1.2) Hratio).
  rewrite (Qltb_comp _ _ _ _ Hratio (Qeq_refl 0.8)).
  destruct (Qltb 1.2 (second / first)); [reflexivity|].
  destruct (Qltb (second / first) 0.8); reflexivity.
Qed.

(** X13. Once there are at least 4 events over at least 7 days and
    their timestamps can be compared, the trend direction of any number
    of events other than 11 is fixed by that number, wherever the
    timestamps lie and however long the window: [stable] for an even
    number, [increasing] for 5, 7 or 9 events, [stable] for an odd number
    from 13 on. Eleven events are left out: their halves of 5 and 6 are in
    the ratio 1.2, the threshold itself, where the rounding of the
    divisions decides. *)
Theorem trend_direction_by_count :
  forall (events sorted : list Event) (total_days : Z),
    sorted_by_timestamp events = Ok sorted ->
    (4 <= length events)%nat -> (7 <= total_days)%Z ->
    (Nat.even (length events) = true ->
     _calculate_trend_direction events total_days = Ok "stable"%string) /\
    (Nat.odd (length events) = true -> (length events <= 9)%nat ->
     _calculate_trend_direction events total_days = Ok "increasing"%string) /\
    (Nat.odd (length events) = true -> (13 <= length events)%nat ->
     _calculate_trend_direction events total_days = Ok "stable"%string).
Proof.
  intros events sorted total_days Hs Hlen Hdays.
  destruct (trend_direction_ratio events sorted total_days Hs Hlen Hdays) as [Hfirst Hdir].
  cbv zeta in Hfirst, Hdir. rewrite Hdir. clear Hdir.
  set (n := length events) in *.
  pose proof (Nat.div_mod_eq n 2) as Hdiv.
  set (a := inject_Z (Z.of_nat (n / 2))) in *.
  set (b := inject_Z (Z.of_nat (n - n / 2))).
  assert (Hcases : forall lo hi : bool,
             Qltb 1.2 (b / a) = lo -> Qltb (b / a) 0.8 = hi ->
             (if Qltb 1.2 (b / a) then "increasing"%string
              else if Qltb (b / a) 0.8 then "decreasing"%string else "stable"%string)
             = (if lo then "increasing"%string
                else if hi then "decreasing"%string else "stable"%string)).
  { intros lo hi H1 H2. rewrite H1, H2. reflexivity. }
  split; [|split].
  - intros Heven. apply Nat.even_spec in Heven. destruct Heven as [k Hk].
    assert (Hba : b = a).
    { unfold a, b. f_equal. f_equal. rewrite Hk, Nat.mul_comm, Nat.div_mul by lia. lia. }
    rewrite (Hcases false false); [reflexivity| |].
    + apply Qltb_ge. rewrite Hba. apply Qle_shift_div_r; [exact Hfirst|]. lra.
    + apply Qltb_ge. rewrite Hba. apply Qle_shift_div_l; [exact Hfirst|]. lra.
  - intros Hodd Hsmall. apply Nat.odd_spec in Hodd. destruct Hodd as [k Hk].
    assert (Hhalf : (n / 2 = k)%nat).
    { rewrite Hk. rewrite Nat.add_comm, Nat.mul_comm, Nat.div_add by lia. reflexivity. }
    assert (Hb : b == a + 1).
    { unfold a, b. rewrite Hhalf. replace (n - k)%nat with (k + 1)%nat by lia.
      rewrite Nat2Z.inj_add, inject_Z_plus. reflexivity. }
    assert (Ha : a <= 4).
    { unfold a. rewrite Hhalf. change 4 with (inject_Z 4). rewrite <- Zle_Qle. lia. }
    rewrite (Hcases true false); [reflexivity| |].
    + apply Qltb_lt. apply Qlt_shift_div_l; [exact Hfirst|]. rewrite Hb. lra.
    + apply Qltb_ge. apply Qle_shift_div_l; [exact Hfirst|]. rewrite Hb. lra.
  - intros Hodd Hlarge. apply Nat.odd_spec in Hodd. destruct Hodd as [k Hk].
    assert (Hhalf : (n / 2 = k)%nat).
    { rewrite Hk. rewrite Nat.add_comm, Nat.mul_comm, Nat.div_add by lia. reflexivity. }
    assert (Hb : b == a + 1).
    { unfold a, b. rewrite Hhalf. replace (n - k)%nat with (k + 1)%nat by lia.
      rewrite Nat2Z.inj_add, inject_Z_plus. reflexivity. }
    assert (Ha : 6 <= a).
    { unfold a. rewrite Hhalf. change 6 with (inject_Z 6). rewrite <- Zle_Qle. lia. }
    rewrite (Hcases false false); [reflexivity| |].
    + apply Qltb_ge. apply Qle_shift_div_r; [exact Hfirst|]. rewrite Hb. lra.
    + apply Qltb_ge. apply Qle_shift_div_l; [exact Hfirst|]. rewrite Hb. lra.
Qed.

(** ** [_analyze_trends] *)

(** [dt.weekday()], Monday 0 to Sunday 6, for a wall clock counted from
    1970-01-01 00:00:00, a Thursday. *)
Definition weekday (dt : datetime) : Z := ((wall_us dt / us_per_day) + 3) mod 7.

(** [d[key] += 1] on a [defaultdict(int)] with keys compared by [eqb],
    items in insertion order. *)
Fixpoint bump_by {K : Type} (eqb : K -> K -> bool) (key : K) (d : list (K * Z))
  : list (K * Z) :=
  match d with
  | [] => [(key, 1%Z)]
  | (k, n) :: d' =>
      if eqb k key then (k, (n + 1)%Z) :: d' else (k, n) :: bump_by eqb key d'
  end.

(** One distribution of the loop over [all_events]. *)
Definition distribution_of {K : Type} (eqb : K -> K -> bool) (key_of : Event -> K)
  (events : list Event) : list (K * Z) :=
  fold_left (fun d event => bump_by eqb (key_of event) d) events [].

(** [max(d.items(), key=lambda x: x[1])] from its first item on. *)
Fixpoint max_entry {K : Type} (best : K * Z) (items : list (K * Z)) : K * Z :=
  match items with
  | [] => best
  | item :: rest => max_entry (if (snd best <? snd item)%Z then item else best) rest
  end.

Definition day_names : list string :=
  ["Monday"; "Tuesday"; "Wednesday"; "Thursday"; "Friday"; "Saturday"; "Sunday"]%string.

(** [day_names[k]] for a weekday number. *)
Definition day_name (k : Z) : result string :=
  if (k <? 0)%Z then Err (IndexError "list index out of range")
  else match nth_error day_names (Z.to_nat k) with
       | Some name => Ok name
       | None => Err (IndexError "list index out of range")
       end.

Fixpoint named_days (daily : list (Z * Z)) : result (list (string * Z)) :=
  match daily with
  | [] => Ok []
  | (k, v) :: rest =>
      let? name := day_name k in
      let? named := named_days rest in
      Ok ((name, v) :: named)
  end.

(** The dict [_analyze_trends] returns when nothing raises. The weekly
    distribution is computed by the source and not returned. *)
Record Trends : Type := {
  total_incidents : Z;
  total_panic_alerts : Z;
  daily_average : Q;
  peak_hour : Z;
  peak_day : string;
  hourly_distribution : list (Z * Z);
  daily_distribution : list (string * Z);
  type_distribution : list (string * Z);
  trend_direction : string
}.

Fixpoint incident_events (start_date : datetime) (incidents : list Incident)
  : result (list Event) :=
  match incidents with
  | [] => Ok []
  | incident :: rest =>
      let? ts := stamp_datetime (get (i_createdAt incident) (StampDatetime start_date)) in
      let? events := incident_events start_date rest in
      Ok ({| e_timestamp := ts;
             e_type := get (i_type incident) "unknown"%string;
             e_severity := get (i_severity incident) "medium"%string |} :: events)
  end.

Fixpoint alert_events (start_date : datetime) (panic_alerts : list PanicAlert)
  : result (list Event) :=
  match panic_alerts with
  | [] => Ok []
  | alert :: rest =>
      let? ts := stamp_datetime (get (a_timestamp alert) (StampDatetime start_date)) in
      let? events := alert_events start_date rest in
      Ok ({| e_timestamp := ts; e_type := "panic_alert"; e_severity := "high" |} :: events)
  end.

(** The [try] block of [_analyze_trends]. *)
Definition analyze_trends_try (incidents : list Incident) (panic_alerts : list PanicAlert)
  (start_date end_date : datetime) : result Trends :=
  let? from_incidents := incident_events start_date incidents in
  let? from_alerts := alert_events start_date panic_alerts in
  let all_events := from_incidents ++ from_alerts in
  let hourly := distribution_of Z.eqb (fun event => hour (e_timestamp event)) all_events in
  let daily := distribution_of Z.eqb (fun event => weekday (e_timestamp event)) all_events in
  let types := distribution_of String.eqb e_type all_events in
  let? td := dt_sub end_date start_date in
  let total_days := days td in
  let average := Qlen all_events / inject_Z (Z.max 1 total_days) in
  let hour_peak :=
    match hourly with
    | [] => 12%Z
    | item :: items => fst (max_entry item items)
    end in
  let day_peak :=
    match daily with
    | [] => 0%Z
    | item :: items => fst (max_entry item items)
    end in
  let? day_peak_name := day_name day_peak in
  let? daily_named := named_days daily in
  let? direction := _calculate_trend_direction all_events total_days in
  Ok {| total_incidents := Z.of_nat (length incidents);
        total_panic_alerts := Z.of_nat (length panic_alerts);
        daily_average := round2 average;
        peak_hour := hour_peak;
        peak_day := day_peak_name;
        hourly_distribution := hourly;
        daily_distribution := daily_named;
        type_distribution := types;
        trend_direction := direction |}.

(** [None] stands for the empty dict of the handler. *)
Definition _analyze_trends (incidents : list Incident) (panic_alerts : list PanicAlert)
  (start_date end_date : datetime) : option Trends :=
  match analyze_trends_try incidents panic_alerts start_date end_date with
  | Ok trends => Some trends
  | Err _ => None
  end.

Lemma bump_by_total {K : Type} (eqb : K -> K -> bool) (key : K) (d : list (K * Z)) :
  Zsum (map snd (bump_by eqb key d)) = (Zsum (map snd d) + 1)%Z.
Proof.
  induction d as [|[k n] d IH]; simpl; [reflexivity|].
  destruct (eqb k key); simpl; [lia|]. rewrite IH. lia.
Qed.

Lemma distribution_total {K : Type} (eqb : K -> K -> bool) (key_of : Event -> K)
  (events : list Event) :
  Zsum (map snd (distribution_of eqb key_of events)) = Z.of_nat (length events).
Proof.
  unfold distribution_of.
  assert (H : forall d,
             Zsum (map snd (fold_left (fun d event => bump_by eqb (key_of event) d) events d))
             = (Zsum (map snd d) + Z.of_nat (length events))%Z).
  { induction events as [|e events IH]; intros d; simpl fold_left; [simpl; lia|].
    rewrite IH, bump_by_total. simpl length. lia. }
  rewrite H. simpl. lia.
Qed.

Lemma bump_by_keys {K : Type} (eqb : K -> K -> bool) (P : K -> Prop) (key : K)
  (d : list (K * Z)) :
  P key -> Forall (fun item => P (fst item)) d ->
  Forall (fun item => P (fst item)) (bump_by eqb key d).
Proof.
  intros Hkey. induction d as [|[k n] d IH]; intros Hall; simpl.
  - constructor; [exact Hkey|constructor].
  - inversion Hall as [|x l Hk Hd]; subst.
    destruct (eqb k key); constructor; try exact Hk; [exact Hd|apply IH; exact Hd].
Qed.

Lemma distribution_keys {K : Type} (eqb : K -> K -> bool) (key_of : Event -> K)
  (P : K -> Prop) (events : list Event) :
  (forall event, P (key_of event)) ->
  Forall (fun item => P (fst item)) (distribution_of eqb key_of events).
Proof.
  intros Hkeys. unfold distribution_of.
  assert (H : forall d, Forall (fun item => P (fst item)) d ->
             Forall (fun item => P (fst item))
                    (fold_left (fun d event => bump_by eqb (key_of event) d) events d)).
  { induction events as [|e events IH]; intros d Hd; simpl; [exact Hd|].
    apply IH. apply bump_by_keys; [apply Hkeys|exact Hd]. }
  apply H. constructor.
Qed.

Lemma max_entry_in {K : Type} (items : list (K * Z)) :
  forall best, In (max_entry best items) (best :: items).
Proof.
  induction items as [|item items IH]; intros best; simpl; [left; reflexivity|].
  specialize (IH (if (snd best <? snd item)%Z then item else best)).
  destruct (snd best <? snd item)%Z; simpl in IH; tauto.
Qed.

Lemma max_entry_max {K : Type} (items : list (K * Z)) :
  forall best,
    Forall (fun item => (snd item <= snd (max_entry best items))%Z) (best :: items).
Proof.
  induction items as [|item items IH]; intros best.
  - constructor; [simpl; lia|constructor].
  - specialize (IH (if (snd best <? snd item)%Z then item else best)).
    simpl. destruct (snd best <? snd item)%Z eqn:E.
    + apply Z.ltb_lt in E. inversion IH as [|x l Hx Hl]; subst.
      constructor; [lia|]. constructor; [exact Hx|exact Hl].
    + apply Z.ltb_ge in E. inversion IH as [|x l Hx Hl]; subst.
      constructor; [exact Hx|]. constructor; [lia|exact Hl].
Qed.

Lemma incident_events_length (start_date : datetime) (incidents : list Incident) :
  forall events, incident_events start_date incidents = Ok events ->
    length events = length incidents.
Proof.
  induction incidents as [|i incidents IH]; intros events H; simpl in H.
  - inversion H; subst. reflexivity.
  - apply bind_Ok in H. destruct H as [ts [_ H]].
    apply bind_Ok in H. destruct H as [evs [Hevs H]].
    inversion H; subst. simpl. rewrite (IH _ Hevs). reflexivity.
Qed.

Lemma alert_events_length (start_date : datetime) (panic_alerts : list PanicAlert) :
  forall events, alert_events start_date panic_alerts = Ok events ->
    length events = length panic_alerts.
Proof.
  induction panic_alerts as [|a alerts IH]; intros events H; simpl in H.
  - inversion H; subst. reflexivity.
  - apply bind_Ok in H. destruct H as [ts [_ H]].
    apply bind_Ok in H. destruct H as [evs [Hevs H]].
    inversion H; subst. simpl. rewrite (IH _ Hevs). reflexivity.
Qed.

Lemma named_days_counts (daily : list (Z * Z)) :
  forall named, named_days daily = Ok named -> map snd named = map snd daily.
Proof.
  induction daily as [|[k v] daily IH]; intros named H; simpl in H.
  - inversion H; subst. reflexivity.
  - apply bind_Ok in H. destruct H as [name [_ H]].
    apply bind_Ok in H. destruct H as [rest [Hrest H]].
    inversion H; subst. simpl. rewrite (IH _ Hrest). reflexivity.
Qed.

(** What [analyze_trends_try] computes before it assembles the dict. *)
Lemma analyze_trends_parts (incidents : list Incident) (panic_alerts : list PanicAlert)
  (start_date end_date : datetime) (trends : Trends) :
  _analyze_trends incidents panic_alerts start_date end_date = Some trends ->
  exists all_events td daily,
    length all_events = (length incidents + length panic_alerts)%nat /\
    dt_sub end_date start_date = Ok td /\
    total_incidents trends = Z.of_nat (length incidents) /\
    total_panic_alerts trends = Z.of_nat (length panic_alerts) /\
    hourly_distribution trends
      = distribution_of Z.eqb (fun event => hour (e_timestamp event)) all_events /\
    daily = distribution_of Z.eqb (fun event => weekday (e_timestamp event)) all_events /\
    map snd (daily_distribution trends) = map snd daily /\
    type_distribution trends = distribution_of String.eqb e_type all_events /\
    peak_hour trends
      = match hourly_distribution trends with
        | [] => 12%Z
        | item :: items => fst (max_entry item items)
        end /\
    _calculate_trend_direction all_events (days td) = Ok (trend_direction trends).
Proof.
  unfold _analyze_trends. intros H.
  destruct (analyze_trends_try incidents panic_alerts start_date end_date) as [t|e] eqn:E;
    [|discriminate].
  inversion H; subst t; clear H. unfold analyze_trends_try in E.
  apply bind_Ok in E. destruct E as [ev_i [Hi E]].
  apply bind_Ok in E. destruct E as [ev_a [Ha E]].
  cbv zeta in E.
  apply bind_Ok in E. destruct E as [td [Htd E]].
  apply bind_Ok in E. destruct E as [peak_name [_ E]].
  apply bind_Ok in E. destruct E as [named [Hnamed E]].
  apply bind_Ok in E. destruct E as [direction [Hdir E]].
  inversion E; subst; clear E. cbn [total_incidents total_panic_alerts hourly_distribution
    daily_distribution type_distribution peak_hour trend_direction].
  exists (ev_i ++ ev_a), td,
    (distribution_of Z.eqb (fun event => weekday (e_timestamp event)) (ev_i ++ ev_a)).
  split.
  { rewrite length_app, (incident_events_length _ _ _ Hi), (alert_events_length _ _ _ Ha).
    reflexivity. }
  split; [exact Htd|].
  repeat split; try reflexivity; [exact (named_days_counts _ _ Hnamed)|exact Hdir].
Qed.

(** X14. When [_analyze_trends] returns a summary, its two totals are
    the numbers of incidents and of panic alerts it was given, and each
    of its three distributions (by hour, by weekday, by type) counts every
    event exactly once: the counts of each add up to incidents plus
    alerts. The hours are between 0 and 23. *)
Theorem trends_count_every_event :
  forall (incidents : list Incident) (panic_alerts : list PanicAlert)
         (start_date end_date : datetime) (trends : Trends),
    _analyze_trends incidents panic_alerts start_date end_date = Some trends ->
    let n := Z.of_nat (length incidents + length panic_alerts) in
    total_incidents trends = Z.of_nat (length incidents) /\
    total_panic_alerts trends = Z.of_nat (length panic_alerts) /\
    Zsum (map snd (hourly_distribution trends)) = n /\
    Zsum (map snd (daily_distribution trends)) = n /\
    Zsum (map snd (type_distribution trends)) = n /\
    Forall (fun item => (0 <= fst item < 24)%Z) (hourly_distribution trends).
Proof.
  intros incidents panic_alerts start_date end_date trends H n.
  destruct (analyze_trends_parts _ _ _ _ _ H)
    as [events [td [daily [Hlen [_ [Hti [Hta [Hh [Hd [Hdn [Ht _]]]]]]]]]]].
  subst n. rewrite <- Hlen.
  split; [exact Hti|]. split; [exact Hta|].
  split; [rewrite Hh; apply distribution_total|].
  split; [rewrite Hdn, Hd; apply distribution_total|].
  split; [rewrite Ht; apply distribution_total|].
  rewrite Hh. apply (distribution_keys Z.eqb _ (fun h => (0 <= h < 24)%Z)).
  intros event. unfold hour. apply Z.mod_pos_bound. lia.
Qed.

(** X15. The peak hour of a summary is 12 when there is no event;
    otherwise it is an hour of the hourly distribution, between 0 and 23,
    that no other hour outnumbers. The trend direction of a summary is one
    of [insufficient_data], [increasing] and [stable]. *)
Theorem trends_peak_hour_is_busiest :
  forall (incidents : list Incident) (panic_alerts : list PanicAlert)
         (start_date end_date : datetime) (trends : Trends),
    _analyze_trends incidents panic_alerts start_date end_date = Some trends ->
    (hourly_distribution trends = [] -> peak_hour trends = 12%Z) /\
    (hourly_distribution trends <> [] ->
     (0 <= peak_hour trends < 24)%Z /\
     exists n, In (peak_hour trends, n) (hourly_distribution trends) /\
               Forall (fun item => (snd item <= n)%Z) (hourly_distribution trends)) /\
    (trend_direction trends = "insufficient_data"%string \/
     trend_direction trends = "increasing"%string \/
     trend_direction trends = "stable"%string).
Proof.
  intros incidents panic_alerts start_date end_date trends H.
  destruct (analyze_trends_parts _ _ _ _ _ H)
    as [events [td [daily [_ [_ [_ [_ [Hh [_ [_ [_ [Hpeak Hdir]]]]]]]]]]]].
  assert (Hrange : Forall (fun item => (0 <= fst item < 24)%Z) (hourly_distribution trends)).
  { rewrite Hh. apply (distribution_keys Z.eqb _ (fun h => (0 <= h < 24)%Z)).
    intros event. unfold hour. apply Z.mod_pos_bound. lia. }
  split; [intros Hnil; rewrite Hpeak, Hnil; reflexivity|]. split.
  - intros Hne. destruct (hourly_distribution trends) as [|item items] eqn:E;
      [congruence|].
    pose proof (max_entry_in items item) as Hin.
    pose proof (max_entry_max items item) as Hmax.
    rewrite Hpeak. split.
    + rewrite List.Forall_forall in Hrange. apply (Hrange (max_entry item items) Hin).
    + exists (snd (max_entry item items)). split; [|exact Hmax].
      rewrite <- surjective_pairing. exact Hin.
  - pose proof (trend_direction_never_decreasing events (days td)) as Hnever.
    rewrite Hdir in Hnever.
    unfold _calculate_trend_direction in Hdir.
    destruct ((length events <? 4)%nat || (days td <? 7)%Z);
      [inversion Hdir; left; reflexivity|].
    apply bind_Ok in Hdir. destruct Hdir as [sorted [_ Hdir]]. cbv zeta in Hdir.
    destruct (Qltb 1.2 _); [inversion Hdir; right; left; reflexivity|].
    destruct (Qltb _ 0.8); inversion Hdir as [Hd]; [|right; right; reflexivity].
    rewrite <- Hd in Hnever. congruence.
Qed.

(** ** [_generate_insights] *)

Record Insight : Type := {
  in_type : string;
  in_severity : string;
  in_message : string;
  in_recommendation : string
}.

Definition hotspot_insight (top_hotspot : Hotspot) : Insight :=
  {| in_type := "hotspot"; in_severity := "high";
     in_message := ("Critical hotspot identified with "
                    +:+ pretty (h_incident_count top_hotspot)
                    +:+ " incidents. Primary incident type: "
                    +:+ most_common_type top_hotspot)%string;
     in_recommendation :=
       "Increase patrol frequency and consider safety infrastructure improvements." |}.

Definition temporal_insight (peak : Z) : Insight :=
  {| in_type := "temporal"; in_severity := "medium";
     in_message := ("Peak incident time is " +:+ pretty peak +:+ ":00 (night hours)")%string;
     in_recommendation := "Enhance night-time security measures and lighting." |}.

Definition trend_insight : Insight :=
  {| in_type := "trend"; in_severity := "high";
     in_message := "Incident trend is increasing over the analyzed period";
     in_recommendation :=
       "Immediate intervention and additional safety measures required." |}.

Definition pattern_insight (most_common : string * Z) (total : Z) : Insight :=
  {| in_type := "incident_pattern"; in_severity := "medium";
     in_message := (fst most_common +:+ " incidents are predominant ("
                    +:+ pretty (snd most_common) +:+ " out of " +:+ pretty total
                    +:+ ")")%string;
     in_recommendation := ("Implement targeted prevention strategies for "
                           +:+ fst most_common +:+ " incidents.")%string |}.

Definition safety_insight (total : Z) : Insight :=
  {| in_type := "safety"; in_severity := "high";
     in_message := ("High incident density detected (" +:+ pretty total
                    +:+ " incidents in analyzed period)")%string;
     in_recommendation :=
       "Consider this area as high-risk and advise increased caution for travelers." |}.

(** The rules are tried in the order of the source; [trends] is [None]
    for the empty dict. The [max] over an empty type distribution raises,
    and the handler then returns the empty list, dropping what had been
    appended. *)
Definition _generate_insights (incidents : list Incident) (panic_alerts : list PanicAlert)
  (hotspots : list Hotspot) (trends : option Trends) : list Insight :=
  let attempt : result (list Insight) :=
    let total := Z.of_nat (length incidents + length panic_alerts) in
    let after_hotspot :=
      match hotspots with
      | [] => []
      | top_hotspot :: _ => [hotspot_insight top_hotspot]
      end in
    let after_trend :=
      match trends with
      | Some t =>
          if (0 <? total)%Z
          then after_hotspot
               ++ (if (22 <=? peak_hour t)%Z || (peak_hour t <=? 5)%Z
                   then [temporal_insight (peak_hour t)] else [])
               ++ (if String.eqb (trend_direction t) "increasing"
                   then [trend_insight] else [])
          else after_hotspot
      | None => after_hotspot
      end in
    let? after_type :=
      match trends with
      | Some t =>
          match type_distribution t with
          | [] => Err (ValueError "max() arg is an empty sequence")
          | item :: items =>
              let most_common := max_item item items in
              if Qle_bool (inject_Z total * 0.4) (inject_Z (snd most_common))
              then Ok (after_trend ++ [pattern_insight most_common total])
              else Ok after_trend
          end
      | None => Ok after_trend
      end in
    Ok (if (20 <? total)%Z then after_type ++ [safety_insight total] else after_type) in
  match attempt with
  | Ok insights => insights
  | Err _ => []
  end.

Definition rule_order : list string :=
  ["hotspot"; "temporal"; "trend"; "incident_pattern"; "safety"]%string.

(** X16. The insights come in the order of the rules: their types
    form a sub-list of hotspot, temporal, trend, incident_pattern,
    safety, each at most once, so there are at most five. *)
Theorem insights_follow_rule_order :
  forall (incidents : list Incident) (panic_alerts : list PanicAlert)
         (hotspots : list Hotspot) (trends : option Trends),
    let insights := _generate_insights incidents panic_alerts hotspots trends in
    sublist (map in_type insights) rule_order /\ (length insights <= 5)%nat.
Proof.
  intros incidents panic_alerts hotspots trends insights.
  assert (H : sublist (map in_type insights) rule_order).
  { subst insights. unfold _generate_insights, rule_order. cbv zeta.
    destruct hotspots as [|top rest]; destruct trends as [t|];
      try destruct (type_distribution t) as [|item items];
      repeat match goal with
             | |- context [if ?b then _ else _] => destruct b
             end;
      cbn [bind app map in_type hotspot_insight temporal_insight trend_insight
           pattern_insight safety_insight];
      repeat first [apply sublist_nil | apply sublist_skip | apply sublist_cons]. }
  split; [exact H|].
  apply sublist_length in H. rewrite length_map in H. exact H.
Qed.

(** X17. Without a trend summary only the hotspot rule and the safety
    rule can speak: the insights are the hotspot insight when there is a
    hotspot, then the safety insight when incidents and alerts together
    exceed 20. With a summary whose type distribution is empty no insight
    is returned at all, not even the hotspot one. *)
Theorem insights_without_trends :
  forall (incidents : list Incident) (panic_alerts : list PanicAlert)
         (hotspots : list Hotspot),
    let total := Z.of_nat (length incidents + length panic_alerts) in
    _generate_insights incidents panic_alerts hotspots None
      = match hotspots with [] => [] | top :: _ => [hotspot_insight top] end
        ++ (if (20 <? total)%Z then [safety_insight total] else []) /\
    (forall t, type_distribution t = [] ->
       _generate_insights incidents panic_alerts hotspots (Some t) = []).
Proof.
  intros incidents panic_alerts hotspots total. split.
  - unfold _generate_insights. cbv zeta. fold total. cbn [bind].
    destruct (20 <? total)%Z; [reflexivity|rewrite app_nil_r; reflexivity].
  - intros t Ht. unfold _generate_insights. cbv zeta. rewrite Ht. reflexivity.
Qed.

(** ** [_identify_risk_zones] *)

(** [np.cos(np.radians(x))] *)
Variable cos_radians : Q -> Q.

(** [np.arange(start, stop, step)]: [ceil((stop - start) / step)] values
    [start + i * step]. *)
Definition arange (start stop step : Q) : list Q :=
  map (fun i => start + inject_Z (Z.of_nat i) * step)
      (seq 0 (Z.to_nat (Qceiling ((stop - start) / step)))).

(** The ['center'] dict of a request. *)
Record AreaCenter : Type := {
  ac_lat : option Q;
  ac_lng : option Q
}.

Record Bounds : Type := {
  north : Q;
  south : Q;
  east : Q;
  west : Q
}.

Record RiskZone : Type := {
  z_center : Center;
  z_bounds : Bounds;
  z_risk_score : Z;
  z_incident_count : Z;
  z_alert_count : Z;
  z_risk_level : string
}.

Definition grid_size : Q := 0.005.

(** The test on the coordinates [(lng, lat)] of a document against the
    cell centred at [(grid_lat, grid_lng)]. *)
Definition in_cell (grid_lat grid_lng : Q) (location : option (option (Q * Q))) : bool :=
  match location with
  | Some (Some coords) =>
      Qle_bool (Qabs (snd coords - grid_lat)) (grid_size / 2)
      && Qle_bool (Qabs (fst coords - grid_lng)) (grid_size / 2)
  | _ => false
  end.

(** The body of the two nested loops: the zone of one cell, when its
    weighted count reaches 3. *)
Definition zone_of_cell (incidents : list Incident) (panic_alerts : list PanicAlert)
  (grid_lat grid_lng : Q) : list RiskZone :=
  let incidents_in_cell :=
    Z.of_nat (length (List.filter (fun incident => in_cell grid_lat grid_lng
                                                     (i_location incident)) incidents)) in
  let alerts_in_cell :=
    Z.of_nat (length (List.filter (fun alert => in_cell grid_lat grid_lng
                                                  (a_location alert)) panic_alerts)) in
  let cell_risk := (incidents_in_cell * 2 + alerts_in_cell * 3)%Z in
  if (3 <=? cell_risk)%Z
  then [{| z_center := {| center_lat := grid_lat; center_lng := grid_lng |};
           z_bounds := {| north := grid_lat + grid_size / 2;
                          south := grid_lat - grid_size / 2;
                          east := grid_lng + grid_size / 2;
                          west := grid_lng - grid_size / 2 |};
           z_risk_score := cell_risk;
           z_incident_count := incidents_in_cell;
           z_alert_count := alerts_in_cell;
           z_risk_level := _get_risk_level (inject_Z (cell_risk * 10)) |}]
  else [].

(** [risk_zones.sort(key=lambda x: x['risk_score'], reverse=True)],
    stable. *)
Fixpoint insert_zone (z : RiskZone) (sorted : list RiskZone) : list RiskZone :=
  match sorted with
  | [] => [z]
  | x :: rest =>
      if (z_risk_score z <? z_risk_score x)%Z then x :: insert_zone z rest
      else z :: x :: rest
  end.

Fixpoint sort_zones (zones : list RiskZone) : list RiskZone :=
  match zones with
  | [] => []
  | z :: rest => insert_zone z (sort_zones rest)
  end.

(** The zones in the order the loops append them. *)
Definition grid_zones (incidents : list Incident) (panic_alerts : list PanicAlert)
  (center_lat center_lng radius_km : Q) : list RiskZone :=
  let lat_range := radius_km / 111.0 in
  let lng_range := radius_km / (111.0 * cos_radians center_lat) in
  flat_map (fun lat_offset =>
              flat_map (fun lng_offset =>
                          zone_of_cell incidents panic_alerts
                                       (center_lat + lat_offset) (center_lng + lng_offset))
                       (arange (- lng_range) lng_range grid_size))
           (arange (- lat_range) lat_range grid_size).

Definition _identify_risk_zones (incidents : list Incident) (panic_alerts : list PanicAlert)
  (center : AreaCenter) (radius_km : Q) : list RiskZone :=
  let attempt : result (list RiskZone) :=
    let? center_lat := getitem "lat" (ac_lat center) in
    let? center_lng := getitem "lng" (ac_lng center) in
    Ok (firstn 20 (sort_zones
                     (grid_zones incidents panic_alerts center_lat center_lng radius_km))) in
  match attempt with
  | Ok zones => zones
  | Err _ => []
  end.

(** What holds of a zone whatever its cell. *)
Definition weighted_cell (incidents : list Incident) (panic_alerts : list PanicAlert)
  (z : RiskZone) : Prop :=
  z_risk_score z = (z_incident_count z * 2 + z_alert_count z * 3)%Z /\
  (3 <= z_risk_score z)%Z /\
  (0 <= z_incident_count z <= Z.of_nat (length incidents))%Z /\
  (0 <= z_alert_count z <= Z.of_nat (length panic_alerts))%Z /\
  north (z_bounds z) = center_lat (z_center z) + grid_size / 2 /\
  south (z_bounds z) = center_lat (z_center z) - grid_size / 2 /\
  east (z_bounds z) = center_lng (z_center z) + grid_size / 2 /\
  west (z_bounds z) = center_lng (z_center z) - grid_size / 2 /\
  ((z_risk_score z = 3%Z /\ z_risk_level z = "high"%string) \/
   (4 <= z_risk_score z /\ z_risk_level z = "critical"%string)%Z).

Lemma risk_level_of_cell (cell_risk : Z) :
  (3 <= cell_risk)%Z ->
  (cell_risk = 3%Z /\ _get_risk_level (inject_Z (cell_risk * 10)) = "high"%string) \/
  ((4 <= cell_risk)%Z /\ _get_risk_level (inject_Z (cell_risk * 10)) = "critical"%string).
Proof.
  intros H. destruct (Z.eq_dec cell_risk 3%Z) as [E|E].
  - left. subst. split; reflexivity.
  - right. split; [lia|]. unfold _get_risk_level.
    assert (Hge : forall t : Z, (t <= cell_risk * 10)%Z ->
                    Qltb (inject_Z (cell_risk * 10)) (inject_Z t) = false).
    { intros t Ht. apply Qltb_ge. rewrite <- Zle_Qle. exact Ht. }
    change 10 with (inject_Z 10). change 20 with (inject_Z 20). change 35 with (inject_Z 35).
    rewrite !Hge by lia. reflexivity.
Qed.

Lemma zone_of_cell_weighted (incidents : list Incident) (panic_alerts : list PanicAlert)
  (grid_lat grid_lng : Q) (z : RiskZone) :
  In z (zone_of_cell incidents panic_alerts grid_lat grid_lng) ->
  weighted_cell incidents panic_alerts z.
Proof.
  unfold zone_of_cell. cbv zeta.
  set (inc := Z.of_nat (length (List.filter _ incidents))).
  set (al := Z.of_nat (length (List.filter _ panic_alerts))).
  assert (Hinc : (0 <= inc <= Z.of_nat (length incidents))%Z).
  { subst inc. pose proof (filter_length_le
      (fun incident => in_cell grid_lat grid_lng (i_location incident)) incidents). lia. }
  assert (Hal : (0 <= al <= Z.of_nat (length panic_alerts))%Z).
  { subst al. pose proof (filter_length_le
      (fun alert => in_cell grid_lat grid_lng (a_location alert)) panic_alerts). lia. }
  destruct (3 <=? inc * 2 + al * 3)%Z eqn:E; [|intros []].
  apply Z.leb_le in E. intros [Hz|[]]. subst z. unfold weighted_cell. simpl.
  repeat split; try lia; try reflexivity.
  exact (risk_level_of_cell _ E).
Qed.

Lemma grid_zones_weighted (incidents : list Incident) (panic_alerts : list PanicAlert)
  (center_lat center_lng radius_km : Q) (z : RiskZone) :
  In z (grid_zones incidents panic_alerts center_lat center_lng radius_km) ->
  weighted_cell incidents panic_alerts z.
Proof.
  unfold grid_zones. cbv zeta. intros H.
  apply in_flat_map in H. destruct H as [lat_offset [_ H]].
  apply in_flat_map in H. destruct H as [lng_offset [_ H]].
  exact (zone_of_cell_weighted _ _ _ _ _ H).
Qed.

Definition zone_not_below (a b : RiskZone) : Prop := (z_risk_score b <= z_risk_score a)%Z.

Lemma insert_zone_perm (z : RiskZone) (sorted : list RiskZone) :
  Permutation (insert_zone z sorted) (z :: sorted).
Proof.
  induction sorted as [|x rest IH]; simpl; [reflexivity|].
  destruct (z_risk_score z <? z_risk_score x)%Z; [|reflexivity].
  rewrite IH. apply perm_swap.
Qed.

Lemma insert_zone_sorted (z : RiskZone) (sorted : list RiskZone) :
  Sorted zone_not_below sorted -> Sorted zone_not_below (insert_zone z sorted).
Proof.
  induction sorted as [|x rest IH]; intros Hs; simpl.
  - constructor; constructor.
  - destruct (z_risk_score z <? z_risk_score x)%Z eqn:E.
    + apply Sorted_inv in Hs. destruct Hs as [Hrest Hhd].
      constructor; [apply IH; exact Hrest|].
      apply Z.ltb_lt in E.
      destruct rest as [|y rest']; simpl.
      * constructor. unfold zone_not_below. lia.
      * destruct (z_risk_score z <? z_risk_score y)%Z.
        -- constructor. inversion Hhd; subst. assumption.
        -- constructor. unfold zone_not_below. lia.
    + constructor; [exact Hs|]. constructor. unfold zone_not_below.
      apply Z.ltb_ge in E. exact E.
Qed.

Lemma sort_zones_perm (zones : list RiskZone) : Permutation (sort_zones zones) zones.
Proof.
  induction zones as [|z rest IH]; simpl; [constructor|].
  rewrite insert_zone_perm. constructor. exact IH.
Qed.

Lemma sort_zones_sorted (zones : list RiskZone) : Sorted zone_not_below (sort_zones zones).
Proof.
  induction zones as [|z rest IH]; simpl; [constructor|].
  apply insert_zone_sorted. exact IH.
Qed.

(** X18. [_identify_risk_zones] returns at most 20 zones in descending
    order of score. The score of every zone is twice its incident count
    plus three times its alert count and is at least 3, its counts do not
    exceed the numbers of incidents and alerts given, its bounds lie half
    a grid step around its centre, and its level is [high] when the score
    is 3 and [critical] otherwise, never [low] or [moderate]. *)
Theorem risk_zones_are_ranked_cells :
  forall (incidents : list Incident) (panic_alerts : list PanicAlert)
         (center : AreaCenter) (radius_km : Q),
    let zones := _identify_risk_zones incidents panic_alerts center radius_km in
    (length zones <= 20)%nat /\
    Sorted zone_not_below zones /\
    Forall (weighted_cell incidents panic_alerts) zones.
Proof.
  intros incidents panic_alerts center radius_km zones. subst zones.
  unfold _identify_risk_zones.
  destruct (ac_lat center) as [center_lat|]; cbn [getitem bind];
    [|repeat split; [simpl; lia|constructor|constructor]].
  destruct (ac_lng center) as [center_lng|]; cbn [getitem bind];
    [|repeat split; [simpl; lia|constructor|constructor]].
  split; [apply List.firstn_le_length|].
  split; [apply firstn_sorted; apply sort_zones_sorted|].
  apply List.Forall_forall. intros z Hz.
  apply firstn_incl in Hz. apply (Permutation_in _ (sort_zones_perm _)) in Hz.
  exact (grid_zones_weighted _ _ _ _ _ _ Hz).
Qed.

(** ** [analyze_patterns] *)

(** What the analyzer asks of [db_client]: the incidents around
    [(center_lat, center_lng)] within [radius_km] between [start_date]
    and [end_date], of the given types if any, and the panic alerts
    likewise. Each call may raise. *)
Record Gateway : Type := {
  get_incidents_in_area :
    Q -> Q -> Q -> datetime -> datetime -> option (list string) -> result (list Incident);
  get_panic_alerts_in_area :
    Q -> Q -> Q -> datetime -> datetime -> result (list PanicAlert)
}.

Variable db_client : Gateway.

(** The ['area'] dict of a request. *)
Record Area : Type := {
  area_center : option AreaCenter;
  area_radius_km : option Q
}.

(** The ['time_range'] dict; a present bound carries what
    [datetime.fromisoformat] makes of it. *)
Record TimeRange : Type := {
  tr_start : option (result datetime);
  tr_end : option (result datetime)
}.

Record Analysis : Type := {
  an_hotspots : list Hotspot;
  an_trends : option Trends;
  an_risk_zones : list RiskZone;
  an_insights : list Insight
}.

(** The dict of the handler. *)
Definition empty_analysis : Analysis :=
  {| an_hotspots := []; an_trends := None; an_risk_zones := []; an_insights := [] |}.

(** The [try] block of [analyze_patterns]; [now] is the [utcnow()] of
    [_identify_hotspots]. *)
Definition analyze_patterns_try (now : datetime) (area : Area) (time_range : TimeRange)
  (incident_types : option (list string)) : result Analysis :=
  let? center := getitem "center" (area_center area) in
  let? radius := getitem "radius_km" (area_radius_km area) in
  let? start_parsed := getitem "start" (tr_start time_range) in
  let? start_date := start_parsed in
  let? end_parsed := getitem "end" (tr_end time_range) in
  let? end_date := end_parsed in
  let? center_lat := getitem "lat" (ac_lat center) in
  let? center_lng := getitem "lng" (ac_lng center) in
  let? incidents :=
    get_incidents_in_area db_client center_lat center_lng radius start_date end_date
                          incident_types in
  let? center_lat := getitem "lat" (ac_lat center) in
  let? center_lng := getitem "lng" (ac_lng center) in
  let? panic_alerts :=
    get_panic_alerts_in_area db_client center_lat center_lng radius start_date end_date in
  let hotspots := _identify_hotspots now incidents panic_alerts in
  let trends := _analyze_trends incidents panic_alerts start_date end_date in
  let risk_zones := _identify_risk_zones incidents panic_alerts center radius in
  let insights := _generate_insights incidents panic_alerts hotspots trends in
  Ok {| an_hotspots := hotspots;
        an_trends := trends;
        an_risk_zones := risk_zones;
        an_insights := insights |}.

Definition analyze_patterns (now : datetime) (area : Area) (time_range : TimeRange)
  (incident_types : option (list string)) : Analysis :=
  match analyze_patterns_try now area time_range incident_types with
  | Ok analysis => analysis
  | Err _ => empty_analysis
  end.

(** A request all of whose keys are present and whose dates parse. *)
Definition readable (area : Area) (time_range : TimeRange)
  (center_lat center_lng radius : Q) (start_date end_date : datetime) : Prop :=
  (exists center, area_center area = Some center /\
                  ac_lat center = Some center_lat /\ ac_lng center = Some center_lng) /\
  area_radius_km area = Some radius /\
  tr_start time_range = Some (Ok start_date) /\
  tr_end time_range = Some (Ok end_date).

Lemma analyze_patterns_readable (now : datetime) (area : Area) (time_range : TimeRange)
  (incident_types : option (list string)) (center_lat center_lng radius : Q)
  (start_date end_date : datetime) (incidents : list Incident)
  (panic_alerts : list PanicAlert) :
  readable area time_range center_lat center_lng radius start_date end_date ->
  get_incidents_in_area db_client center_lat center_lng radius start_date end_date
                        incident_types = Ok incidents ->
  get_panic_alerts_in_area db_client center_lat center_lng radius start_date end_date
    = Ok panic_alerts ->
  exists center,
    area_center area = Some center /\
    analyze_patterns now area time_range incident_types
    = let hotspots := _identify_hotspots now incidents panic_alerts in
      let trends := _analyze_trends incidents panic_alerts start_date end_date in
      {| an_hotspots := hotspots;
         an_trends := trends;
         an_risk_zones := _identify_risk_zones incidents panic_alerts center radius;
         an_insights := _generate_insights incidents panic_alerts hotspots trends |}.
Proof.
  intros [[center [Hc [Hlat Hlng]]] [Hr [Hs He]]] Hi Ha.
  exists center. split; [exact Hc|].
  unfold analyze_patterns, analyze_patterns_try.
  rewrite Hc, Hr, Hs, He. cbn [getitem bind].
  rewrite Hlat, Hlng. cbn [getitem bind].
  rewrite Hi. cbn [bind]. rewrite Ha. cbn [bind]. reflexivity.
Qed.

Lemma flat_map_nothing {A B : Type} (l : list A) :
  flat_map (fun _ : A => @nil B) l = [].
Proof.
  induction l as [|a l IH]; simpl; [reflexivity|exact IH].
Qed.

Lemma risk_zones_of_nothing (center : AreaCenter) (radius_km : Q) :
  _identify_risk_zones [] [] center radius_km = [].
Proof.
  unfold _identify_risk_zones.
  destruct (ac_lat center) as [center_lat|]; cbn [getitem bind]; [|reflexivity].
  destruct (ac_lng center) as [center_lng|]; cbn [getitem bind]; [|reflexivity].
  unfold grid_zones. cbv zeta.
  assert (Hrow : forall lat_offset : Q,
            flat_map (fun lng_offset =>
                        zone_of_cell [] [] (center_lat + lat_offset) (center_lng + lng_offset))
                     (arange (- (radius_km / (111.0 * cos_radians center_lat)))
                             (radius_km / (111.0 * cos_radians center_lat)) grid_size) = []).
  { intros lat_offset. apply flat_map_nothing. }
  rewrite (flat_map_ext _ _ Hrow). rewrite flat_map_nothing. reflexivity.
Qed.

(** X19. [analyze_patterns] returns either the all-empty analysis of
    its handler or, when the area and the time range are readable and the
    two queries succeed, the four analyses of one and the same pair of
    incident and alert lists, the insights being drawn from the hotspots
    and the trends it returns. A missing key, a date that does not parse
    or a query that raises gives the all-empty analysis. *)
Theorem analysis_is_all_or_nothing :
  forall (now : datetime) (area : Area) (time_range : TimeRange)
         (incident_types : option (list string)),
    let analysis := analyze_patterns now area time_range incident_types in
    (analysis = empty_analysis \/
     exists center_lat center_lng radius start_date end_date incidents panic_alerts center,
       readable area time_range center_lat center_lng radius start_date end_date /\
       area_center area = Some center /\
       get_incidents_in_area db_client center_lat center_lng radius start_date end_date
                             incident_types = Ok incidents /\
       get_panic_alerts_in_area db_client center_lat center_lng radius start_date end_date
         = Ok panic_alerts /\
       an_hotspots analysis = _identify_hotspots now incidents panic_alerts /\
       an_trends analysis = _analyze_trends incidents panic_alerts start_date end_date /\
       an_risk_zones analysis = _identify_risk_zones incidents panic_alerts center radius /\
       an_insights analysis
         = _generate_insights incidents panic_alerts (an_hotspots analysis)
                              (an_trends analysis)) /\
    (area_center area = None \/ area_radius_km area = None \/
     tr_start time_range = None \/ tr_end time_range = None \/
     (exists e, tr_start time_range = Some (Err e)) \/
     (exists e, tr_end time_range = Some (Err e)) ->
     analysis = empty_analysis).
Proof.
  intros now area time_range incident_types analysis. subst analysis. split.
  - unfold analyze_patterns, analyze_patterns_try.
    destruct (area_center area) as [center|] eqn:Hc; cbn [getitem bind]; [|left; reflexivity].
    destruct (area_radius_km area) as [radius|] eqn:Hr; cbn [getitem bind];
      [|left; reflexivity].
    destruct (tr_start time_range) as [[start_date|e]|] eqn:Hs; cbn [getitem bind];
      [|left; reflexivity|left; reflexivity].
    destruct (tr_end time_range) as [[end_date|e]|] eqn:He; cbn [getitem bind];
      [|left; reflexivity|left; reflexivity].
    destruct (ac_lat center) as [center_lat|] eqn:Hlat; cbn [getitem bind];
      [|left; reflexivity].
    destruct (ac_lng center) as [center_lng|] eqn:Hlng; cbn [getitem bind];
      [|left; reflexivity].
    destruct (get_incidents_in_area db_client center_lat center_lng radius start_date
                end_date incident_types) as [incidents|e] eqn:Hi; cbn [bind];
      [|left; reflexivity].
    destruct (get_panic_alerts_in_area db_client center_lat center_lng radius start_date
                end_date) as [panic_alerts|e] eqn:Ha; cbn [bind];
      [|left; reflexivity].
    right. exists center_lat, center_lng, radius, start_date, end_date, incidents,
             panic_alerts, center.
    split.
    { split; [exists center; auto|]. auto. }
    cbn [an_hotspots an_trends an_risk_zones an_insights]. auto 10.
  - unfold analyze_patterns, analyze_patterns_try.
    intros [H|[H|[H|[H|[[e H]|[e H]]]]]].
    + rewrite H. reflexivity.
    + rewrite H. destruct (area_center area); reflexivity.
    + rewrite H. destruct (area_center area); cbn [getitem bind]; [|reflexivity].
      destruct (area_radius_km area); reflexivity.
    + rewrite H. destruct (area_center area); cbn [getitem bind]; [|reflexivity].
      destruct (area_radius_km area); cbn [getitem bind]; [|reflexivity].
      destruct (tr_start time_range) as [[start_date|e]|]; reflexivity.
    + rewrite H. destruct (area_center area); cbn [getitem bind]; [|reflexivity].
      destruct (area_radius_km area); reflexivity.
    + rewrite H. destruct (area_center area); cbn [getitem bind]; [|reflexivity].
      destruct (area_radius_km area); cbn [getitem bind]; [|reflexivity].
      destruct (tr_start time_range) as [[start_date|e']|]; reflexivity.
Qed.

(** X20. A readable request over an area in which the store holds
    nothing yields no hotspot, no risk zone and no insight. Its trend
    summary is not the empty one of a failure: when the two dates can be
    subtracted it reports zero incidents and alerts, a daily average of 0,
    peak hour 12, peak day Monday and [insufficient_data]; when one date
    carries an offset and the other does not, there is no summary. *)
Theorem empty_area_analysis :
  forall (now : datetime) (area : Area) (time_range : TimeRange)
         (incident_types : option (list string)) (center_lat center_lng radius : Q)
         (start_date end_date : datetime),
    readable area time_range center_lat center_lng radius start_date end_date ->
    get_incidents_in_area db_client center_lat center_lng radius start_date end_date
                          incident_types = Ok [] ->
    get_panic_alerts_in_area db_client center_lat center_lng radius start_date end_date
      = Ok [] ->
    let analysis := analyze_patterns now area time_range incident_types in
    an_hotspots analysis = [] /\
    an_risk_zones analysis = [] /\
    an_insights analysis = [] /\
    match dt_sub end_date start_date with
    | Ok _ =>
        exists t,
          an_trends analysis = Some t /\
          total_incidents t = 0%Z /\ total_panic_alerts t = 0%Z /\
          daily_average t == 0 /\
          peak_hour t = 12%Z /\ peak_day t = "Monday"%string /\
          hourly_distribution t = [] /\ daily_distribution t = [] /\
          type_distribution t = [] /\
          trend_direction t = "insufficient_data"%string
    | Err _ => an_trends analysis = None
    end.
Proof.
  intros now area time_range incident_types center_lat center_lng radius start_date end_date
         Hread Hi Ha analysis. subst analysis.
  destruct (analyze_patterns_readable now area time_range incident_types center_lat
              center_lng radius start_date end_date [] [] Hread Hi Ha) as [center [_ ->]].
  cbv zeta. cbn [an_hotspots an_trends an_risk_zones an_insights].
  assert (Hhot : _identify_hotspots now [] [] = []).
  { unfold _identify_hotspots. cbv zeta. unfold all_points_of. simpl.
    destruct (_ <? MIN_INCIDENTS_FOR_HOTSPOT config)%Z; [reflexivity|].
    unfold _cluster_points. simp cluster_loop. reflexivity. }
  assert (Htrends : _analyze_trends [] [] start_date end_date
                    = match dt_sub end_date start_date with
                      | Ok td =>
                          Some {| total_incidents := 0; total_panic_alerts := 0;
                                  daily_average :=
                                    round2 (Qlen (@nil Event)
                                            / inject_Z (Z.max 1 (days td)));
                                  peak_hour := 12; peak_day := "Monday";
                                  hourly_distribution := []; daily_distribution := [];
                                  type_distribution := [];
                                  trend_direction := "insufficient_data" |}
                      | Err _ => None
                      end).
  { unfold _analyze_trends, analyze_trends_try. cbn [incident_events alert_events bind app].
    destruct (dt_sub end_date start_date) as [td|e]; cbn [bind]; reflexivity. }
  split; [exact Hhot|].
  split; [apply risk_zones_of_nothing|].
  split.
  - rewrite Hhot, Htrends.
    destruct (dt_sub end_date start_date); reflexivity.
  - rewrite Htrends. destruct (dt_sub end_date start_date) as [td|e]; [|reflexivity].
    eexists. split; [reflexivity|]. cbn [total_incidents total_panic_alerts daily_average
      peak_hour peak_day hourly_distribution daily_distribution type_distribution
      trend_direction].
    repeat split.
Qed.

End Engine.

(** ** Concrete runs *)

(** 2024-01-01 12:00:00, naive, as [utcnow()] and the store give it. *)
Definition at_noon : datetime := naive AnomalyDetector.noon.

Definition incident_at (lat lng : Q) (kind sev : string) (ts : datetime) : Incident :=
  {| i_location := Some (Some (lng, lat));
     i_type := Some kind;
     i_severity := Some sev;
     i_createdAt := Some (StampDatetime ts) |}.

(** Five medical incidents of medium severity at one place, reported
    now. *)
Definition five_medical : list Incident :=
  repeat (incident_at 28.6 77.2 "medical" "medium" at_noon) 5.

(** The same five and a sixth some 11 km to the north. *)
Definition five_and_one_apart : list Incident :=
  five_medical ++ [incident_at 28.7 77.2 "medical" "medium" at_noon].

(** The sixth point forms a cluster of one, below the minimum of 5, and
    is in no returned cluster: the returned clusters hold 5 of the 6
    input points. Four visits of one place are fewer than 5 locations,
    and [_get_frequent_locations] returns no cluster at all. *)
Lemma returned_clusters_miss_points :
  let pts := all_points_of at_noon five_and_one_apart [] in
  let kept := _cluster_points default_config AnomalyDetector.taxicab_km pts
                (HOTSPOT_RADIUS default_config) in
  length pts = 6%nat /\
  length kept = 1%nat /\
  length (members kept) = 5%nat /\
  ~ Permutation (members kept) pts /\
  AnomalyDetector._get_frequent_locations AnomalyDetector.taxicab_km
    (repeat (28.6, 77.2) 4) 100 = [].
Proof.
  cbv zeta.
  assert (Hkept : length (members (_cluster_points default_config AnomalyDetector.taxicab_km
                    (all_points_of at_noon five_and_one_apart [])
                    (HOTSPOT_RADIUS default_config))) = 5%nat) by (vm_compute; reflexivity).
  split; [vm_compute; reflexivity|].
  split; [vm_compute; reflexivity|].
  split; [exact Hkept|].
  split; [|vm_compute; reflexivity].
  intros Hperm. apply Permutation_length in Hperm. rewrite Hkept in Hperm.
  vm_compute in Hperm. discriminate.
Qed.




Definition event_on_day (day : Z) : Event :=
  {| e_timestamp := naive (AnomalyDetector.noon + day * us_per_day);
     e_type := "crime"; e_severity := "medium" |}.

(** Ten events in a window of ten days that starts on day 0: three in
    the first five days, seven in the last five. *)
Definition three_then_seven : list Event :=
  map event_on_day [1; 2; 3; 5; 6; 6; 7; 8; 8; 9]%Z.

(** The trend of the specification: the events of the first half of the
    time range against those of the second half. *)
Definition spec_trend_direction (start_date : datetime) (events : list Event)
  (total_days : Z) : string :=
  if (length events <? 4)%nat || (total_days <? 7)%Z then "insufficient_data"%string
  else
    let middle := (2 * wall_us start_date + total_days * us_per_day)%Z in
    let first_half :=
      List.filter (fun e => (2 * wall_us (e_timestamp e) <? middle)%Z) events in
    let second_half :=
      List.filter (fun e => negb (2 * wall_us (e_timestamp e) <? middle)%Z) events in
    let first_half_rate := Qlen first_half / (inject_Z total_days / 2) in
    let second_half_rate := Qlen second_half / (inject_Z total_days / 2) in
    let change_ratio :=
      if Qltb 0 first_half_rate then second_half_rate / first_half_rate else 1 in
    if Qltb 1.2 change_ratio then "increasing"%string
    else if Qltb change_ratio 0.8 then "decreasing"%string
    else "stable"%string.

(** C3 at the scenario of the specification. Three events fall in the
    first half of the ten days and seven in the second, which is a ratio
    of 7/3 and [increasing]; the code cuts the sorted list at its fifth
    event, compares 5 events with 5, and answers [stable]. *)
Theorem trend_direction_three_then_seven :
  length (List.filter (fun e => (wall_us (e_timestamp e)
                                 <? AnomalyDetector.noon + 5 * us_per_day)%Z)
                      three_then_seven) = 3%nat /\
  length three_then_seven = 10%nat /\
  spec_trend_direction (naive AnomalyDetector.noon) three_then_seven 10 = "increasing"%string /\
  _calculate_trend_direction three_then_seven 10 = Ok "stable"%string.
Proof.
  repeat split; vm_compute; reflexivity.
Qed.

(** Five incidents at one place whose timestamps carry a UTC offset,
    ranked against the naive [utcnow()]: the subtraction raises and no
    hotspot is returned, though the five form a cluster. *)
Definition five_aware : list Incident :=
  repeat (incident_at 28.6 77.2 "medical" "medium" (utc AnomalyDetector.noon)) 5.

Definition aware_point : Point :=
  {| lat := 28.6; lng := 77.2; type := "incident"; subtype := "medical";
     severity := "medium"; timestamp := StampDatetime (utc AnomalyDetector.noon) |}.

Definition aware_clusters : list Cluster :=
  Eval vm_compute in
    _cluster_points default_config AnomalyDetector.taxicab_km
      (all_points_of at_noon five_aware []) (HOTSPOT_RADIUS default_config).

Lemma one_bad_timestamp_empties_hotspots_witness :
  length aware_clusters = 1%nat /\
  Forall (fun c => In aware_point (points c)) aware_clusters /\
  time_weight at_noon aware_point
    = Err (TypeError "can't subtract offset-naive and offset-aware datetimes") /\
  _identify_hotspots default_config AnomalyDetector.taxicab_km at_noon five_aware [] = [].
Proof.
  split; [reflexivity|].
  split; [constructor; [left; reflexivity|constructor]|].
  split; [reflexivity|].
  refine (one_bad_timestamp_empties_hotspots default_config AnomalyDetector.taxicab_km
            at_noon five_aware [] (hd {| center := {| center_lat := 0; center_lng := 0 |}; points := [];
                    incident_count := 0 |} aware_clusters) aware_point
            _ _ _ _).
  - vm_compute. left. reflexivity.
  - left. reflexivity.
  - reflexivity.
Defined.

(** Five events, one a day: the list is cut into 2 and 3, and the
    answer is [increasing] wherever the events lie. *)
Definition one_a_day : list Event := map event_on_day [1; 2; 3; 4; 5]%Z.

Lemma trend_direction_by_count_witness :
  sorted_by_timestamp one_a_day = Ok one_a_day /\
  _calculate_trend_direction one_a_day 10 = Ok "increasing"%string /\
  _calculate_trend_direction (rev one_a_day) 10 = Ok "increasing"%string.
Proof.
  split; [reflexivity|].
  split.
  - apply (trend_direction_by_count one_a_day one_a_day 10);
      [reflexivity | simpl; lia | lia | reflexivity | simpl; lia].
  - apply (trend_direction_by_count (rev one_a_day) one_a_day 10);
      [reflexivity | simpl; lia | lia | reflexivity | simpl; lia].
Defined.

(** Five incidents at noon of Monday 2024-01-01 and one panic alert at
    15:00 of the next day, in the week that starts that Monday. *)
Definition tuesday_alert : PanicAlert :=
  {| a_location := Some (Some (77.2, 28.6));
     a_timestamp := Some (StampDatetime (naive (AnomalyDetector.noon + us_per_day
                                                + 3 * us_per_hour))) |}.

Definition week_end : datetime := naive (AnomalyDetector.noon + 7 * us_per_day).

Lemma trends_count_every_event_witness :
  match _analyze_trends five_medical [tuesday_alert] at_noon week_end with
  | Some trends =>
      total_incidents trends = 5%Z /\
      total_panic_alerts trends = 1%Z /\
      Zsum (map snd (hourly_distribution trends)) = 6%Z /\
      Zsum (map snd (daily_distribution trends)) = 6%Z /\
      Zsum (map snd (type_distribution trends)) = 6%Z /\
      Forall (fun item => (0 <= fst item < 24)%Z) (hourly_distribution trends)
  | None => False
  end.
Proof.
  destruct (_analyze_trends five_medical [tuesday_alert] at_noon week_end) as [trends|] eqn:E;
    [|vm_compute in E; discriminate E].
  exact (trends_count_every_event five_medical [tuesday_alert] at_noon week_end trends E).
Defined.

Lemma trends_peak_hour_is_busiest_witness :
  match _analyze_trends five_medical [tuesday_alert] at_noon week_end with
  | Some trends =>
      hourly_distribution trends = [(12, 5); (15, 1)]%Z /\
      peak_hour trends = 12%Z /\
      trend_direction trends = "stable"%string /\
      (0 <= peak_hour trends < 24)%Z /\
      exists n, In (peak_hour trends, n) (hourly_distribution trends) /\
                Forall (fun item => (snd item <= n)%Z) (hourly_distribution trends)
  | None => False
  end.
Proof.
  destruct (_analyze_trends five_medical [tuesday_alert] at_noon week_end) as [trends|] eqn:E;
    [|vm_compute in E; discriminate E].
  pose proof (trends_peak_hour_is_busiest five_medical [tuesday_alert] at_noon week_end
                trends E) as [_ [Hpeak _]].
  assert (Hhours : hourly_distribution trends = [(12, 5); (15, 1)]%Z)
    by (vm_compute in E; injection E as E; subst trends; reflexivity).
  assert (Hfilled : hourly_distribution trends <> []) by (rewrite Hhours; discriminate).
  split; [exact Hhours|].
  split; [vm_compute in E; injection E as E; subst trends; reflexivity|].
  split; [vm_compute in E; injection E as E; subst trends; reflexivity|].
  exact (Hpeak Hfilled).
Defined.

(** A store that holds nothing, and a readable request for the week
    from Monday 2024-01-01 around one centre. *)
Definition empty_store : Gateway :=
  {| get_incidents_in_area := fun _ _ _ _ _ _ => Ok [];
     get_panic_alerts_in_area := fun _ _ _ _ _ => Ok [] |}.

Definition one_centre : AreaCenter := {| ac_lat := Some 28.6; ac_lng := Some 77.2 |}.

Definition five_km_around : Area :=
  {| area_center := Some one_centre; area_radius_km := Some 5 |}.

Definition first_week : TimeRange :=
  {| tr_start := Some (Ok at_noon); tr_end := Some (Ok week_end) |}.

Lemma empty_area_analysis_witness :
  let analysis :=
    analyze_patterns default_config AnomalyDetector.taxicab_km (fun _ => 1) empty_store
                     at_noon five_km_around first_week None in
  readable five_km_around first_week 28.6 77.2 5 at_noon week_end /\
  an_hotspots analysis = [] /\
  an_risk_zones analysis = [] /\
  an_insights analysis = [] /\
  exists t,
    an_trends analysis = Some t /\
    total_incidents t = 0%Z /\ total_panic_alerts t = 0%Z /\
    daily_average t == 0 /\
    peak_hour t = 12%Z /\ peak_day t = "Monday"%string /\
    hourly_distribution t = [] /\ daily_distribution t = [] /\
    type_distribution t = [] /\
    trend_direction t = "insufficient_data"%string.
Proof.
  assert (Hread : readable five_km_around first_week 28.6 77.2 5 at_noon week_end).
  { split; [exists one_centre; repeat split|repeat split]. }
  split; [exact Hread|].
  exact (empty_area_analysis default_config AnomalyDetector.taxicab_km (fun _ => 1)
           empty_store at_noon five_km_around first_week None 28.6 77.2 5 at_noon week_end
           Hread eq_refl eq_refl).
Defined.

(** The five medical incidents of now: every timestamp can be read, the
    one cluster gets its hotspot, and its score of 20 is all that is
    returned. *)
Example five_medical_all_ranked :
  let clusters :=
    _cluster_points default_config AnomalyDetector.taxicab_km
      (all_points_of at_noon five_medical []) (HOTSPOT_RADIUS default_config) in
  (forall p, In p (all_points_of at_noon five_medical []) -> -90 <= lat p <= 90) /\
  (forall c p, In c clusters -> In p (points c) -> exists w, time_weight at_noon p = Ok w) /\
  length clusters = 1%nat /\
  map risk_score (_identify_hotspots default_config AnomalyDetector.taxicab_km at_noon
                    five_medical [])
  = [round2 20].
Proof.
  cbv zeta. split.
  { intros p Hp. vm_compute in Hp.
    repeat (destruct Hp as [Hp|Hp]; [subst p; split; vm_compute; discriminate|]).
    destruct Hp. }
  split; [|split; vm_compute; reflexivity].
  intros c p Hc Hp. vm_compute in Hc. destruct Hc as [Hc|[]]. subst c.
  cbn [points] in Hp.
  repeat (destruct Hp as [Hp|Hp]; [subst p; eexists; vm_compute; reflexivity|]).
  destruct Hp.
Qed.

End PatternAnalyzer.

(** * [ml_models/risk_predictor.py] *)

Module RiskPredictor.

Import PatternAnalyzer.

(** A route point of the request; a coordinate is [None] when its key
    is missing. *)
Record RoutePoint : Type := {
  p_lat : option Q;
  p_lng : option Q
}.

Record Route : Type := {
  r_start : option RoutePoint;
  r_end : option RoutePoint;
  r_waypoints : option (list RoutePoint)
}.

(** The dict handed to [_store_prediction]. *)
Record Prediction : Type := {
  pr_route : Route;
  pr_time_of_day : string;
  pr_user_id : option string;
  pr_risk_score : Q;
  pr_base_risk : Q;
  pr_time_modifier : Q;
  pr_route_modifier : Q
}.

(** What the predictor asks of [db_client]: the incidents and the panic
    alerts around [(center_lat, center_lng)] within [radius_km] since
    [start_date], and the write of a prediction. Each call may raise. *)
Record Gateway : Type := {
  get_incidents_in_area : Q -> Q -> Q -> datetime -> result (list Incident);
  get_panic_alerts_in_area : Q -> Q -> Q -> datetime -> result (list PanicAlert);
  store_risk_prediction : Prediction -> result unit
}.

Definition incident_weights : list (string * Q) :=
  [("crime", 3.0); ("accident", 2.0); ("medical", 1.5); ("fire", 2.5);
   ("other", 1.0)]%string.

Definition severity_multipliers : list (string * Q) :=
  [("low", 0.5); ("medium", 1.0); ("high", 1.5); ("critical", 2.0)]%string.

Definition time_modifiers : list (string * Q) :=
  [("morning", 0.8); ("afternoon", 0.9); ("evening", 1.1); ("night", 1.3);
   ("late_night", 1.5)]%string.

(** The summand of the loop of [_calculate_point_risk]. *)
Definition incident_risk (incident : Incident) : Q :=
  let incident_type := get (i_type incident) "other"%string in
  let severity := get (i_severity incident) "medium"%string in
  let weight := dict_get incident_weights incident_type 1.0 in
  let severity_multiplier := dict_get severity_multipliers severity 1.0 in
  weight * severity_multiplier.

(** Nothing in the [try] block raises on a list of documents, so its
    handler (20.0) has no counterpart here. *)
Definition _calculate_point_risk (incidents : list Incident)
  (panic_alerts : list PanicAlert) : Q :=
  let incident_score :=
    fold_left (fun incident_score incident => incident_score + incident_risk incident)
              incidents 0 in
  let panic_score := Qlen panic_alerts * 2.0 in
  let total_score := incident_score + panic_score in
  let normalized_score := Qmin 80 ((total_score / 10) * 80) in
  Qmax 5 normalized_score.

Definition _get_time_risk_modifier (time_of_day : string) : Q :=
  dict_get time_modifiers time_of_day 1.0.

Definition _get_risk_level (score : Q) : string :=
  if Qltb score 25 then "low"%string
  else if Qltb score 50 then "moderate"%string
  else if Qltb score 75 then "high"%string
  else "critical"%string.

Section Engine.

Variable config : Config.
Variable db_client : Gateway.
(** [geodesic(a, b).kilometers], for coordinates geopy accepts: it
    raises [ValueError] for a latitude outside [-90, 90], which is not
    modelled. *)
Variable geodesic_km : LatLng -> LatLng -> Q.

(** The risk of one route point: both queries, then the point risk. *)
Definition point_risk_at (now : datetime) (point : RoutePoint) : result Q :=
  let? lat := getitem "lat" (p_lat point) in
  let? lng := getitem "lng" (p_lng point) in
  let? incidents :=
    get_incidents_in_area db_client lat lng (RISK_PREDICTION_RADIUS config)
                          (minus_days now 365) in
  let? panic_alerts :=
    get_panic_alerts_in_area db_client lat lng (RISK_PREDICTION_RADIUS config)
                             (minus_days now 365) in
  Ok (_calculate_point_risk incidents panic_alerts).

(** The [for point in all_points] loop with its two accumulators. *)
Fixpoint historical_loop (now : datetime) (all_points : list RoutePoint)
  (total_risk : Q) (point_count : Z) : result (Q * Z) :=
  match all_points with
  | [] => Ok (total_risk, point_count)
  | point :: rest =>
      let? point_risk := point_risk_at now point in
      historical_loop now rest (total_risk + point_risk) (point_count + 1)%Z
  end.

Definition _calculate_historical_risk (now : datetime) (start_point end_point : RoutePoint)
  (waypoints : list RoutePoint) : Q :=
  let attempt : result Q :=
    let all_points := [start_point] ++ waypoints ++ [end_point] in
    let? totals := historical_loop now all_points 0 0%Z in
    let total_risk := fst totals in
    let point_count := snd totals in
    let avg_risk :=
      if (0 <? point_count)%Z then total_risk / inject_Z point_count else 20 in
    Ok (Qmin 80 avg_risk) in
  match attempt with
  | Ok base_risk => base_risk
  | Err _ => 20.0
  end.

Definition _get_route_characteristics_modifier (route : Route) : Q :=
  let attempt : result Q :=
    let? start := getitem "start" (r_start route) in
    let? end_ := getitem "end" (r_end route) in
    let? start_lat := getitem "lat" (p_lat start) in
    let? start_lng := getitem "lng" (p_lng start) in
    let? end_lat := getitem "lat" (p_lat end_) in
    let? end_lng := getitem "lng" (p_lng end_) in
    let distance := geodesic_km (start_lat, start_lng) (end_lat, end_lng) in
    let distance_modifier := 1.0 + (distance / 100) * 0.1 in
    let waypoint_count := Qlen (get (r_waypoints route) []) in
    let waypoint_modifier := 1.0 + (waypoint_count * 0.05) in
    Ok (Qmin 1.5 (distance_modifier * waypoint_modifier)) in
  match attempt with
  | Ok modifier => modifier
  | Err _ => 1.0
  end.

(** The call of the gateway; what it returns or raises is dropped. *)
Definition _store_prediction (prediction_data : Prediction) : unit :=
  match store_risk_prediction db_client prediction_data with
  | Ok _ => tt
  | Err _ => tt
  end.

(** The [try] block of [predict_route_risk]: the prediction it stores,
    whose [pr_risk_score] is [risk_score] before rounding. *)
Definition predict_route_risk_try (now : datetime) (route : Route) (time_of_day : string)
  (uid : option string) : result Prediction :=
  let? start_point := getitem "start" (r_start route) in
  let? end_point := getitem "end" (r_end route) in
  let waypoints := get (r_waypoints route) [] in
  let base_risk := _calculate_historical_risk now start_point end_point waypoints in
  let time_modifier := _get_time_risk_modifier time_of_day in
  let route_modifier := _get_route_characteristics_modifier route in
  let risk_score := Qmin 100 (base_risk * time_modifier * route_modifier) in
  let prediction :=
    {| pr_route := route; pr_time_of_day := time_of_day; pr_user_id := uid;
       pr_risk_score := risk_score; pr_base_risk := base_risk;
       pr_time_modifier := time_modifier; pr_route_modifier := route_modifier |} in
  let _ := _store_prediction prediction in
  Ok prediction.

Definition predict_route_risk (now : datetime) (route : Route) (time_of_day : string)
  (uid : option string) : Q :=
  match predict_route_risk_try now route time_of_day uid with
  | Ok prediction => round2 (pr_risk_score prediction)
  | Err _ => 30.0
  end.

(** ** Properties of the risk engine *)

Lemma point_risk_formula (incidents : list Incident) (panic_alerts : list PanicAlert) :
  _calculate_point_risk incidents panic_alerts ==
  Qmax 5 (Qmin 80 ((Qsum (map incident_risk incidents) + Qlen panic_alerts * 2) / 10 * 80)).
Proof.
  unfold _calculate_point_risk. cbv zeta.
  apply Q.max_compat; [reflexivity|]. apply Q.min_compat; [reflexivity|].
  rewrite fold_left_Qplus. field.
Qed.

Lemma point_risk_floor (incidents : list Incident) (panic_alerts : list PanicAlert) :
  5 <= _calculate_point_risk incidents panic_alerts.
Proof. unfold _calculate_point_risk. cbv zeta. apply Q.le_max_l. Qed.

(** [risk] is the risk of [point]: the point has both coordinates, the
    two queries around it succeed, and [risk] is the point risk of what
    they return. *)
Definition surveyed (now : datetime) (point : RoutePoint) (risk : Q) : Prop :=
  exists lat lng incidents panic_alerts,
    p_lat point = Some lat /\ p_lng point = Some lng /\
    get_incidents_in_area db_client lat lng (RISK_PREDICTION_RADIUS config)
                          (minus_days now 365) = Ok incidents /\
    get_panic_alerts_in_area db_client lat lng (RISK_PREDICTION_RADIUS config)
                             (minus_days now 365) = Ok panic_alerts /\
    risk = _calculate_point_risk incidents panic_alerts.

Lemma surveyed_point_risk (now : datetime) (point : RoutePoint) (risk : Q) :
  surveyed now point risk -> point_risk_at now point = Ok risk.
Proof.
  intros [lat [lng [incidents [alerts [Hlat [Hlng [Hi [Ha Hr]]]]]]]].
  unfold point_risk_at. rewrite Hlat, Hlng. simpl. rewrite Hi. simpl. rewrite Ha. simpl.
  rewrite Hr. reflexivity.
Qed.

Lemma point_risk_at_floor (now : datetime) (point : RoutePoint) (risk : Q) :
  point_risk_at now point = Ok risk -> 5 <= risk.
Proof.
  unfold point_risk_at. intros H.
  apply bind_Ok in H. destruct H as [lat [_ H]].
  apply bind_Ok in H. destruct H as [lng [_ H]].
  apply bind_Ok in H. destruct H as [incidents [_ H]].
  apply bind_Ok in H. destruct H as [alerts [_ H]].
  inversion H; subst. apply point_risk_floor.
Qed.

Lemma historical_loop_surveyed (now : datetime) :
  forall all_points risks,
    Forall2 (surveyed now) all_points risks ->
    forall total_risk point_count,
    exists total_risk',
      historical_loop now all_points total_risk point_count
        = Ok (total_risk', (point_count + Z.of_nat (length all_points))%Z) /\
      total_risk' == total_risk + Qsum risks.
Proof.
  intros all_points risks Hall.
  induction Hall as [|point risk rest risks' Hpoint Hrest IH]; intros total_risk point_count.
  - exists total_risk. simpl. split; [f_equal; f_equal; lia|lra].
  - simpl historical_loop. rewrite (surveyed_point_risk _ _ _ Hpoint). cbn [bind].
    destruct (IH (total_risk + risk) (point_count + 1)%Z) as [t' [Hloop Ht']].
    exists t'. split.
    + rewrite Hloop. f_equal. f_equal. simpl length. lia.
    + rewrite Ht'. simpl. lra.
Qed.

Lemma historical_loop_nonneg (now : datetime) :
  forall all_points total_risk point_count totals,
    0 <= total_risk -> (0 <= point_count)%Z ->
    historical_loop now all_points total_risk point_count = Ok totals ->
    0 <= fst totals /\ (0 <= snd totals)%Z.
Proof.
  induction all_points as [|point rest IH]; intros total_risk point_count totals Ht Hc H;
    simpl in H.
  - inversion H; subst. simpl. split; assumption.
  - apply bind_Ok in H. destruct H as [risk [Hrisk H]].
    apply point_risk_at_floor in Hrisk.
    assert (Ht' : 0 <= total_risk + risk) by lra.
    assert (Hc' : (0 <= point_count + 1)%Z) by lia.
    exact (IH _ _ _ Ht' Hc' H).
Qed.

Lemma historical_risk_surveyed (now : datetime) (start_point end_point : RoutePoint)
  (waypoints : list RoutePoint) (risks : list Q) :
  Forall2 (surveyed now) ([start_point] ++ waypoints ++ [end_point]) risks ->
  _calculate_historical_risk now start_point end_point waypoints == Qmin 80 (np_mean risks).
Proof.
  intros Hall. unfold _calculate_historical_risk.
  destruct (historical_loop_surveyed now _ _ Hall 0 0%Z) as [t' [Hloop Ht']].
  cbv zeta. rewrite Hloop. cbn [bind fst snd].
  assert (Hlen : length ([start_point] ++ waypoints ++ [end_point]) = length risks)
    by (eapply Forall2_length; exact Hall).
  assert (Hpos : (0 < 0 + Z.of_nat (length ([start_point] ++ waypoints ++ [end_point])))%Z)
    by (simpl length; lia).
  apply Z.ltb_lt in Hpos. rewrite Hpos.
  apply Q.min_compat; [reflexivity|].
  unfold np_mean, Qlen. rewrite Ht', Hlen.
  rewrite Z.add_0_l. rewrite Qplus_0_l. reflexivity.
Qed.

Lemma historical_risk_nonneg (now : datetime) (start_point end_point : RoutePoint)
  (waypoints : list RoutePoint) :
  0 <= _calculate_historical_risk now start_point end_point waypoints.
Proof.
  unfold _calculate_historical_risk. cbv zeta.
  destruct (historical_loop now ([start_point] ++ waypoints ++ [end_point]) 0 0%Z)
    as [totals|e] eqn:E; cbn [bind]; [|lra].
  destruct (historical_loop_nonneg now _ _ _ _ (Qle_refl 0) (Z.le_refl 0) E) as [Ht Hc].
  apply Q.min_glb; [lra|].
  destruct (0 <? snd totals)%Z eqn:Epos; [|lra].
  apply Z.ltb_lt in Epos.
  apply Qle_shift_div_l; [|lra].
  change 0 with (inject_Z 0). rewrite <- Zlt_Qlt. exact Epos.
Qed.

Lemma time_modifier_order :
  _get_time_risk_modifier "morning" <= _get_time_risk_modifier "afternoon" /\
  _get_time_risk_modifier "afternoon" <= _get_time_risk_modifier "evening" /\
  _get_time_risk_modifier "evening" <= _get_time_risk_modifier "night" /\
  _get_time_risk_modifier "night" <= _get_time_risk_modifier "late_night".
Proof. repeat split; vm_compute; discriminate. Qed.

Section Monotone.

Hypothesis geodesic_nonneg : forall a b : LatLng, 0 <= geodesic_km a b.

Lemma route_modifier_nonneg (route : Route) :
  0 <= _get_route_characteristics_modifier route.
Proof.
  unfold _get_route_characteristics_modifier. cbv zeta.
  destruct (r_start route) as [start|]; cbn [getitem bind]; [|lra].
  destruct (r_end route) as [end_|]; cbn [getitem bind]; [|lra].
  destruct (p_lat start) as [slat|]; cbn [getitem bind]; [|lra].
  destruct (p_lng start) as [slng|]; cbn [getitem bind]; [|lra].
  destruct (p_lat end_) as [elat|]; cbn [getitem bind]; [|lra].
  destruct (p_lng end_) as [elng|]; cbn [getitem bind]; [|lra].
  apply Q.min_glb; [lra|].
  pose proof (geodesic_nonneg (slat, slng) (elat, elng)) as Hd.
  assert (Hn : 0 <= Qlen (get (r_waypoints route) [])).
  { unfold Qlen. change 0 with (inject_Z 0). rewrite <- Zle_Qle. lia. }
  apply Qmult_le_0_compat; [|lra].
  assert (Hdiv : geodesic_km (slat, slng) (elat, elng) / 100
                 == geodesic_km (slat, slng) (elat, elng) * (1 # 100)) by reflexivity.
  rewrite Hdiv. lra.
Qed.

(** With everything else fixed, a larger time modifier gives a score
    that is not smaller. *)
Lemma risk_monotone_in_modifier (now : datetime) (route : Route) (uid : option string)
  (tod1 tod2 : string) :
  _get_time_risk_modifier tod1 <= _get_time_risk_modifier tod2 ->
  predict_route_risk now route tod1 uid <= predict_route_risk now route tod2 uid.
Proof.
  intros Hmod. unfold predict_route_risk, predict_route_risk_try.
  destruct (r_start route) as [start_point|]; cbn [getitem bind]; [|lra].
  destruct (r_end route) as [end_point|]; cbn [getitem bind]; [|lra].
  cbv zeta. cbn [pr_risk_score].
  apply round2_mono. apply Q.min_le_compat_l.
  pose proof (historical_risk_nonneg now start_point end_point (get (r_waypoints route) []))
    as Hbase.
  pose proof (route_modifier_nonneg route) as Hroute.
  apply Qmult_le_compat_r; [|exact Hroute].
  rewrite !(Qmult_comm (_calculate_historical_risk _ _ _ _)).
  apply Qmult_le_compat_r; [exact Hmod|exact Hbase].
Qed.

(** C7. For a fixed route, user and store, the returned score does not
    decrease along morning, afternoon, evening, night, late_night, whose
    multipliers are 0.8, 0.9, 1.1, 1.3 and 1.5. *)
Theorem risk_monotone_in_time_of_day :
  forall (now : datetime) (route : Route) (uid : option string),
    let score := fun time_of_day => predict_route_risk now route time_of_day uid in
    (score "morning" <= score "afternoon" /\
     score "afternoon" <= score "evening" /\
     score "evening" <= score "night" /\
     score "night" <= score "late_night")%string /\
    (_get_time_risk_modifier "morning" = 0.8 /\
     _get_time_risk_modifier "afternoon" = 0.9 /\
     _get_time_risk_modifier "evening" = 1.1 /\
     _get_time_risk_modifier "night" = 1.3 /\
     _get_time_risk_modifier "late_night" = 1.5)%string.
Proof.
  intros now route uid score. subst score.
  destruct time_modifier_order as [H1 [H2 [H3 H4]]].
  split; [|repeat split; reflexivity].
  split; [apply risk_monotone_in_modifier; exact H1|].
  split; [apply risk_monotone_in_modifier; exact H2|].
  split; [apply risk_monotone_in_modifier; exact H3|].
  apply risk_monotone_in_modifier; exact H4.
Qed.

End Monotone.

Lemma route_modifier_cap (route : Route) :
  _get_route_characteristics_modifier route <= 1.5.
Proof.
  unfold _get_route_characteristics_modifier. cbv zeta.
  destruct (r_start route) as [start|]; cbn [getitem bind]; [|lra].
  destruct (r_end route) as [end_|]; cbn [getitem bind]; [|lra].
  destruct (p_lat start); cbn [getitem bind]; [|lra].
  destruct (p_lng start); cbn [getitem bind]; [|lra].
  destruct (p_lat end_); cbn [getitem bind]; [|lra].
  destruct (p_lng end_); cbn [getitem bind]; [|lra].
  apply Q.le_min_l.
Qed.

(** C6. A point risk is [max(5, min(80, (incident_score +
    alert_count * 2) / 10 * 80))], where an incident counts for its type
    weight times its severity multiplier (low 0.5, medium 1.0, high 1.5,
    critical 2.0). When the route has a start and an end, every route
    point has its coordinates and both queries succeed at every point,
    the base risk is the mean of the point risks capped at 80, the score
    that is stored is [min(100, base * time_modifier * route_modifier)],
    and the score returned is that value brought to two decimals: one of
    the two hundredths next to it. *)
Theorem route_risk_formula :
  forall (now : datetime) (route : Route) (time_of_day : string) (uid : option string)
         (start_point end_point : RoutePoint) (risks : list Q),
    r_start route = Some start_point ->
    r_end route = Some end_point ->
    Forall2 (surveyed now)
            ([start_point] ++ get (r_waypoints route) [] ++ [end_point]) risks ->
    let base_risk :=
      _calculate_historical_risk now start_point end_point (get (r_waypoints route) []) in
    let final :=
      Qmin 100 (base_risk * _get_time_risk_modifier time_of_day
                * _get_route_characteristics_modifier route) in
    (forall incidents panic_alerts,
        _calculate_point_risk incidents panic_alerts ==
        Qmax 5 (Qmin 80 ((Qsum (map incident_risk incidents)
                          + Qlen panic_alerts * 2) / 10 * 80))) /\
    (forall incident,
        incident_risk incident =
          dict_get incident_weights (get (i_type incident) "other"%string) 1.0
          * dict_get severity_multipliers (get (i_severity incident) "medium"%string) 1.0) /\
    (dict_get severity_multipliers "low" 1.0 = 0.5 /\
     dict_get severity_multipliers "medium" 1.0 = 1.0 /\
     dict_get severity_multipliers "high" 1.0 = 1.5 /\
     dict_get severity_multipliers "critical" 1.0 = 2.0) /\
    base_risk == Qmin 80 (np_mean risks) /\
    (exists prediction,
        predict_route_risk_try now route time_of_day uid = Ok prediction /\
        pr_risk_score prediction = final) /\
    hundredth_of final (predict_route_risk now route time_of_day uid).
Proof.
  intros now route time_of_day uid start_point end_point risks Hstart Hend Hall base_risk final.
  split; [exact point_risk_formula|].
  split; [reflexivity|].
  split; [repeat split; reflexivity|].
  split; [apply historical_risk_surveyed; exact Hall|].
  assert (Htry : exists prediction,
             predict_route_risk_try now route time_of_day uid = Ok prediction /\
             pr_risk_score prediction = final).
  { unfold predict_route_risk_try. rewrite Hstart, Hend. cbn [getitem bind].
    eexists. split; reflexivity. }
  split; [exact Htry|].
  destruct Htry as [prediction [Htry Hscore]].
  unfold predict_route_risk. rewrite Htry, Hscore. apply round2_hundredth.
Qed.

(** C4, as the code has it. A route with no waypoints whose two
    endpoints have no incident and no panic alert in the store has a base
    risk of 5, the floor of the point risk, and not 20; at
    [time_of_day = day] the multiplier is 1.0, and the returned score is
    5 times the route modifier, rounded to two decimals. *)
Theorem quiet_route_risk :
  forall (now : datetime) (uid : option string) (slat slng elat elng : Q),
    let start_point := {| p_lat := Some slat; p_lng := Some slng |} in
    let end_point := {| p_lat := Some elat; p_lng := Some elng |} in
    let route :=
      {| r_start := Some start_point; r_end := Some end_point; r_waypoints := None |} in
    get_incidents_in_area db_client slat slng (RISK_PREDICTION_RADIUS config)
                          (minus_days now 365) = Ok [] ->
    get_panic_alerts_in_area db_client slat slng (RISK_PREDICTION_RADIUS config)
                             (minus_days now 365) = Ok [] ->
    get_incidents_in_area db_client elat elng (RISK_PREDICTION_RADIUS config)
                          (minus_days now 365) = Ok [] ->
    get_panic_alerts_in_area db_client elat elng (RISK_PREDICTION_RADIUS config)
                             (minus_days now 365) = Ok [] ->
    _calculate_historical_risk now start_point end_point [] == 5 /\
    _get_time_risk_modifier "day" = 1.0 /\
    predict_route_risk now route "day" uid
      = round2 (5 * _get_route_characteristics_modifier route) /\
    _get_route_characteristics_modifier route
      = Qmin 1.5 ((1.0 + geodesic_km (slat, slng) (elat, elng) / 100 * 0.1)
                  * (1.0 + 0 * 0.05)).
Proof.
  intros now uid slat slng elat elng start_point end_point route Hsi Hsa Hei Hea.
  assert (Hbase : _calculate_historical_risk now start_point end_point [] == 5).
  { rewrite (historical_risk_surveyed now start_point end_point []
               [_calculate_point_risk [] []; _calculate_point_risk [] []]).
    - reflexivity.
    - constructor; [|constructor; [|constructor]].
      + exists slat, slng, [], []. repeat split; assumption.
      + exists elat, elng, [], []. repeat split; assumption. }
  split; [exact Hbase|]. split; [reflexivity|]. split; [|reflexivity].
  pose proof (route_modifier_cap route) as Hcap.
  unfold predict_route_risk, predict_route_risk_try.
  change (r_start route) with (Some start_point).
  change (r_end route) with (Some end_point).
  change (get (r_waypoints route) []) with (@nil RoutePoint).
  cbn [getitem bind]. cbv zeta. cbn [pr_risk_score].
  apply round2_comp.
  change (_get_time_risk_modifier "day") with 1.0.
  set (base := _calculate_historical_risk now start_point end_point []) in *.
  set (modifier := _get_route_characteristics_modifier route) in *.
  rewrite Q.min_r.
  - rewrite Hbase. lra.
  - rewrite Hbase. lra.
Qed.

(** ** [get_area_risk_summary] *)

Record Summary : Type := {
  s_risk_score : Q;
  s_risk_level : string;
  s_total_incidents : Z;
  s_total_panic_alerts : Z;
  s_incident_breakdown : list (string * Z);
  s_time_period : string
}.

(** The dict of the handler. *)
Definition default_summary : Summary :=
  {| s_risk_score := 25.0; s_risk_level := "moderate";
     s_total_incidents := 0; s_total_panic_alerts := 0;
     s_incident_breakdown := []; s_time_period := "30 days" |}.

Definition get_area_risk_summary (now : datetime) (center_lat center_lng radius_km : Q)
  : Summary :=
  let attempt : result Summary :=
    let? incidents :=
      get_incidents_in_area db_client center_lat center_lng radius_km (minus_days now 30) in
    let? panic_alerts :=
      get_panic_alerts_in_area db_client center_lat center_lng radius_km
                               (minus_days now 30) in
    let area_risk := _calculate_point_risk incidents panic_alerts in
    let incident_breakdown :=
      fold_left (fun incident_breakdown incident =>
                   bump (get (i_type incident) "other"%string) incident_breakdown)
                incidents [] in
    Ok {| s_risk_score := round2 area_risk;
          s_risk_level := _get_risk_level area_risk;
          s_total_incidents := Z.of_nat (length incidents);
          s_total_panic_alerts := Z.of_nat (length panic_alerts);
          s_incident_breakdown := incident_breakdown;
          s_time_period := "30 days" |} in
  match attempt with
  | Ok summary => summary
  | Err _ => default_summary
  end.

(** ** Ranges *)

Lemma time_modifier_range (time_of_day : string) :
  0.8 <= _get_time_risk_modifier time_of_day <= 1.5.
Proof.
  unfold _get_time_risk_modifier, time_modifiers. cbn [dict_get].
  repeat match goal with |- context [String.eqb ?a ?b] => destruct (String.eqb a b) end;
    split; vm_compute; discriminate.
Qed.

Lemma incident_risk_floor (incident : Incident) : 0.5 <= incident_risk incident.
Proof.
  unfold incident_risk, incident_weights, severity_multipliers. cbv zeta. cbn [dict_get].
  repeat match goal with |- context [String.eqb ?a ?b] => destruct (String.eqb a b) end;
    vm_compute; discriminate.
Qed.

(** Every weight times every multiplier is a number of quarters. *)
Lemma incident_risk_quarters (incident : Incident) :
  exists k : Z, incident_risk incident * 4 == inject_Z k.
Proof.
  unfold incident_risk, incident_weights, severity_multipliers. cbv zeta. cbn [dict_get].
  repeat match goal with |- context [String.eqb ?a ?b] => destruct (String.eqb a b) end;
    match goal with |- exists k, ?x * 4 == _ => exists (Qfloor (x * 4)) end;
    vm_compute; reflexivity.
Qed.

Lemma incident_score_quarters (incidents : list Incident) :
  exists k : Z, Qsum (map incident_risk incidents) * 4 == inject_Z k.
Proof.
  induction incidents as [|incident rest [k IH]]; simpl.
  - exists 0%Z. reflexivity.
  - destruct (incident_risk_quarters incident) as [k1 H1].
    exists (k1 + k)%Z. rewrite inject_Z_plus, <- H1, <- IH. ring.
Qed.

Lemma incident_score_floor (incidents : list Incident) :
  Qlen incidents * 0.5 <= Qsum (map incident_risk incidents).
Proof.
  unfold Qlen. induction incidents as [|incident rest IH].
  - vm_compute. discriminate.
  - cbn [map Qsum fold_right length]. fold (Qsum (map incident_risk rest)).
    rewrite Nat2Z.inj_succ. unfold Z.succ. rewrite inject_Z_plus.
    pose proof (incident_risk_floor incident) as H.
    change (inject_Z 1) with 1. lra.
Qed.

Lemma point_risk_cap (incidents : list Incident) (panic_alerts : list PanicAlert) :
  _calculate_point_risk incidents panic_alerts <= 80.
Proof.
  unfold _calculate_point_risk. cbv zeta.
  apply Q.max_lub; [lra|]. apply Q.le_min_l.
Qed.

(** The point risk is a whole number. *)
Lemma point_risk_whole (incidents : list Incident) (panic_alerts : list PanicAlert) :
  exists k : Z, _calculate_point_risk incidents panic_alerts == inject_Z k.
Proof.
  destruct (incident_score_quarters incidents) as [k Hk].
  set (n := Z.of_nat (length panic_alerts)).
  assert (Hv : (Qsum (map incident_risk incidents) + Qlen panic_alerts * 2) / 10 * 80
               == inject_Z (2 * k + 16 * n)).
  { rewrite inject_Z_plus, !inject_Z_mult, <- Hk. unfold Qlen. fold n.
    change (inject_Z 2) with 2. change (inject_Z 16) with 16. field. }
  pose proof (point_risk_formula incidents panic_alerts) as Hf.
  destruct (Q.max_spec 5 (Qmin 80 ((Qsum (map incident_risk incidents)
                                    + Qlen panic_alerts * 2) / 10 * 80)))
    as [[_ Hmax]|[_ Hmax]]; [|exists 5%Z; rewrite Hf, Hmax; reflexivity].
  destruct (Q.min_spec 80 ((Qsum (map incident_risk incidents)
                            + Qlen panic_alerts * 2) / 10 * 80))
    as [[_ Hmin]|[_ Hmin]]; [exists 80%Z; rewrite Hf, Hmax, Hmin; reflexivity|].
  exists (2 * k + 16 * n)%Z. rewrite Hf, Hmax, Hmin. exact Hv.
Qed.

Lemma round_half_even_whole (k : Z) : round_half_even (inject_Z k) = k.
Proof.
  unfold round_half_even. cbv zeta. rewrite Qfloor_Z.
  assert (H : Qltb (inject_Z k - inject_Z k) (1 # 2) = true).
  { apply Qltb_lt. assert (H0 : inject_Z k - inject_Z k == 0) by ring.
    rewrite H0. reflexivity. }
  rewrite H. reflexivity.
Qed.

Lemma round2_whole (x : Q) (k : Z) : x == inject_Z k -> round2 x == x.
Proof.
  intros H. rewrite (round2_comp _ _ H). unfold round2.
  rewrite (round_half_even_comp (inject_Z k * 100) (inject_Z (k * 100)))
    by (rewrite inject_Z_mult; reflexivity).
  rewrite round_half_even_whole, inject_Z_mult, H.
  change (inject_Z 100) with 100. field.
Qed.

Lemma risk_level_comp (x y : Q) : x == y -> _get_risk_level x = _get_risk_level y.
Proof.
  intros H. unfold _get_risk_level.
  rewrite !(Qltb_comp x y _ _ H (Qeq_refl _)). reflexivity.
Qed.

Lemma breakdown_counts (incidents : list Incident) :
  Zsum (map snd (fold_left (fun incident_breakdown incident =>
                              bump (get (i_type incident) "other"%string)
                                   incident_breakdown)
                           incidents []))
  = Z.of_nat (length incidents).
Proof.
  assert (H : forall d,
             Zsum (map snd (fold_left (fun incident_breakdown incident =>
                                         bump (get (i_type incident) "other"%string)
                                              incident_breakdown)
                                      incidents d))
             = (Zsum (map snd d) + Z.of_nat (length incidents))%Z).
  { induction incidents as [|i rest IH]; intros d; simpl fold_left; [simpl; lia|].
    rewrite IH, bump_total. simpl length. lia. }
  rewrite H. simpl. lia.
Qed.

(** X21. The point risk lies between 5 and 80 and never falls when
    incidents or panic alerts are added. Five panic alerts, or twenty
    incidents of whatever type and severity, are enough for the cap of
    80. *)
Theorem point_risk_range_and_growth :
  forall (incidents more_incidents : list Incident)
         (panic_alerts more_alerts : list PanicAlert),
    5 <= _calculate_point_risk incidents panic_alerts <= 80 /\
    _calculate_point_risk incidents panic_alerts
      <= _calculate_point_risk (incidents ++ more_incidents) (panic_alerts ++ more_alerts) /\
    ((5 <= length panic_alerts)%nat ->
     _calculate_point_risk incidents panic_alerts == 80) /\
    ((20 <= length incidents)%nat ->
     _calculate_point_risk incidents panic_alerts == 80).
Proof.
  intros incidents more_incidents panic_alerts more_alerts.
  pose proof (incident_score_floor incidents) as Hfloor.
  pose proof (incident_score_floor more_incidents) as Hmore.
  assert (Hlen : forall (A : Type) (l : list A), 0 <= Qlen l).
  { intros A l. unfold Qlen. change 0 with (inject_Z 0). rewrite <- Zle_Qle. lia. }
  pose proof (Hlen _ incidents) as Hi. pose proof (Hlen _ more_incidents) as Hmi.
  pose proof (Hlen _ panic_alerts) as Ha. pose proof (Hlen _ more_alerts) as Hma.
  assert (Hscale : forall t : Q, t / 10 * 80 == t * 8) by (intros t; field).
  assert (Hsaturated : 10 <= Qsum (map incident_risk incidents) + Qlen panic_alerts * 2 ->
                       _calculate_point_risk incidents panic_alerts == 80).
  { intros H. rewrite point_risk_formula, Hscale.
    rewrite Q.min_l by lra. rewrite Q.max_r by lra. reflexivity. }
  split; [split; [apply point_risk_floor|apply point_risk_cap]|].
  split.
  - rewrite !point_risk_formula, !Hscale.
    apply Q.max_le_compat_l. apply Q.min_le_compat_l.
    rewrite map_app.
    assert (Happ : Qsum (map incident_risk incidents ++ map incident_risk more_incidents)
                   == Qsum (map incident_risk incidents)
                      + Qsum (map incident_risk more_incidents)).
    { unfold Qsum. generalize (map incident_risk incidents) as l.
      induction l as [|x l IH]; simpl; [lra|]. rewrite IH. lra. }
    rewrite Happ.
    assert (Hcount : Qlen (panic_alerts ++ more_alerts)
                     == Qlen panic_alerts + Qlen more_alerts).
    { unfold Qlen. rewrite length_app, Nat2Z.inj_add, inject_Z_plus. reflexivity. }
    rewrite Hcount. lra.
  - split; intros H; apply Hsaturated.
    + assert (H5 : 5 <= Qlen panic_alerts).
      { unfold Qlen. change 5 with (inject_Z 5). rewrite <- Zle_Qle. lia. }
      lra.
    + assert (H20 : 20 <= Qlen incidents).
      { unfold Qlen. change 20 with (inject_Z 20). rewrite <- Zle_Qle. lia. }
      lra.
Qed.

(** X22. Whatever the store answers, the level of an area summary is
    the level of the score it reports (below 25 low, below 50 moderate,
    below 75 high, else critical), the score lies between 5 and 80, and
    the counts of the breakdown by type add up to the total of incidents.
    When a query raises, the summary is the default one: 25.0, moderate,
    no incident, no alert. *)
Theorem area_summary_is_consistent :
  forall (now : datetime) (center_lat center_lng radius_km : Q),
    let summary := get_area_risk_summary now center_lat center_lng radius_km in
    s_risk_level summary = _get_risk_level (s_risk_score summary) /\
    5 <= s_risk_score summary <= 80 /\
    Zsum (map snd (s_incident_breakdown summary)) = s_total_incidents summary /\
    s_time_period summary = "30 days"%string /\
    ((forall incidents,
         get_incidents_in_area db_client center_lat center_lng radius_km
                               (minus_days now 30) <> Ok incidents) \/
     (forall panic_alerts,
         get_panic_alerts_in_area db_client center_lat center_lng radius_km
                                  (minus_days now 30) <> Ok panic_alerts) ->
     summary = default_summary).
Proof.
  intros now center_lat center_lng radius_km summary. subst summary.
  unfold get_area_risk_summary.
  destruct (get_incidents_in_area db_client center_lat center_lng radius_km
              (minus_days now 30)) as [incidents|e]; cbn [bind].
  2:{ repeat split; vm_compute; discriminate. }
  destruct (get_panic_alerts_in_area db_client center_lat center_lng radius_km
              (minus_days now 30)) as [panic_alerts|e]; cbn [bind].
  2:{ repeat split; vm_compute; discriminate. }
  cbv zeta. cbn [s_risk_level s_risk_score s_incident_breakdown s_total_incidents
                 s_time_period].
  destruct (point_risk_whole incidents panic_alerts) as [k Hk].
  pose proof (round2_whole _ _ Hk) as Hround.
  split; [apply risk_level_comp; symmetry; exact Hround|].
  split.
  - rewrite Hround. split; [apply point_risk_floor|apply point_risk_cap].
  - split; [apply breakdown_counts|]. split; [reflexivity|].
    intros [H|H]; [exfalso; exact (H incidents eq_refl)|exfalso; exact (H panic_alerts eq_refl)].
Qed.

(** A point that cannot be surveyed stops the loop. *)
Lemma historical_loop_fails (now : datetime) (point : RoutePoint) (e : exn) :
  point_risk_at now point = Err e ->
  forall all_points total_risk point_count,
    In point all_points ->
    exists e', historical_loop now all_points total_risk point_count = Err e'.
Proof.
  intros Hpoint. induction all_points as [|p rest IH]; intros total_risk point_count Hin.
  - destruct Hin.
  - simpl historical_loop.
    destruct (point_risk_at now p) as [risk|e'] eqn:Hp; cbn [bind].
    + destruct Hin as [Heq|Hin]; [subst p; congruence|].
      apply IH. exact Hin.
    + exists e'. reflexivity.
Qed.

(** X23. A route without start or end scores the default 30.0. When
    both are there but one point of the route, an endpoint or a waypoint,
    lacks a coordinate or has a query raise, the history of every point is
    dropped: the base risk is the default 20.0 and the score is
    [20 * time_modifier * route_modifier], capped at 100 and rounded. *)
Theorem failed_point_discards_route_history :
  forall (now : datetime) (route : Route) (time_of_day : string) (uid : option string),
    (r_start route = None \/ r_end route = None ->
     predict_route_risk now route time_of_day uid = 30.0) /\
    (forall start_point end_point point e,
        r_start route = Some start_point ->
        r_end route = Some end_point ->
        In point ([start_point] ++ get (r_waypoints route) [] ++ [end_point]) ->
        point_risk_at now point = Err e ->
        _calculate_historical_risk now start_point end_point (get (r_waypoints route) [])
          = 20.0 /\
        predict_route_risk now route time_of_day uid
          = round2 (Qmin 100 (20.0 * _get_time_risk_modifier time_of_day
                              * _get_route_characteristics_modifier route))).
Proof.
  intros now route time_of_day uid. split.
  - unfold predict_route_risk, predict_route_risk_try.
    intros [H|H]; rewrite H; [reflexivity|].
    destruct (r_start route); reflexivity.
  - intros start_point end_point point e Hstart Hend Hin Hpoint.
    assert (Hbase : _calculate_historical_risk now start_point end_point
                      (get (r_waypoints route) []) = 20.0).
    { unfold _calculate_historical_risk. cbv zeta.
      destruct (historical_loop_fails now point e Hpoint _ 0 0%Z Hin) as [e' He'].
      rewrite He'. reflexivity. }
    split; [exact Hbase|].
    unfold predict_route_risk, predict_route_risk_try.
    rewrite Hstart, Hend. cbn [getitem bind]. cbv zeta. cbn [pr_risk_score].
    rewrite Hbase. reflexivity.
Qed.

Lemma historical_loop_floor (now : datetime) :
  forall all_points total_risk point_count totals,
    historical_loop now all_points total_risk point_count = Ok totals ->
    total_risk - 5 * inject_Z point_count <= fst totals - 5 * inject_Z (snd totals) /\
    snd totals = (point_count + Z.of_nat (length all_points))%Z.
Proof.
  induction all_points as [|point rest IH]; intros total_risk point_count totals H;
    simpl in H.
  - inversion H; subst. simpl. split; [lra|lia].
  - apply bind_Ok in H. destruct H as [risk [Hrisk H]].
    apply point_risk_at_floor in Hrisk.
    destruct (IH _ _ _ H) as [Hsum Hcount].
    split; [|rewrite Hcount; simpl length; lia].
    rewrite inject_Z_plus in Hsum. change (inject_Z 1) with 1 in Hsum. lra.
Qed.

Lemma historical_risk_range (now : datetime) (start_point end_point : RoutePoint)
  (waypoints : list RoutePoint) :
  5 <= _calculate_historical_risk now start_point end_point waypoints <= 80.
Proof.
  unfold _calculate_historical_risk. cbv zeta.
  destruct (historical_loop now ([start_point] ++ waypoints ++ [end_point]) 0 0%Z)
    as [totals|e] eqn:E; cbn [bind]; [|split; lra].
  split; [|apply Q.le_min_l].
  destruct (historical_loop_floor now _ _ _ _ E) as [Hsum Hcount].
  apply Q.min_glb; [lra|].
  destruct (0 <? snd totals)%Z eqn:Epos; [|lra].
  apply Z.ltb_lt in Epos.
  assert (Hpos : 0 < inject_Z (snd totals)).
  { change 0 with (inject_Z 0). rewrite <- Zlt_Qlt. exact Epos. }
  apply Qle_shift_div_l; [exact Hpos|].
  change (inject_Z 0) with 0 in Hsum. lra.
Qed.

Lemma route_modifier_floor (route : Route) :
  (forall a b : LatLng, 0 <= geodesic_km a b) ->
  1 <= _get_route_characteristics_modifier route.
Proof.
  intros Hgeo. unfold _get_route_characteristics_modifier. cbv zeta.
  destruct (r_start route) as [start|]; cbn [getitem bind]; [|lra].
  destruct (r_end route) as [end_|]; cbn [getitem bind]; [|lra].
  destruct (p_lat start) as [slat|]; cbn [getitem bind]; [|lra].
  destruct (p_lng start) as [slng|]; cbn [getitem bind]; [|lra].
  destruct (p_lat end_) as [elat|]; cbn [getitem bind]; [|lra].
  destruct (p_lng end_) as [elng|]; cbn [getitem bind]; [|lra].
  apply Q.min_glb; [lra|].
  pose proof (Hgeo (slat, slng) (elat, elng)) as Hd.
  assert (Hn : 0 <= Qlen (get (r_waypoints route) [])).
  { unfold Qlen. change 0 with (inject_Z 0). rewrite <- Zle_Qle. lia. }
  set (d := geodesic_km (slat, slng) (elat, elng)) in *.
  set (n := Qlen (get (r_waypoints route) [])) in *.
  assert (Hd' : 1 <= 1.0 + d / 100 * 0.1).
  { assert (Hdiv : d / 100 == d * (1 # 100)) by reflexivity. rewrite Hdiv. lra. }
  assert (Hn' : 1 <= 1.0 + n * 0.05) by lra.
  set (a := 1.0 + d / 100 * 0.1) in *. set (b := 1.0 + n * 0.05) in *.
  assert (Hprod : 0 <= (a - 1) * b) by (apply Qmult_le_0_compat; lra).
  lra.
Qed.

(** X24. As long as the geodesic distance is never negative, every
    score [predict_route_risk] returns lies between 4 and 100, whatever
    the route, the time of day and the answers of the store; the base
    risk lies between 5 and 80, the time modifier between 0.8 and 1.5 and
    the route modifier between 1 and 1.5. *)
Theorem route_risk_score_range :
  forall (now : datetime) (route : Route) (time_of_day : string) (uid : option string),
    (forall a b : LatLng, 0 <= geodesic_km a b) ->
    4 <= predict_route_risk now route time_of_day uid <= 100 /\
    0.8 <= _get_time_risk_modifier time_of_day <= 1.5 /\
    1 <= _get_route_characteristics_modifier route <= 1.5 /\
    (forall start_point end_point waypoints,
        5 <= _calculate_historical_risk now start_point end_point waypoints <= 80).
Proof.
  intros now route time_of_day uid Hgeo.
  pose proof (time_modifier_range time_of_day) as Htime.
  pose proof (route_modifier_floor route Hgeo) as Hroute.
  pose proof (route_modifier_cap route) as Hcap.
  split; [|split; [exact Htime|split; [split; assumption|apply historical_risk_range]]].
  unfold predict_route_risk, predict_route_risk_try.
  destruct (r_start route) as [start_point|]; cbn [getitem bind];
    [|split; vm_compute; discriminate].
  destruct (r_end route) as [end_point|]; cbn [getitem bind];
    [|split; vm_compute; discriminate].
  cbv zeta. cbn [pr_risk_score].
  pose proof (historical_risk_range now start_point end_point (get (r_waypoints route) []))
    as Hbase.
  set (base := _calculate_historical_risk now start_point end_point
                 (get (r_waypoints route) [])) in *.
  set (tm := _get_time_risk_modifier time_of_day) in *.
  set (rm := _get_route_characteristics_modifier route) in *.
  assert (H4 : 4 <= Qmin 100 (base * tm * rm)).
  { apply Q.min_glb; [lra|].
    assert (H1 : 0 <= (base - 5) * tm) by (apply Qmult_le_0_compat; lra).
    assert (H2 : 0 <= (base * tm) * (rm - 1)) by (apply Qmult_le_0_compat; lra).
    lra. }
  assert (H100 : Qmin 100 (base * tm * rm) <= 100) by apply Q.le_min_l.
  split.
  - apply (Qle_trans _ (round2 4)); [vm_compute; discriminate|].
    apply round2_mono. exact H4.
  - apply (Qle_trans _ (round2 100)); [|vm_compute; discriminate].
    apply round2_mono. exact H100.
Qed.

(** X25. A time of day that is not one of morning, afternoon, evening,
    night and late_night is scored like the default [day], with the
    multiplier 1.0. *)
Theorem unknown_time_of_day_is_neutral :
  forall (now : datetime) (route : Route) (time_of_day : string) (uid : option string),
    ~ In time_of_day ["morning"; "afternoon"; "evening"; "night"; "late_night"]%string ->
    _get_time_risk_modifier time_of_day = 1.0 /\
    predict_route_risk now route time_of_day uid = predict_route_risk now route "day" uid.
Proof.
  intros now route time_of_day uid Hnot.
  assert (Hmod : _get_time_risk_modifier time_of_day = 1.0).
  { unfold _get_time_risk_modifier, time_modifiers. cbn [dict_get].
    repeat match goal with
           | |- context [String.eqb ?a time_of_day] =>
               destruct (String.eqb_spec a time_of_day) as [Heq|_];
               [exfalso; apply Hnot; rewrite <- Heq; simpl; tauto|]
           end.
    reflexivity. }
  split; [exact Hmod|].
  unfold predict_route_risk, predict_route_risk_try.
  destruct (r_start route); cbn [getitem bind]; [|reflexivity].
  destruct (r_end route); cbn [getitem bind]; [|reflexivity].
  cbv zeta. cbn [pr_risk_score]. rewrite Hmod. reflexivity.
Qed.

End Engine.

(** ** Concrete runs *)

Lemma taxicab_km_nonneg (a b : LatLng) : 0 <= AnomalyDetector.taxicab_km a b.
Proof.
  unfold AnomalyDetector.taxicab_km.
  pose proof (Qabs_nonneg (fst a - fst b)). pose proof (Qabs_nonneg (snd a - snd b)).
  apply Qmult_le_0_compat; lra.
Qed.

(** A store without incidents or alerts. *)
Definition quiet_gateway : Gateway :=
  {| get_incidents_in_area := fun _ _ _ _ => Ok [];
     get_panic_alerts_in_area := fun _ _ _ _ => Ok [];
     store_risk_prediction := fun _ => Ok tt |}.

(** A store that reports one accident of medium severity and one panic
    alert around every point. *)
Definition busy_gateway : Gateway :=
  {| get_incidents_in_area := fun _ _ _ _ =>
       Ok [incident_at 28.6 77.2 "accident" "medium" at_noon];
     get_panic_alerts_in_area := fun _ _ _ _ =>
       Ok [{| a_location := Some (Some (77.2, 28.6));
              a_timestamp := Some (StampDatetime at_noon) |}];
     store_risk_prediction := fun _ => Ok tt |}.

Definition south_end : RoutePoint := {| p_lat := Some 28.6; p_lng := Some 77.2 |}.
Definition north_end : RoutePoint := {| p_lat := Some 28.7; p_lng := Some 77.2 |}.

(** Some 11 km, no waypoints. *)
Definition short_route : Route :=
  {| r_start := Some south_end; r_end := Some north_end; r_waypoints := None |}.

(** A route whose start has lost its latitude. *)
Definition broken_route : Route :=
  {| r_start := Some {| p_lat := None; p_lng := Some 77.2 |};
     r_end := Some north_end; r_waypoints := None |}.

(** With nothing in the store the base risk of the short route is 5
    and the score at [day] is 5.06; neither is 20. *)
Lemma quiet_route_scores_five :
  _calculate_historical_risk default_config quiet_gateway at_noon south_end north_end [] == 5 /\
  predict_route_risk default_config quiet_gateway AnomalyDetector.taxicab_km
    at_noon short_route "day" None == 5.06 /\
  ~ _calculate_historical_risk default_config quiet_gateway at_noon south_end north_end []
    == 20 /\
  ~ predict_route_risk default_config quiet_gateway AnomalyDetector.taxicab_km
      at_noon short_route "day" None == 20.
Proof. vm_compute. repeat split; discriminate. Qed.

(** The default of 20 is what the handler of
    [_calculate_historical_risk] returns, here for a missing key. *)
Example broken_route_base_risk :
  _calculate_historical_risk default_config quiet_gateway at_noon
    {| p_lat := None; p_lng := Some 77.2 |} north_end [] = 20.0 /\
  predict_route_risk default_config quiet_gateway AnomalyDetector.taxicab_km
    at_noon broken_route "day" None == 20.
Proof. vm_compute. split; reflexivity. Qed.

Lemma quiet_route_risk_witness :
  _calculate_historical_risk default_config quiet_gateway at_noon south_end north_end [] == 5 /\
  _get_time_risk_modifier "day" = 1.0 /\
  predict_route_risk default_config quiet_gateway AnomalyDetector.taxicab_km
    at_noon short_route "day" None
    = round2 (5 * _get_route_characteristics_modifier AnomalyDetector.taxicab_km short_route) /\
  _get_route_characteristics_modifier AnomalyDetector.taxicab_km short_route
    = Qmin 1.5 ((1.0 + AnomalyDetector.taxicab_km (28.6, 77.2) (28.7, 77.2) / 100 * 0.1)
                * (1.0 + 0 * 0.05)).
Proof.
  apply (quiet_route_risk default_config quiet_gateway AnomalyDetector.taxicab_km
           at_noon None 28.6 77.2 28.7 77.2); reflexivity.
Defined.

Lemma route_risk_formula_witness :
  let base_risk :=
    _calculate_historical_risk default_config busy_gateway at_noon south_end north_end [] in
  let final :=
    Qmin 100 (base_risk * _get_time_risk_modifier "night"
              * _get_route_characteristics_modifier AnomalyDetector.taxicab_km short_route) in
  base_risk == Qmin 80 (np_mean [32; 32]) /\
  hundredth_of final
    (predict_route_risk default_config busy_gateway AnomalyDetector.taxicab_km
       at_noon short_route "night" (Some "u1"%string)).
Proof.
  assert (Hsurveyed :
    Forall2 (surveyed default_config busy_gateway at_noon)
            ([south_end] ++ get (r_waypoints short_route) [] ++ [north_end])
            [_calculate_point_risk
               [incident_at 28.6 77.2 "accident" "medium" at_noon]
               [{| a_location := Some (Some (77.2, 28.6));
                   a_timestamp := Some (StampDatetime at_noon) |}];
             _calculate_point_risk
               [incident_at 28.6 77.2 "accident" "medium" at_noon]
               [{| a_location := Some (Some (77.2, 28.6));
                   a_timestamp := Some (StampDatetime at_noon) |}]]).
  { constructor; [|constructor; [|constructor]].
    - exists 28.6, 77.2. eexists. eexists. repeat split; reflexivity.
    - exists 28.7, 77.2. eexists. eexists. repeat split; reflexivity. }
  pose proof (route_risk_formula default_config busy_gateway AnomalyDetector.taxicab_km
                at_noon short_route "night" (Some "u1"%string) south_end north_end _
                eq_refl eq_refl Hsurveyed) as H.
  cbv zeta in H. destruct H as [_ [_ [_ [Hbase [_ Hfinal]]]]].
  cbv zeta. split; [|exact Hfinal].
  rewrite Hbase. vm_compute. reflexivity.
Defined.

Example busy_route_at_night :
  predict_route_risk default_config busy_gateway AnomalyDetector.taxicab_km
    at_noon short_route "night" (Some "u1"%string) == 42.06.
Proof. vm_compute. reflexivity. Qed.

Lemma risk_monotone_in_time_of_day_witness :
  let score := fun time_of_day =>
    predict_route_risk default_config busy_gateway AnomalyDetector.taxicab_km
      at_noon short_route time_of_day (Some "u1"%string) in
  (score "morning" <= score "afternoon" /\
   score "afternoon" <= score "evening" /\
   score "evening" <= score "night" /\
   score "night" <= score "late_night")%string /\
  (_get_time_risk_modifier "morning" = 0.8 /\
   _get_time_risk_modifier "afternoon" = 0.9 /\
   _get_time_risk_modifier "evening" = 1.1 /\
   _get_time_risk_modifier "night" = 1.3 /\
   _get_time_risk_modifier "late_night" = 1.5)%string.
Proof.
  exact (risk_monotone_in_time_of_day default_config busy_gateway AnomalyDetector.taxicab_km
           taxicab_km_nonneg at_noon short_route (Some "u1"%string)).
Defined.

Lemma route_risk_score_range_witness :
  (forall a b : LatLng, 0 <= AnomalyDetector.taxicab_km a b) /\
  4 <= predict_route_risk default_config busy_gateway AnomalyDetector.taxicab_km
         at_noon short_route "night" (Some "u1"%string) <= 100 /\
  4 <= predict_route_risk default_config quiet_gateway AnomalyDetector.taxicab_km
         at_noon broken_route "morning" None <= 100.
Proof.
  split; [exact taxicab_km_nonneg|].
  split.
  - exact (proj1 (route_risk_score_range default_config busy_gateway
                    AnomalyDetector.taxicab_km at_noon short_route "night"
                    (Some "u1"%string) taxicab_km_nonneg)).
  - exact (proj1 (route_risk_score_range default_config quiet_gateway
                    AnomalyDetector.taxicab_km at_noon broken_route "morning"
                    None taxicab_km_nonneg)).
Defined.

(** [late_evening], which the threat assessment of the application
    knows, is not a key of the table of the predictor. *)
Lemma unknown_time_of_day_is_neutral_witness :
  _get_time_risk_modifier "late_evening" = 1.0 /\
  predict_route_risk default_config busy_gateway AnomalyDetector.taxicab_km
    at_noon short_route "late_evening" None
  = predict_route_risk default_config busy_gateway AnomalyDetector.taxicab_km
      at_noon short_route "day" None.
Proof.
  apply (unknown_time_of_day_is_neutral default_config busy_gateway
           AnomalyDetector.taxicab_km at_noon short_route "late_evening" None).
  simpl. intros H. decompose [or] H; try discriminate. assumption.
Defined.

(** A waypoint without longitude on a route through a busy area: the
    two endpoints would give a base risk of 32, the route gets 20. *)
Example lost_waypoint_base_risk :
  let waypoint := {| p_lat := Some 28.65; p_lng := None |} in
  _calculate_historical_risk default_config busy_gateway at_noon south_end north_end []
    == 32 /\
  _calculate_historical_risk default_config busy_gateway at_noon south_end north_end
    [waypoint] = 20.0.
Proof. vm_compute. split; reflexivity. Qed.

(** An area in which the store reports one accident and one alert. *)
Example busy_area_summary :
  get_area_risk_summary busy_gateway at_noon 28.6 77.2 5.0
  = {| s_risk_score := round2 32; s_risk_level := "moderate";
       s_total_incidents := 1; s_total_panic_alerts := 1;
       s_incident_breakdown := [("accident"%string, 1%Z)];
       s_time_period := "30 days" |}.
Proof. vm_compute. reflexivity. Qed.

(** A route that stays at one place with one waypoint there, in the
    afternoon, nothing in the store: [5 * 0.9 * 1.05] is 4.725, a tie, and
    4.72 and 4.73 are the two hundredths next to it. *)
Definition standing_route : Route :=
  {| r_start := Some south_end; r_end := Some south_end; r_waypoints := Some [south_end] |}.

Example standing_route_tie :
  let final :=
    Qmin 100 (_calculate_historical_risk default_config quiet_gateway at_noon south_end
                south_end [south_end]
              * _get_time_risk_modifier "afternoon"
              * _get_route_characteristics_modifier AnomalyDetector.taxicab_km
                  standing_route) in
  final == 4.725 /\ hundredth_of final 4.72 /\ hundredth_of final 4.73.
Proof.
  cbv zeta. split; [vm_compute; reflexivity|].
  split; [exists 472%Z|exists 473%Z]; split;
    first [reflexivity | left; vm_compute; reflexivity | right; vm_compute; reflexivity].
Qed.

End RiskPredictor.

(** * [app.py] *)

Module App.

(** What an endpoint answers on a request of the documented shape: the
    JSON body of a 200, or the error of a 400. *)
Inductive Response (A : Type) : Type :=
| Json (body : A)
| BadRequest (error : string).

Arguments Json {A} body.
Arguments BadRequest {A} error.

Definition _get_risk_level (score : Q) : string :=
  if Qltb score 25 then "low"%string
  else if Qltb score 50 then "moderate"%string
  else if Qltb score 75 then "high"%string
  else "critical"%string.

Definition _get_risk_recommendations (score : Q) : list string :=
  if Qltb score 25
  then ["Maintain normal safety awareness"; "Keep emergency contacts updated"]%string
  else if Qltb score 50
  then ["Stay alert"; "Share your location with trusted contacts";
        "Avoid isolated areas"]%string
  else if Qltb score 75
  then ["Consider alternative routes"; "Travel in groups if possible";
        "Inform others of your plans"]%string
  else ["Strongly consider avoiding this route"; "Use alternative transportation";
        "Contact local authorities if necessary"]%string.

(** The ['context'] dict of a threat request. *)
Record Context : Type := {
  c_time_of_day : option string;
  c_weather : option string
}.

Record Assessment : Type := {
  t_level : string;
  t_score : Z;
  t_factors : list string;
  t_recommendations : list string
}.

Definition _assess_threat_level {L U : Type} (location : L) (user_profile : U)
  (context : Context) : Assessment :=
  let base_score := 20%Z in
  let factors : list string := [] in
  let time_of_day := get (c_time_of_day context) "day"%string in
  let '(base_score, factors) :=
    if String.eqb time_of_day "night" || String.eqb time_of_day "late_evening"
    then ((base_score + 15)%Z, factors ++ ["Late hour increases risk"%string])
    else if String.eqb time_of_day "evening"
    then ((base_score + 8)%Z, factors ++ ["Evening hours have moderate risk"%string])
    else (base_score, factors) in
  let '(base_score, factors) :=
    match c_weather context with
    | Some weather =>
        if String.eqb weather "rainy" || String.eqb weather "foggy"
        then ((base_score + 10)%Z, factors ++ ["Poor weather conditions"%string])
        else (base_score, factors)
    | None => (base_score, factors)
    end in
  let '(level, recommendations) :=
    if (base_score <? 30)%Z
    then ("low"%string, ["Normal safety precautions"%string])
    else if (base_score <? 50)%Z
    then ("moderate"%string,
          ["Increased awareness recommended"; "Share location with contacts"]%string)
    else if (base_score <? 70)%Z
    then ("high"%string, ["Exercise caution"; "Consider alternative routes"]%string)
    else ("critical"%string,
          ["Avoid area if possible"; "Contact emergency services if in danger"]%string) in
  {| t_level := level;
     t_score := Z.min 100 base_score;
     t_factors := factors;
     t_recommendations := recommendations |}.

(** The payload of [/api/risk/predict]. *)
Record RiskRequest : Type := {
  rq_route : option RiskPredictor.Route;
  rq_time_of_day : option string;
  rq_user_id : option string
}.

Record RiskReply : Type := {
  rr_risk_score : Q;
  rr_risk_level : string;
  rr_recommendations : list string;
  rr_timestamp : datetime
}.

(** The payload of [/api/anomaly/detect]. *)
Record AnomalyRequest : Type := {
  aq_user_id : option string;
  aq_location_data : option (list AnomalyDetector.TelemetryPoint)
}.

Record AnomalyReply : Type := {
  ar_is_anomaly : bool;
  ar_confidence_score : Q;
  ar_anomaly_type : option string;
  ar_details : option string;
  ar_timestamp : datetime
}.

Section Endpoints.

Variable config : Config.
(** The one [db_client], as the predictor and as the detector use it. *)
Variable risk_db : RiskPredictor.Gateway.
Variable anomaly_db : AnomalyDetector.Gateway.
Variable geodesic_km : LatLng -> LatLng -> Q.
Variable arctan2 : Q -> Q -> Q.
Variable pi : Q.
Variable np_std : list Q -> Q.
Variable np_percentile : list Q -> Q -> Q.
Variable fmt_1f : Q -> string.
Variable fmt_pct1 : Q -> string.

(** [risk_predictor.predict_route_risk] and
    [anomaly_detector.detect_anomalies] of the two global objects. *)
Definition risk_predictor_predict_route_risk : datetime -> RiskPredictor.Route -> string ->
                                               option string -> Q :=
  RiskPredictor.predict_route_risk config risk_db geodesic_km.

Definition anomaly_detector_detect_anomalies :
  datetime -> AnomalyDetector.Detector -> string -> list AnomalyDetector.TelemetryPoint ->
  AnomalyDetector.Verdict * AnomalyDetector.Detector :=
  AnomalyDetector.detect_anomalies config anomaly_db geodesic_km arctan2 pi np_std
                                   np_percentile fmt_1f fmt_pct1.

(** [data] is [None] when the request has no JSON body; [now] is the
    [utcnow()] of the predictor and [sent] that of the reply. *)
Definition predict_route_risk (now sent : datetime) (data : option RiskRequest)
  : Response RiskReply :=
  match data with
  | None => BadRequest "Route data is required"
  | Some data =>
      match rq_route data with
      | None => BadRequest "Route data is required"
      | Some route =>
          let time_of_day := get (rq_time_of_day data) "day"%string in
          let user_id := rq_user_id data in
          match RiskPredictor.r_start route, RiskPredictor.r_end route with
          | Some _, Some _ =>
              let risk_score :=
                risk_predictor_predict_route_risk now route time_of_day user_id in
              Json {| rr_risk_score := risk_score;
                      rr_risk_level := _get_risk_level risk_score;
                      rr_recommendations := _get_risk_recommendations risk_score;
                      rr_timestamp := sent |}
          | _, _ => BadRequest "Start and end coordinates are required"
          end
      end
  end.

(** The endpoint with the global detector before and after. *)
Definition detect_anomaly (now sent : datetime) (anomaly_detector : AnomalyDetector.Detector)
  (data : option AnomalyRequest) : Response AnomalyReply * AnomalyDetector.Detector :=
  match data with
  | None => (BadRequest "User ID and location data are required", anomaly_detector)
  | Some data =>
      match aq_user_id data, aq_location_data data with
      | Some user_id, Some location_data =>
          if (length location_data <? 2)%nat
          then (BadRequest "At least 2 location points are required", anomaly_detector)
          else
            let (anomaly_result, anomaly_detector') :=
              anomaly_detector_detect_anomalies now anomaly_detector user_id
                                                location_data in
            (Json {| ar_is_anomaly := AnomalyDetector.is_anomaly anomaly_result;
                     ar_confidence_score := AnomalyDetector.confidence anomaly_result;
                     ar_anomaly_type := AnomalyDetector.type anomaly_result;
                     ar_details := AnomalyDetector.details anomaly_result;
                     ar_timestamp := sent |},
             anomaly_detector')
      | _, _ => (BadRequest "User ID and location data are required", anomaly_detector)
      end
  end.

(** X27. The threat assessment scores between 20 and 45 and is never
    [high] or [critical]: [low] below 30, which is the case exactly when
    the hour is neither night nor late_evening and the weather neither
    rainy nor foggy, and [moderate] otherwise. It names at most two
    factors, and [late_night], the riskiest time of day of the route
    predictor, counts like no time of day at all. *)
Theorem threat_assessment_range :
  forall (L U : Type) (location : L) (user_profile : U) (context : Context),
    let a := _assess_threat_level location user_profile context in
    let late := String.eqb (get (c_time_of_day context) "day"%string) "night"
                || String.eqb (get (c_time_of_day context) "day"%string) "late_evening" in
    let poor := match c_weather context with
                | Some weather => String.eqb weather "rainy" || String.eqb weather "foggy"
                | None => false
                end in
    (20 <= t_score a <= 45)%Z /\
    t_level a = (if late || poor then "moderate" else "low")%string /\
    (t_level a = "low"%string <-> (t_score a < 30)%Z) /\
    (length (t_factors a) <= 2)%nat /\
    _assess_threat_level location user_profile
      {| c_time_of_day := Some "late_night"%string; c_weather := c_weather context |}
    = _assess_threat_level location user_profile
        {| c_time_of_day := None; c_weather := c_weather context |}.
Proof.
  intros L U location user_profile [tod weather] a late poor. subst a late poor.
  unfold _assess_threat_level. cbn [c_time_of_day c_weather].
  split; [|split; [|split; [|split; [|reflexivity]]]];
    destruct (String.eqb (get tod "day"%string) "night");
    destruct (String.eqb (get tod "day"%string) "late_evening");
    destruct (String.eqb (get tod "day"%string) "evening");
    destruct weather as [weather|];
    try destruct (String.eqb weather "rainy");
    try destruct (String.eqb weather "foggy");
    vm_compute;
    first [reflexivity | lia | split; intros; first [reflexivity | congruence]].
Qed.

(** X28. The route endpoint refuses with a 400 exactly the requests
    without a route or without its start or its end. Every other request
    is answered with the score of the predictor for the given time of day,
    [day] when none is given, which is then
    [min(100, base * time_modifier * route_modifier)] brought to one of
    the two hundredths next to it, and never the 30.0 the predictor keeps
    for a route without endpoints; the level and the recommendations of
    the answer are those of that score, by the thresholds 25, 50 and 75 of
    the predictor. *)
Theorem route_endpoint_contract :
  forall (now sent : datetime) (data : option RiskRequest),
    match predict_route_risk now sent data with
    | BadRequest _ =>
        forall request route,
          data = Some request -> rq_route request = Some route ->
          RiskPredictor.r_start route = None \/ RiskPredictor.r_end route = None
    | Json body =>
        exists request route start_point end_point,
          data = Some request /\ rq_route request = Some route /\
          RiskPredictor.r_start route = Some start_point /\
          RiskPredictor.r_end route = Some end_point /\
          rr_risk_score body
            = risk_predictor_predict_route_risk now route
                (get (rq_time_of_day request) "day"%string) (rq_user_id request) /\
          hundredth_of
            (Qmin 100
               (RiskPredictor._calculate_historical_risk config risk_db now start_point
                  end_point (get (RiskPredictor.r_waypoints route) [])
                * RiskPredictor._get_time_risk_modifier
                    (get (rq_time_of_day request) "day"%string)
                * RiskPredictor._get_route_characteristics_modifier geodesic_km route))
            (rr_risk_score body) /\
          rr_risk_level body = RiskPredictor._get_risk_level (rr_risk_score body) /\
          rr_recommendations body = _get_risk_recommendations (rr_risk_score body)
    end.
Proof.
  intros now sent data. unfold predict_route_risk.
  destruct data as [request|]; [|intros request route H; discriminate H].
  destruct (rq_route request) as [route|] eqn:Hroute;
    [|intros request' route H1 H2; inversion H1; subst; congruence].
  destruct (RiskPredictor.r_start route) as [start_point|] eqn:Hstart.
  - destruct (RiskPredictor.r_end route) as [end_point|] eqn:Hend.
    + exists request, route, start_point, end_point.
      cbv zeta. cbn [rr_risk_score rr_risk_level rr_recommendations].
      split; [reflexivity|]. split; [exact Hroute|].
      split; [exact Hstart|]. split; [exact Hend|].
      split; [reflexivity|]. split; [|split; reflexivity].
      unfold risk_predictor_predict_route_risk, RiskPredictor.predict_route_risk,
        RiskPredictor.predict_route_risk_try.
      rewrite Hstart, Hend. cbn [getitem bind]. cbv zeta.
      cbn [RiskPredictor.pr_risk_score]. apply round2_hundredth.
    + intros request' route' H1 H2. inversion H1; subst.
      rewrite Hroute in H2. inversion H2; subst. right. exact Hend.
  - intros request' route' H1 H2. inversion H1; subst.
    rewrite Hroute in H2. inversion H2; subst. left. exact Hstart.
Qed.

(** X29. The anomaly endpoint refuses with a 400 a request without
    user, without location data or with fewer than 2 points, and leaves
    the detector as it was. Every other request is answered with the
    verdict of the engine on the at least 2 points, so the
    insufficient-data verdict of the engine never reaches a client. *)
Theorem anomaly_endpoint_contract :
  forall (now sent : datetime) (anomaly_detector : AnomalyDetector.Detector)
         (data : option AnomalyRequest),
    match detect_anomaly now sent anomaly_detector data with
    | (BadRequest _, anomaly_detector') =>
        anomaly_detector' = anomaly_detector /\
        forall request user_id location_data,
          data = Some request -> aq_user_id request = Some user_id ->
          aq_location_data request = Some location_data ->
          (length location_data < 2)%nat
    | (Json body, anomaly_detector') =>
        exists request user_id location_data,
          data = Some request /\ aq_user_id request = Some user_id /\
          aq_location_data request = Some location_data /\
          (2 <= length location_data)%nat /\
          let result :=
            anomaly_detector_detect_anomalies now anomaly_detector user_id location_data in
          ar_is_anomaly body = AnomalyDetector.is_anomaly (fst result) /\
          ar_confidence_score body = AnomalyDetector.confidence (fst result) /\
          ar_anomaly_type body = AnomalyDetector.type (fst result) /\
          ar_details body = AnomalyDetector.details (fst result) /\
          anomaly_detector' = snd result /\
          ar_details body <> Some "Insufficient data"%string
    end.
Proof.
  intros now sent anomaly_detector data. unfold detect_anomaly.
  destruct data as [request|];
    [|split; [reflexivity|intros request user_id location_data H; discriminate H]].
  destruct (aq_user_id request) as [user_id|] eqn:Huser;
    [|split; [reflexivity|];
      intros request' user_id location_data H1 H2; inversion H1; subst; congruence].
  destruct (aq_location_data request) as [location_data|] eqn:Hdata;
    [|split; [reflexivity|];
      intros request' user_id' location_data H1 H2 H3; inversion H1; subst; congruence].
  destruct (length location_data <? 2)%nat eqn:Hlen.
  - split; [reflexivity|].
    intros request' user_id' location_data' H1 H2 H3. inversion H1; subst.
    rewrite Hdata in H3. inversion H3; subst. apply Nat.ltb_lt. exact Hlen.
  - apply Nat.ltb_ge in Hlen.
    pose proof (AnomalyDetector.detect_anomalies_detailed config anomaly_db geodesic_km
                  arctan2 pi np_std np_percentile fmt_1f fmt_pct1 now anomaly_detector
                  user_id location_data Hlen) as Hdetails.
    fold (anomaly_detector_detect_anomalies now anomaly_detector user_id location_data)
      in Hdetails.
    destruct (anomaly_detector_detect_anomalies now anomaly_detector user_id location_data)
      as [anomaly_result anomaly_detector'] eqn:Hresult.
    unfold AnomalyDetector.detailed in Hdetails. cbn [fst] in Hdetails.
    exists request, user_id, location_data.
    cbv zeta. rewrite Hresult.
    cbn [fst snd ar_is_anomaly ar_confidence_score ar_anomaly_type ar_details].
    split; [reflexivity|]. split; [exact Huser|]. split; [exact Hdata|].
    split; [exact Hlen|].
    split; [reflexivity|]. split; [reflexivity|]. split; [reflexivity|].
    split; [reflexivity|]. split; [reflexivity|exact Hdetails].
Qed.

End Endpoints.

End App.
